(** * build_dc_fidb.py: a shallow embedding and its properties

    The script walks a Dreamcast SDK tree, classifies every object file
    and archive by toolchain and build variant, copies or unpacks it into
    a work directory and then drives Ghidra's headless analyzer twice.

    The embedding follows the script function by function.  Everything the
    script does to the outside world goes through one state: the file
    system, the module-level [tools] dictionary, and a trace of observable
    events (printed lines, files opened, processes started).  A function
    of the script is a computation over that state which returns, raises
    a Python exception, or leaves through [exit]. *)

From stdpp Require Import gmap strings list fin_maps pretty.
From Stdlib Require Import Ascii ZArith Lia.
From Stdlib Require String.

(** ** Python strings *)

Module PyStr.

(** [str.lower()] on the ASCII range; other bytes are left as they are. *)
Definition lower_ascii (c : ascii) : ascii :=
  let n := nat_of_ascii c in
  if (65 <=? n)%nat && (n <=? 90)%nat then ascii_of_nat (n + 32) else c.

Fixpoint lower (s : string) : string :=
  match s with
  | EmptyString => EmptyString
  | String c s' => String (lower_ascii c) (lower s')
  end.

Definition chars (s : string) : list ascii := String.list_ascii_of_string s.

(** [s.endswith(suf)] *)
Definition endswith (s suf : string) : bool :=
  bool_decide (chars suf `suffix_of` chars s).

(** [s.endswith((a, b, ...))] *)
Definition endswith_any (s : string) (sufs : list string) : bool :=
  existsb (endswith s) sufs.

(** [sub in s] *)
Fixpoint contains (sub s : string) : bool :=
  String.prefix sub s ||
  match s with
  | EmptyString => false
  | String _ s' => contains sub s'
  end.

(** [s.rfind(".")], as the index of the last dot counted from the left. *)
Fixpoint rfind_dot (s : string) : option nat :=
  match s with
  | EmptyString => None
  | String c s' =>
      match rfind_dot s' with
      | Some i => Some (S i)
      | None => if Ascii.eqb c "."%char then Some 0%nat else None
      end
  end.

(** [s[:n]] and [s[n:]] *)
Definition take (n : nat) (s : string) : string := String.substring 0 n s.
Definition drop (n : nat) (s : string) : string :=
  String.substring n (String.length s - n) s.

(** [f"{s:<w}"]: pad with spaces on the right up to width [w]. *)
Definition ljust (w : nat) (s : string) : string :=
  s +:+ String.string_of_list_ascii (replicate (w - String.length s) " "%char).

(** [sep.join(l)] *)
Definition join (sep : string) (l : list string) : string := String.concat sep l.

(** Whether [s] holds a NUL character. *)
Definition has_nul (s : string) : bool :=
  existsb (Ascii.eqb (ascii_of_nat 0)) (chars s).

Definition hex_digit (n : nat) : ascii :=
  nth n (chars "0123456789abcdef") "0"%char.

(** One character of [repr(s)] between quotes [q]. *)
Definition repr_char (q c : ascii) : string :=
  let n := nat_of_ascii c in
  if Ascii.eqb c "\"%char then "\\"
  else if Ascii.eqb c q then String "\"%char (String q "")
  else if (n =? 9)%nat then "\t"
  else if (n =? 10)%nat then "\n"
  else if (n =? 13)%nat then "\r"
  else if (n <? 32)%nat || (n =? 127)%nat then
    "\x" +:+ String (hex_digit (n / 16)) (String (hex_digit (n mod 16)) "")
  else String c "".

(** [repr(s)]: single quotes, unless [s] holds a single quote and no
    double quote; backslashes, the quote in use and control characters
    are escaped. *)
Definition repr (s : string) : string :=
  let dq := ascii_of_nat 34 in
  let q := if existsb (Ascii.eqb "'"%char) (chars s)
              && negb (existsb (Ascii.eqb dq) (chars s))
           then dq else "'"%char in
  String q (String.concat "" (repr_char q <$> chars s) +:+ String q "").

End PyStr.

(** ** pathlib paths

    A [Path] is kept the way pathlib keeps it: an anchor (drive and root,
    empty for a relative path) and the list of segments after it. *)

Record Path := mkPath { anchor : string; segs : list string }.

Global Instance Path_eq_dec : EqDecision Path.
Proof. solve_decision. Defined.

Global Instance Path_countable : Countable Path.
Proof.
  refine (inj_countable' (fun p => (anchor p, segs p))
                         (fun '(a, s) => mkPath a s) _).
  by intros [].
Defined.

Module PyPath.

(** [path.parts] *)
Definition parts (p : Path) : list string :=
  if decide (anchor p = "") then segs p else anchor p :: segs p.

(** [path.name]: the last segment, empty when there is none. *)
Definition name (p : Path) : string := List.last (segs p) "".

(** [path.suffix]: from the last dot of the name, unless that dot comes
    first or last in the name. *)
Definition suffix_of_name (n : string) : string :=
  match PyStr.rfind_dot n with
  | Some i =>
      if (0 <? i)%nat && (i <? String.length n - 1)%nat
      then PyStr.drop i n else ""
  | None => ""
  end.

Definition suffix (p : Path) : string := suffix_of_name (name p).

(** [path.parent] *)
Definition parent (p : Path) : Path :=
  mkPath (anchor p) (removelast (segs p)).

(** [path / s] for a single segment [s]; joining the empty string
    gives the path back. *)
Definition join1 (p : Path) (s : string) : Path :=
  if decide (s = "") then p else mkPath (anchor p) (segs p ++ [s]).

(** [path / other]: an anchored right operand replaces the left one. *)
Definition join (p q : Path) : Path :=
  if decide (anchor q = "") then mkPath (anchor p) (segs p ++ segs q)
  else q.

(** [path.with_suffix(suf)]; [None] stands for the [ValueError] pathlib
    raises on a path with an empty name. *)
Definition with_suffix (p : Path) (suf : string) : option Path :=
  let n := name p in
  if decide (n = "") then None
  else
    let old := suffix p in
    let stem := PyStr.take (String.length n - String.length old) n in
    Some (mkPath (anchor p) (removelast (segs p) ++ [stem +:+ suf])).

(** [str(path)] with separator [sep]. *)
Definition str (sep : ascii) (p : Path) : string :=
  match anchor p, segs p with
  | "", [] => "."
  | a, l => a +:+ PyStr.join (String sep "") l
  end.

(** [k] lies at or below [d]. *)
Definition under (d k : Path) : Prop :=
  anchor k = anchor d ∧ segs d `prefix_of` segs k.

Global Instance under_dec d k : Decision (under d k).
Proof. unfold under. apply _. Defined.

(** [k] is an entry of directory [d]: one more segment, not empty. *)
Definition child_of (d k : Path) : Prop :=
  anchor k = anchor d ∧ segs k = segs d ++ [name k] ∧ name k ≠ "".

Global Instance child_of_dec d k : Decision (child_of d k).
Proof. unfold child_of. apply _. Defined.

(** Where [k] lands when the tree at [src] is renamed to [dst]. *)
Definition rebase (src dst k : Path) : Path :=
  mkPath (anchor dst) (segs dst ++ List.skipn (List.length (segs src)) (segs k)).

End PyPath.

Notation "p // s" := (PyPath.join1 p s) (at level 40, left associativity).

(** ** Exceptions *)

Inductive ExnClass :=
| FileNotFoundError | FileExistsError | IsADirectoryError
| NotADirectoryError | PermissionError | SameFileError | ShutilError
| CalledProcessError | ValueError | KeyError | IndexError.

(** [except IOError]: the class is [OSError] or one of its subclasses
    ([shutil.Error] and [SameFileError] are). *)
Definition is_IOError (c : ExnClass) : bool :=
  match c with
  | CalledProcessError | ValueError | KeyError | IndexError => false
  | _ => true
  end.

(** [except Exception]: every class above is one. *)
Definition is_Exception (c : ExnClass) : bool := true.

Definition is_CalledProcessError (c : ExnClass) : bool :=
  match c with CalledProcessError => true | _ => false end.

(** An exception value: its class and the text [str(e)] gives. *)
Record Exn := mkExn { e_class : ExnClass; e_text : string }.

(** The result of a library call that can raise. *)
Definition Exc (A : Type) : Type := Exn + A.
Definition ok {A} (a : A) : Exc A := inr a.
Definition fail {A} (c : ExnClass) (t : string) : Exc A := inl (mkExn c t).

(** ** The file system

    A finite map from absolute paths to nodes.  A file carries its bytes
    and the read-only attribute the script looks at; the map holds every
    directory, the root included. *)

Inductive Node := File (content : string) (readonly : bool) | Dir.

Global Instance Node_eq_dec : EqDecision Node.
Proof. solve_decision. Defined.

Abbreviation FS := (gmap Path Node).

Module FSys.
Import PyPath.

Definition is_dir (fs : FS) (p : Path) : bool :=
  match fs !! p with Some Dir => true | _ => false end.

Definition is_file (fs : FS) (p : Path) : bool :=
  match fs !! p with Some (File _ _) => true | _ => false end.

Definition exists_ (fs : FS) (p : Path) : bool :=
  match fs !! p with Some _ => true | None => false end.

(** [open(p, "w").write(c)]: creates or truncates. *)
Definition write_text (fs : FS) (p : Path) (c : string) : Exc FS :=
  if negb (is_dir fs (parent p)) then
    fail FileNotFoundError "No such file or directory"
  else
    match fs !! p with
    | Some Dir => fail IsADirectoryError "Is a directory"
    | Some (File _ true) => fail PermissionError "Permission denied"
    | Some (File _ false) | None => ok (<[p := File c false]> fs)
    end.

(** [p.touch()]: an existing node keeps its content. *)
Definition touch (fs : FS) (p : Path) : Exc FS :=
  match fs !! p with
  | Some _ => ok fs
  | None =>
      if is_dir fs (parent p) then ok (<[p := File "" false]> fs)
      else fail FileNotFoundError "No such file or directory"
  end.

(** [p.mkdir(exist_ok=True)] *)
Definition mkdir (fs : FS) (p : Path) : Exc FS :=
  match fs !! p with
  | Some Dir => ok fs
  | Some (File _ _) => fail FileExistsError "File exists"
  | None =>
      if is_dir fs (parent p) then ok (<[p := Dir]> fs)
      else fail FileNotFoundError "No such file or directory"
  end.

(** [p.mkdir(parents=True, exist_ok=True)]: the directories from the
    anchor down to [p], creating the missing ones. *)
Fixpoint mkdirs_from (a : string) (pre rest : list string) (fs : FS)
  : Exc FS :=
  match rest with
  | [] => ok fs
  | s :: rest' =>
      let q := mkPath a (pre ++ [s]) in
      match fs !! q with
      | Some Dir => mkdirs_from a (pre ++ [s]) rest' fs
      | Some (File _ _) => fail FileExistsError "File exists"
      | None => mkdirs_from a (pre ++ [s]) rest' (<[q := Dir]> fs)
      end
  end.

Definition mkdirs (fs : FS) (p : Path) : Exc FS :=
  mkdirs_from (anchor p) [] (segs p) fs.

(** [shutil.copy2(src, dst)]: content and attributes; into [dst] when
    [dst] is a directory. *)
Definition copy2 (fs : FS) (src dst : Path) : Exc FS :=
  let dst := if is_dir fs dst then dst // name src else dst in
  match fs !! src with
  | Some (File c ro) =>
      if decide (src = dst) then fail SameFileError "same file"
      else if negb (is_dir fs (parent dst)) then
        fail FileNotFoundError "No such file or directory"
      else
        match fs !! dst with
        | Some Dir => fail IsADirectoryError "Is a directory"
        | Some (File _ true) => fail PermissionError "Permission denied"
        | Some (File _ false) | None => ok (<[dst := File c ro]> fs)
        end
  | Some Dir => fail IsADirectoryError "Is a directory"
  | None => fail FileNotFoundError "No such file or directory"
  end.

(** [os.remove(p)]; a read-only file cannot be removed (Windows). *)
Definition remove (fs : FS) (p : Path) : Exc FS :=
  match fs !! p with
  | Some (File _ false) => ok (delete p fs)
  | Some (File _ true) => fail PermissionError "Permission denied"
  | Some Dir => fail PermissionError "Permission denied"
  | None => fail FileNotFoundError "No such file or directory"
  end.

(** [p.stat().st_file_attributes & stat.FILE_ATTRIBUTE_READONLY] *)
Definition readonly_attr (fs : FS) (p : Path) : Exc bool :=
  match fs !! p with
  | Some (File _ ro) => ok ro
  | Some Dir => ok false
  | None => fail FileNotFoundError "No such file or directory"
  end.

(** [p.chmod(0o644)]: clears the read-only attribute. *)
Definition chmod_644 (fs : FS) (p : Path) : Exc FS :=
  match fs !! p with
  | Some (File c _) => ok (<[p := File c false]> fs)
  | Some Dir => ok fs
  | None => fail FileNotFoundError "No such file or directory"
  end.

(** The tree at [src] re-rooted at [dst]. *)
Definition rename_tree (fs : FS) (src dst : Path) : FS :=
  list_to_map
    ((λ kv : Path * Node, (rebase src dst kv.1, kv.2)) <$>
       map_to_list (filter (λ kv : Path * Node, under src kv.1) fs))
  ∪ filter (λ kv : Path * Node, ¬ under src kv.1) fs.

(** [os.rename(src, dst)] as Windows has it: an existing [dst] is an
    error. *)
Definition rename (fs : FS) (src dst : Path) : Exc FS :=
  match fs !! src with
  | None => fail FileNotFoundError "No such file or directory"
  | Some _ =>
      if exists_ fs dst then fail FileExistsError "File exists"
      else if negb (is_dir fs (parent dst)) then
        fail FileNotFoundError "No such file or directory"
      else if bool_decide (under src dst) then
        fail PermissionError "Permission denied"
      else ok (rename_tree fs src dst)
  end.

(** [shutil.copytree(src, dst)] followed by [shutil.rmtree(src)]:
    [dst] must be new, its missing parents are made. *)
Definition copytree_rmtree (fs : FS) (src dst : Path) : Exc FS :=
  if exists_ fs dst then fail FileExistsError "File exists"
  else
    match mkdirs fs (parent dst) with
    | inr fs1 => ok (rename_tree fs1 src dst)
    | inl e => inl e
    end.

(** [shutil.rmtree(p)] *)
Definition rmtree (fs : FS) (p : Path) : FS :=
  filter (λ kv : Path * Node, ¬ under p kv.1) fs.

(** The entries of directory [d], in the order the map lists them (the
    order a real directory is listed in is up to the system). *)
Definition children (fs : FS) (d : Path) : list Path :=
  filter (child_of d) (map_to_list fs).*1.

(** [list(d.iterdir())], each entry as the absolute path it stands for
    (the script uses the name of an entry and the file it denotes). *)
Definition iterdir (fs : FS) (d : Path) : Exc (list Path) :=
  match fs !! d with
  | Some Dir => ok (children fs d)
  | Some (File _ _) => fail NotADirectoryError "Not a directory"
  | None => fail FileNotFoundError "No such file or directory"
  end.

(** [list(root.rglob("*"))]: everything strictly below [root]. *)
Definition rglob (fs : FS) (root : Path) : list Path :=
  filter (λ k, under root k ∧ k ≠ root) (map_to_list fs).*1.

End FSys.

(** ** The state of a run *)

(** An entry of the module-level [tools] dictionary.  The ["exists"] key
    is absent until [build_fidb] has looked for the tool. *)
Record Tool := mkTool {
  t_rel : bool;
  t_path : Path;
  t_exists : option bool
}.

(** The dictionary itself, in insertion order. *)
Abbreviation Tools := (list (string * Tool)).

Fixpoint tools_get (ts : Tools) (k : string) : option Tool :=
  match ts with
  | [] => None
  | (k', t) :: ts' => if decide (k' = k) then Some t else tools_get ts' k
  end.

(** [tools[k].get("exists", False)] *)
Definition tool_found (t : Tool) : bool := default false (t_exists t).

(** What a run does that can be seen from outside, in order. *)
Inductive Event :=
| EvPrint (line : string)
| EvOpen (p : Path) (mode : string)
| EvWrite (p : Path) (text : string)
| EvRun (argv : list string) (dir : Path)
| EvCheckCall (argv : list string) (dir : Path).

Global Instance Event_eq_dec : EqDecision Event.
Proof. solve_decision. Defined.

Record World := mkWorld {
  w_fs : FS;
  w_tools : Tools;
  w_trace : list Event
}.

Definition set_fs (f : FS → FS) (w : World) : World :=
  mkWorld (f (w_fs w)) (w_tools w) (w_trace w).
Definition set_tools (f : Tools → Tools) (w : World) : World :=
  mkWorld (w_fs w) (f (w_tools w)) (w_trace w).
Definition log (e : Event) (w : World) : World :=
  mkWorld (w_fs w) (w_tools w) (w_trace w ++ [e]).

(** What the script cannot decide by itself. *)
Record Env := mkEnv {
  (** the [DEBUG] switch of the configuration section *)
  DEBUG : bool;
  (** the path separator of the platform *)
  sep : ascii;
  (** the working directory relative paths are resolved against *)
  cwd : Path;
  (** the value [GHIDRA_HOME] ends up with *)
  GHIDRA_HOME : Path;
  (** the fresh directory [tempfile] picks, as an absolute path *)
  mkdtemp : FS → Path;
  (** an external program run in a directory: [None] when it cannot be
      started, else its exit status and the file system it leaves *)
  spawn : list string → Path → FS → option (Z * FS);
  (** the order a [set] of strings is iterated in *)
  set_order : gset string → list string;
  (** the files, by absolute path, that cannot be opened for reading
      although they exist (held by another process, or not permitted) *)
  locked : Path → bool
}.

(** ** Computations *)

Inductive Outcome (A : Type) :=
| Ret (a : A)
| Raise (e : Exn)
| Exit (code : Z).
Arguments Ret {A} a.
Arguments Raise {A} e.
Arguments Exit {A} code.

Definition M (A : Type) : Type := World → Outcome A * World.

Definition ret {A} (a : A) : M A := λ w, (Ret a, w).

Definition bind {A B} (m : M A) (f : A → M B) : M B := λ w,
  match m w with
  | (Ret a, w') => f a w'
  | (Raise e, w') => (Raise e, w')
  | (Exit c, w') => (Exit c, w')
  end.

Declare Scope py_scope.
Delimit Scope py_scope with py.
Notation "x <- m ;; k" := (bind m (λ x, k))
  (at level 100, m at next level, right associativity) : py_scope.
Notation "m >> k" := (bind m (λ _, k))
  (at level 100, right associativity) : py_scope.
Open Scope py_scope.

Definition raise {A} (c : ExnClass) (t : string) : M A :=
  λ w, (Raise (mkExn c t), w).

Definition reraise {A} (e : Exn) : M A := λ w, (Raise e, w).

(** [exit(code)] *)
Definition exit_ {A} (code : Z) : M A := λ w, (Exit code, w).

(** [try: m  except C as e: h e] where [catches] says which classes [C]
    covers.  [exit] is not an exception an [except] clause sees. *)
Definition try_except {A} (m : M A) (catches : ExnClass → bool)
    (h : Exn → M A) : M A := λ w,
  match m w with
  | (Raise e, w') => if catches (e_class e) then h e w' else (Raise e, w')
  | r => r
  end.

(** [for x in l: body x] *)
Fixpoint for_each {A} (l : list A) (body : A → M unit) : M unit :=
  match l with
  | [] => ret tt
  | x :: l' => body x >> for_each l' body
  end.

(** A [for] loop that carries the variables it assigns in [acc]. *)
Fixpoint for_fold {A S} (l : list A) (acc : S) (body : S → A → M S) : M S :=
  match l with
  | [] => ret acc
  | x :: l' => acc' <- body acc x ;; for_fold l' acc' body
  end.

Definition print (line : string) : M unit := λ w, (Ret tt, log (EvPrint line) w).

Definition when (b : bool) (m : M unit) : M unit := if b then m else ret tt.

Definition get_tools : M Tools := λ w, (Ret (w_tools w), w).

(** The status the interpreter exits with. *)
Definition exit_status {A} (o : Outcome A) : Z :=
  match o with
  | Ret _ => 0
  | Raise _ => 1
  | Exit c => c
  end.

(** ** Library calls as computations *)

Definition nl : string := String (ascii_of_nat 10) "".
Definition tab : string := String (ascii_of_nat 9) "".

(** [str(list_of_strings)] *)
Definition repr_list (l : list string) : string :=
  "[" +:+ PyStr.join ", " (PyStr.repr <$> l) +:+ "]".

Section Library.
Context (E : Env).

(** The absolute path a path stands for. *)
Definition abs (p : Path) : Path :=
  if decide (anchor p = "") then PyPath.join (cwd E) p else p.

Definition pstr (p : Path) : string := PyPath.str (sep E) p.

(** A call that reads the file system. *)
Definition fs_read {A} (f : FS → Exc A) : M A := λ w,
  match f (w_fs w) with
  | inr a => (Ret a, w)
  | inl e => (Raise e, w)
  end.

(** A call that changes the file system, or raises and leaves it. *)
Definition fs_update (f : FS → Exc FS) : M unit := λ w,
  match f (w_fs w) with
  | inr fs' => (Ret tt, set_fs (λ _, fs') w)
  | inl e => (Raise e, w)
  end.

Definition path_exists (p : Path) : M bool :=
  fs_read (λ fs, ok (FSys.exists_ fs (abs p))).
Definition path_is_file (p : Path) : M bool :=
  fs_read (λ fs, ok (FSys.is_file fs (abs p))).
Definition path_is_dir (p : Path) : M bool :=
  fs_read (λ fs, ok (FSys.is_dir fs (abs p))).

(** [OSError(errno, strerror, filename)] of class [c], with the text
    [str(e)] gives. *)
Definition os_error {A} (c : ExnClass) (errno : nat) (strerror : string)
    (p : Path) : Exc A :=
  fail c ("[Errno " +:+ pretty errno +:+ "] " +:+ strerror +:+ ": "
          +:+ PyStr.repr (pstr p)).

(** [open(p, "rb").read()]: a name with a NUL character is refused with
    [ValueError] before the system is asked; the system refuses a
    missing file, a directory and a locked file. *)
Definition read_file (fs : FS) (p : Path) : Exc string :=
  if PyStr.has_nul (pstr p) then fail ValueError "embedded null byte"
  else
    match fs !! abs p with
    | None => os_error FileNotFoundError 2 "No such file or directory" p
    | Some Dir => os_error IsADirectoryError 21 "Is a directory" p
    | Some (File c _) =>
        if locked E (abs p) then
          os_error PermissionError 13 "Permission denied" p
        else ok c
    end.

(** [with open(p, "rb") as f: ... f.read(n)] *)
Definition open_read (p : Path) (n : nat) : M string := λ w,
  bind (fs_read (λ fs, read_file fs p))
       (λ c, ret (PyStr.take n c))
       (log (EvOpen p "rb") w).

(** [with open(p, "w") as f: f.write(text)] *)
Definition open_write (p : Path) (text : string) : M unit := λ w,
  bind (fs_update (λ fs, FSys.write_text fs (abs p) text))
       (λ _ w', (Ret tt, log (EvWrite p text) w'))
       (log (EvOpen p "w") w).

Definition path_touch (p : Path) : M unit :=
  fs_update (λ fs, FSys.touch fs (abs p)).
Definition path_mkdir (p : Path) : M unit :=
  fs_update (λ fs, FSys.mkdir fs (abs p)).
Definition path_mkdir_parents (p : Path) : M unit :=
  fs_update (λ fs, FSys.mkdirs fs (abs p)).
Definition shutil_copy2 (src dst : Path) : M unit :=
  fs_update (λ fs, FSys.copy2 fs (abs src) (abs dst)).
Definition os_remove (p : Path) : M unit :=
  fs_update (λ fs, FSys.remove fs (abs p)).
Definition path_readonly (p : Path) : M bool :=
  fs_read (λ fs, FSys.readonly_attr fs (abs p)).
Definition path_chmod_644 (p : Path) : M unit :=
  fs_update (λ fs, FSys.chmod_644 fs (abs p)).
Definition os_rename (src dst : Path) : M unit :=
  fs_update (λ fs, FSys.rename fs (abs src) (abs dst)).
Definition path_iterdir (d : Path) : M (list Path) :=
  fs_read (λ fs, FSys.iterdir fs (abs d)).
Definition path_rglob (root : Path) : M (list Path) :=
  fs_read (λ fs, ok (FSys.rglob fs (abs root))).

(** [p.with_suffix(suf)] *)
Definition path_with_suffix (p : Path) (suf : string) : M Path :=
  match PyPath.with_suffix p suf with
  | Some q => ret q
  | None => raise ValueError "has an empty name"
  end.

Definition shutil_copytree_rmtree (src dst : Path) : M unit :=
  fs_update (λ fs, FSys.copytree_rmtree fs (abs src) (abs dst)).

(** [shutil.move(src, dst)]: into [dst] when that is a directory; a
    rename where the system allows one, else copy and delete. *)
Definition shutil_move (src dst : Path) : M unit :=
  d <- path_is_dir dst ;;
  if d && bool_decide (abs src = abs dst) then ret tt
  else
    let real_dst := if d then dst // PyPath.name src else dst in
    taken <- (if d then path_exists real_dst else ret false) ;;
    if taken then raise ShutilError "Destination path already exists"
    else
      try_except (os_rename src real_dst) is_IOError (λ _,
        srcdir <- path_is_dir src ;;
        if srcdir then
          if bool_decide (PyPath.under (abs src) (abs dst)) then
            raise ShutilError "Cannot move a directory into itself"
          else shutil_copytree_rmtree src real_dst
        else
          shutil_copy2 src real_dst >> os_remove src).

(** [with tempfile.TemporaryDirectory() as d: body d]: the directory is
    made, and removed with all it holds however [body] ends. *)
Definition with_tmpdir {A} (body : Path → M A) : M A := λ w,
  let tmp := mkdtemp E (w_fs w) in
  let '(r, w') := body tmp (set_fs (insert (abs tmp) Dir) w) in
  (r, set_fs (λ fs, FSys.rmtree fs (abs tmp)) w').

(** [subprocess.run(argv, cwd=dir)]: the exit status is not looked
    at; what the program prints is not part of the state. *)
Definition subprocess_run (argv : list string) (dir : Path) : M unit := λ w,
  let w1 := log (EvRun argv dir) w in
  match spawn E argv (abs dir) (w_fs w1) with
  | Some (_, fs') => (Ret tt, set_fs (λ _, fs') w1)
  | None => (Raise (mkExn FileNotFoundError "cannot start the program"), w1)
  end.

(** [subprocess.check_call(argv, cwd=dir)] *)
Definition subprocess_check_call (argv : list string) (dir : Path)
  : M unit := λ w,
  let w1 := log (EvCheckCall argv dir) w in
  match spawn E argv (abs dir) (w_fs w1) with
  | Some (code, fs') =>
      if decide (code = 0%Z) then (Ret tt, set_fs (λ _, fs') w1)
      else (Raise (mkExn CalledProcessError
                     ("Command '" +:+ repr_list argv +:+
                      "' returned non-zero exit status " +:+
                      pretty code +:+ ".")),
            set_fs (λ _, fs') w1)
  | None => (Raise (mkExn FileNotFoundError "cannot start the program"), w1)
  end.

End Library.

(** ** The script *)

(** The [tools] dictionary as the configuration section writes it. *)
Definition tools0 : Tools :=
  [ ("ar",       mkTool true (mkPath "" ["Utl"; "Dev"; "Gnu"; "Bin"; "ar.exe"]) None);
    ("libsplit", mkTool true (mkPath "" ["Utl"; "Dev"; "Hitachi"; "libsplit.exe"]) None);
    ("elfcnv",   mkTool true (mkPath "" ["Utl"; "Dev"; "Hitachi"; "elfcnv.exe"]) None) ].

Definition VALID_EXTS : gset string := {[ ".o"; ".a"; ".elf"; ".obj"; ".lib" ]}.
Definition IGNORE_DIRS : gset string := {[ "demo"; "sample"; "vmutool" ]}.
Definition IGNORE_FILES : gset string := {[ "copying.lib" ]}.

Definition AR_MAGIC : string := "!<arch>".
Definition ELF_MAGIC : string := String (ascii_of_nat 127) "ELF".

(** [x in (a, b, ...)] and [x in [a, b, ...]] *)
Definition mem (x : string) (l : list string) : bool := bool_decide (x ∈ l).

Section Script.
Context (E : Env).

Definition ANALYZE : Path :=
  GHIDRA_HOME E // "support" // "analyzeHeadless.bat".

Fixpoint ignore_dirs_loop (lower : string) (path : Path) (ds : list string)
  : M bool :=
  match ds with
  | [] => ret false
  | d :: ds' =>
      if PyStr.contains ("/" +:+ d +:+ "/") lower
         || PyStr.contains ("\" +:+ d +:+ "\") lower
      then
        when (DEBUG E)
          (print ("[IGNORE] dir (" +:+ d +:+ "): " +:+ pstr E path)) >>
        ret true
      else ignore_dirs_loop lower path ds'
  end.

Definition should_ignore (path : Path) : M bool :=
  let lower := PyStr.lower (pstr E path) in
  if bool_decide (PyStr.lower (PyPath.name path) ∈ IGNORE_FILES) then
    when (DEBUG E) (print ("[IGNORE] file: " +:+ pstr E path)) >>
    ret true
  else ignore_dirs_loop lower path (set_order E IGNORE_DIRS).

Definition is_ar_archive (path : Path) : M bool :=
  if PyStr.endswith_any (PyStr.lower (pstr E path)) [".a"; ".elf.lib"] then
    ret true
  else if PyStr.endswith (PyStr.lower (pstr E path)) ".lib" then
    magic <- open_read E path 7 ;;
    ret (bool_decide (magic = AR_MAGIC))
  else ret false.

Definition is_elf (path : Path) : M bool :=
  try_except
    (magic <- open_read E path 4 ;; ret (bool_decide (magic = ELF_MAGIC)))
    is_IOError
    (λ _, ret false).

Definition detect_compiler (path : Path) : M (option string) :=
  let parts := PyStr.lower <$> PyPath.parts path in
  if existsb (λ p, mem p parts) ["gnu"; "sh-elf"] then
    ret (Some "gcc")
  else if existsb (λ p, mem p parts) ["codewarrior"; "mwerks"; "mw"] then
    ret (Some "shc")
  else
    b <- (if mem (PyStr.lower (PyPath.suffix path)) [".a"; ".o"; ".elf"]
          then ret true else is_ar_archive path) ;;
    if b then ret (Some "gcc")
    else if mem (PyStr.lower (PyPath.suffix path)) [".lib"; ".obj"] then
      ret (Some "shc")
    else ret None.

Fixpoint first_token (tokens parts : list string) : string :=
  match tokens with
  | [] => "default"
  | token :: tokens' =>
      if mem token parts then token else first_token tokens' parts
  end.

Definition detect_variant (path : Path) : string :=
  let parts := PyStr.lower <$> PyPath.parts path in
  first_token ["m4-single-only"; "m4-single"; "mnomacsave"; "m4"; "ml"] parts.

(** The body of the loop of [move_tmp_files]; its result is the new
    value of [num_moved]. *)
Definition move_one (dst_dir : Path) (num_moved : nat)
    (extracted_file : Path) : M nat :=
  let dst_file := dst_dir // PyPath.name extracted_file in
  ex <- path_exists E dst_file ;;
  if ex then
    print ("[WARN] extraction destination already exists: "
           +:+ pstr E dst_file) >>
    ret num_moved
  else
    shutil_move E extracted_file dst_file >>
    ret (num_moved + 1).

Definition move_tmp_files (tmpdir dst_dir : Path) : M nat :=
  entries <- path_iterdir E tmpdir ;;
  for_fold entries 0 (move_one dst_dir).

(** [tools[k]["path"]] *)
Definition tool_path (k : string) : M Path :=
  ts <- get_tools ;;
  match tools_get ts k with
  | Some t => ret (t_path t)
  | None => raise KeyError ("'" +:+ k +:+ "'")
  end.

(** The body of the [libsplit] loop over the temporary directory. *)
Definition convert_obj (tmpdir f : Path) : M unit :=
  if bool_decide (PyPath.suffix f = ".obj") then
    try_except
      (p <- tool_path "elfcnv" ;;
       e <- path_with_suffix f ".elf" ;;
       subprocess_run E [pstr E p; PyPath.name f; PyPath.name e] tmpdir >>
       o <- path_with_suffix f ".obj" ;;
       os_remove E o)
      is_Exception
      (λ e, print ("[ERROR] elfcnv failed for " +:+ PyPath.name f +:+ ": "
                   +:+ e_text e))
  else ret tt.

(** The body of the [ar] loop over the temporary directory. *)
Definition fix_extracted (f : Path) : M unit :=
  ro <- path_readonly E f ;;
  when ro (path_chmod_644 E f) >>
  if negb (bool_decide (PyStr.lower (PyPath.suffix f) = ".elf")) then
    b <- is_elf f ;;
    if b then
      e <- path_with_suffix f ".elf" ;;
      os_rename E f e
    else ret tt
  else ret tt.

Definition extract_or_copy (tool : string) (src dst_dir : Path) : M nat :=
  ts <- get_tools ;;
  if match tools_get ts tool with
     | Some t => negb (tool_found t)
     | None => false
     end
  then
    p <- tool_path tool ;;
    print ("[WARN] " +:+ tool +:+ " not found: " +:+ pstr E p
           +:+ " - cannot process " +:+ PyPath.name src) >>
    ret 0
  else if bool_decide (tool = "copy") then
    let dst_file := dst_dir // PyPath.name src in
    ex <- path_exists E dst_file ;;
    (if ex then
       print ("[WARN] destination already exists: " +:+ pstr E dst_file
              +:+ " - skipping copy")
     else
       print ("[COPY] " +:+ pstr E src +:+ tab +:+ "-> " +:+ pstr E dst_file) >>
       shutil_copy2 E src dst_file) >>
    ret 0
  else if mem tool ["ar"; "libsplit"] then
    print ("[EXTRACT] Using " +:+ tool +:+ " to extract " +:+ PyPath.name src
           +:+ " in " +:+ pstr E dst_dir) >>
    with_tmpdir E (λ tmpdir,
      try_except
        (shutil_copy2 E src (tmpdir // PyPath.name src) >>
         (if bool_decide (tool = "ar") then
            p <- tool_path "ar" ;;
            subprocess_run E [pstr E p; "xo"; PyPath.name src] tmpdir
          else if bool_decide (tool = "libsplit") then
            p <- tool_path "libsplit" ;;
            subprocess_run E [pstr E p; PyPath.name src] tmpdir
          else ret tt) >>
         os_remove E (tmpdir // PyPath.name src))
        is_Exception
        (λ e, print ("[ERROR] " +:+ tool +:+ " extraction failed for "
                     +:+ PyPath.name src +:+ ": " +:+ e_text e)) >>
      (if bool_decide (tool = "libsplit") then
         fs <- path_iterdir E tmpdir ;;
         for_each fs (convert_obj tmpdir)
       else if bool_decide (tool = "ar") then
         fs <- path_iterdir E tmpdir ;;
         for_each fs fix_extracted
       else ret tt) >>
      move_tmp_files tmpdir dst_dir)
  else
    print ("[WARN] unknown tool: " +:+ tool) >>
    ret 0.

Definition props_lines (sdk_name compiler : string) : list string :=
  [ "Duplicate Results File OK = duplicates.txt";
    "Do Duplication Detection Do you want to detect duplicates = true";
    "Choose destination FidDB Please choose the destination FidDB for population = "
      +:+ sdk_name +:+ ".fidb";
    "Select root folder containing all libraries (at a depth of 3): = /"
      +:+ compiler;
    "Common symbols file (optional): OK = common_symbols.txt";
    "Enter LanguageID To Process Language ID: = SuperH4:LE:32:default" ].

Definition props_text (sdk_name compiler : string) : string :=
  String.concat "" ((λ l, l +:+ nl) <$> props_lines sdk_name compiler).

Definition create_extra_files (project_root : Path)
    (sdk_name compiler : string) : M unit :=
  let props_path := project_root // "CreateMultipleLibraries.properties" in
  open_write E props_path (props_text sdk_name compiler) >>
  path_touch E (project_root // "duplicates.txt") >>
  path_touch E (project_root // "common_symbols.txt") >>
  print ("[INFO] Created " +:+ pstr E props_path
         +:+ ", empty duplicates.txt and common_symbols.txt").

End Script.

(** ** Main build logic *)

(** [Path(f"fid_work_{fidb_name}")]: the work directory, relative to the
    directory the script runs in. *)
Definition project_root_of (fidb_name : string) : Path :=
  mkPath "" ["fid_work_" +:+ fidb_name].

Section Build.
Context (E : Env).

(** One round of the loop that sets and checks the tool paths.  The
    round only reads the file system, so the loop is a map over the
    dictionary. *)
Definition resolve_tool (fs : FS) (sdk_root : Path) (t : Tool) : Tool :=
  let p := if t_rel t then PyPath.join sdk_root (t_path t) else t_path t in
  mkTool (t_rel t) p
         (if tool_found t then t_exists t
          else Some (FSys.exists_ fs (abs E p))).

Definition resolve_tools (sdk_root : Path) : M unit := λ w,
  (Ret tt,
   set_tools (List.map (λ kt : string * Tool,
                          (kt.1, resolve_tool (w_fs w) sdk_root kt.2))) w).

Definition debug_banner (sdk_root project_root : Path) : M unit :=
  print ("[DEBUG] SDK root     : " +:+ pstr E sdk_root) >>
  print ("[DEBUG] Project root : " +:+ pstr E project_root) >>
  ts <- get_tools ;;
  for_each ts (λ kt : string * Tool,
    print ("[DEBUG] " +:+ PyStr.ljust 13 kt.1 +:+ ": ("
           +:+ (if tool_found kt.2 then "found" else "MISSING") +:+ ") "
           +:+ pstr E (t_path kt.2))) >>
  print "".

(** The start of [build_fidb], up to the walk.  The result says whether
    the function goes on ([false] stands for its early [return]). *)
Definition prepare (sdk_root project_root : Path) : M bool :=
  resolve_tools sdk_root >>
  if DEBUG E then
    debug_banner sdk_root project_root >> ret true
  else
    ex <- path_exists E project_root ;;
    if ex then
      print (pstr E project_root
             +:+ " already exists. Remove it before running the script.") >>
      ret false
    else
      path_mkdir_parents E project_root >>
      path_mkdir E (project_root // "ghidraproj") >>
      ret true.

(** "Unpack archives or copy files": the handling mode of a file. *)
Definition select_tool (file : Path) : M string :=
  ar <- is_ar_archive E file ;;
  if ar then ret "ar"
  else if bool_decide (PyStr.lower (PyPath.suffix file) = ".lib") then
    ret "libsplit"
  else ret "copy".

(** The body of the loop over the SDK tree; [st] holds [copied] and
    [compilers]. *)
Definition walk_step (sdk_root project_root : Path)
    (st : nat * gset string) (file : Path) : M (nat * gset string) :=
  isf <- path_is_file E file ;;
  skip <- (if negb isf
              || negb (bool_decide
                         (PyStr.lower (PyPath.suffix file) ∈ VALID_EXTS))
           then ret true else should_ignore E file) ;;
  if skip then ret st
  else
    compiler <- detect_compiler E file ;;
    match compiler with
    | None => print ("[WARN] unknown compiler: " +:+ pstr E file) >> ret st
    | Some compiler =>
        let compilers := {[compiler]} ∪ st.2 in
        let version := detect_variant file in
        let library := PyPath.name file in
        let dst_dir :=
          project_root // compiler // library // version
                       // PyPath.name sdk_root in
        when (negb (DEBUG E))
          (ex <- path_exists E dst_dir ;;
           when (negb ex)
             (print ("[MKDIR] " +:+ pstr E dst_dir) >>
              path_mkdir_parents E dst_dir)) >>
        tool <- select_tool file ;;
        if DEBUG E then
          print ("[INFO] " +:+ tool +:+ ": " +:+ pstr E file +:+ tab
                 +:+ "-> " +:+ pstr E dst_dir) >>
          ret (st.1 + 1, compilers)
        else
          n <- extract_or_copy E tool file dst_dir ;;
          ret (st.1 + n, compilers)
    end.

(** The loop over [sdk_root.rglob("*")].  The entries are those the
    tree holds when the loop starts: the work directory is made in the
    directory the script runs in, beside the SDK root, so nothing a
    round of the loop creates lies under the root. *)
Definition walk (sdk_root project_root : Path) : M (nat * gset string) :=
  files <- path_rglob E sdk_root ;;
  for_fold files (0, ∅) (walk_step sdk_root project_root).

Definition cmd1 (fidb_name : string) (compilers : gset string)
  : list string :=
  [ pstr E (ANALYZE E); "ghidraproj"; fidb_name ]
  ++ flat_map (λ compiler, ["-import"; compiler]) (set_order E compilers)
  ++ [ "-recursive";
       "-processor";  "SuperH4:LE:32:default";
       "-preScript";  "FunctionIDHeadlessPrescript.java";
       "-postScript"; "FunctionIDHeadlessPostscript.java";
       "-scriptlog";  "script.log";
       "-log";        "analyze.log" ].

Definition cmd2 (fidb_name : string) : list string :=
  [ pstr E (ANALYZE E); "ghidraproj"; fidb_name;
    "-noanalysis";
    "-propertiesPath"; ".";
    "-preScript";      "CreateEmptyFidDatabase.java"; fidb_name +:+ ".fidb";
    "-preScript";      "FunctionIDHeadlessPrescript.java";
    "-preScript";      "CreateMultipleLibraries.java";
    "-log";            "generation.log" ].

(** [list(compilers)[0]] *)
Definition first_compiler (compilers : gset string) : M string :=
  match set_order E compilers with
  | c :: _ => ret c
  | [] => raise IndexError "list index out of range"
  end.

(** [build_fidb] from the end of the walk on. *)
Definition run_analysis (fidb_name : string) (project_root : Path)
    (copied : nat) (compilers : gset string) : M unit :=
  if bool_decide (copied = 0) then
    print "No SDK files were copied. Check filters or paths." >>
    exit_ 1
  else
    print ("[+] Copied " +:+ pretty copied +:+ " files") >>
    if DEBUG E then
      print "" >>
      print "AnalyzeHeadless commands:" >>
      print (PyStr.join " " (cmd1 fidb_name compilers)) >>
      print (PyStr.join " " (cmd2 fidb_name)) >>
      print "" >>
      print "DEBUG mode is ENABLED." >>
      print "No folders were created, no files were copied," >>
      print "and analyzeHeadless was NOT invoked." >>
      print "" >>
      print "Set DEBUG = False in the script to perform the actual build."
    else
      try_except
        (print "[RUN ] analyzeHeadless (1/2)" >>
         subprocess_check_call E (cmd1 fidb_name compilers) project_root)
        is_CalledProcessError
        (λ e, print ("[ERROR] analyzeHeadless first run failed: "
                     +:+ e_text e) >>
              reraise e) >>
      c <- first_compiler compilers ;;
      create_extra_files E project_root fidb_name c >>
      try_except
        (print "[RUN ] analyzeHeadless (2/2)" >>
         subprocess_check_call E (cmd2 fidb_name) project_root)
        is_CalledProcessError
        (λ e, print ("[ERROR] analyzeHeadless second run failed: "
                     +:+ e_text e) >>
              reraise e) >>
      print ("[+] FIDB generated: " +:+ fidb_name +:+ ".fidb").

(** [build_fidb(fidb_name, sdk_root)], with [sdk_root] already resolved
    to an absolute path and [fidb_name] a plain name. *)
Definition build_fidb (fidb_name : string) (sdk_root : Path) : M unit :=
  let project_root := project_root_of fidb_name in
  go <- prepare sdk_root project_root ;;
  if go then
    st <- walk sdk_root project_root ;;
    run_analysis fidb_name project_root st.1 st.2
  else ret tt.

(** The script from its first line: the configuration section with its
    check for Ghidra, then the entry point calling [build_fidb] from
    the directory [cwd E]. *)
Definition script (fidb_name : string) (sdk_root : Path) : M unit :=
  (λ w, (Ret tt, set_tools (λ _, tools0) w)) >>
  ex <- path_exists E (ANALYZE E) ;;
  if negb ex then
    print ("Ghidra not installed or GHIDRA_HOME not set correctly." +:+ nl
           +:+ "Not found: " +:+ pstr E (ANALYZE E)) >>
    exit_ 1
  else build_fidb fidb_name sdk_root.

End Build.

(** ** Reading a trace *)

(** The files written through [open(p, "w")], with the text each got. *)
Definition written (tr : list Event) : list (Path * string) :=
  omap (λ e, match e with EvWrite p t => Some (p, t) | _ => None end) tr.

Definition not_write (e : Event) : Prop :=
  match e with EvWrite _ _ => False | _ => True end.

(** The line of the properties file that names the root folder. *)
Definition root_folder_line (compiler : string) : string :=
  "Select root folder containing all libraries (at a depth of 3): = /"
  +:+ compiler.

(** The lines of a text, each ended by a line feed. *)
Fixpoint text_lines (s : string) : list string :=
  match s with
  | EmptyString => []
  | String c s' =>
      if Ascii.eqb c (ascii_of_nat 10) then "" :: text_lines s'
      else match text_lines s' with
           | [] => [String c ""]
           | l :: ls => String c l :: ls
           end
  end.

(** [emits P m]: whatever [m] does, the trace it leaves is the trace it
    found followed by events that all satisfy [P]. *)
Definition emits (P : Event → Prop) {A} (m : M A) : Prop :=
  ∀ w r w', m w = (r, w') →
    ∃ evs, w_trace w' = w_trace w ++ evs ∧ Forall P evs.

(** The events of the walk: lines printed, files opened for reading and
    unpacking tools run.  An analysis run ([EvCheckCall]) or a file
    written through [open] is not among them. *)
Definition walk_event (e : Event) : Prop :=
  match e with
  | EvPrint _ | EvRun _ _ => True
  | EvOpen _ mode => mode = "rb"
  | EvWrite _ _ | EvCheckCall _ _ => False
  end.

(** What a move of [src] to a new path [dst] may change: nothing outside
    the two trees and the missing directories above [dst]; inside the
    tree of [src] only when [dst] does not lie in it. *)
Definition moved_frame (src dst : Path) (fs fs' : FS) : Prop :=
  ∀ k, ¬ PyPath.under dst k →
    (is_Some (fs !! k) → k ≠ src →
       ¬ PyPath.under src k ∨ PyPath.under src dst → fs' !! k = fs !! k)
    ∧ (fs !! k = None → ¬ PyPath.under k dst → fs' !! k = None).

(** ** Sample runs

    A small Windows-like world to run the script in: the SDK lies in
    [C:\sdk\r11], the script runs from [C:\sdk], Ghidra is installed, the
    archiver unpacks one member and every other program does nothing. *)

Module Sample.

Definition at_ (l : list string) : Path := mkPath "C:\" l.

Definition run_program (argv : list string) (dir : Path) (fs : FS)
  : option (Z * FS) :=
  if decide (argv !! 1 = Some "xo")
  then Some (0%Z, <[dir // "member.o" := File "member" false]> fs)
  else Some (0%Z, fs).

(** A file another process holds open. *)
Definition busy_elf : Path := at_ ["sdk"; "r11"; "lib"; "busy.elf"].

Definition env (debug : bool) : Env :=
  mkEnv debug "\"%char (at_ ["sdk"]) (at_ ["ghidra"])
        (λ _, at_ ["tmp"; "tmp0"]) run_program elements
        (λ p, bool_decide (p = busy_elf)).

Definition tree (l : list (list string * Node)) : FS :=
  list_to_map ((λ kv : list string * Node, (at_ kv.1, kv.2)) <$> l).

Definition sdk_root : Path := at_ ["sdk"; "r11"].

Definition base : list (list string * Node) :=
  [ ([], Dir); (["sdk"], Dir); (["sdk"; "r11"], Dir);
    (["sdk"; "r11"; "lib"], Dir); (["tmp"], Dir);
    (["ghidra"], Dir); (["ghidra"; "support"], Dir);
    (["ghidra"; "support"; "analyzeHeadless.bat"], File "" false) ].

(** An SDK that holds nothing the script looks at. *)
Definition fs_bare : FS :=
  tree (base ++ [ (["sdk"; "r11"; "lib"; "readme.txt"], File "text" false) ]).

(** An SDK with one plain object file. *)
Definition fs_plain : FS :=
  tree (base ++ [ (["sdk"; "r11"; "lib"; "foo.o"], File "object" false) ]).

(** The same after an earlier build has left its work directory. *)
Definition fs_again : FS :=
  tree (base ++ [ (["sdk"; "r11"; "lib"; "foo.o"], File "object" false);
                  (["sdk"; "fid_work_dc"], Dir) ]).

(** An SDK with files of both toolchains and the archiver. *)
Definition fs_both : FS :=
  tree (base ++
    [ (["sdk"; "r11"; "lib"; "libx.a"], File "!<arch>members" false);
      (["sdk"; "r11"; "lib"; "y.obj"], File "hitachi" false);
      (["sdk"; "r11"; "Utl"], Dir);
      (["sdk"; "r11"; "Utl"; "Dev"], Dir);
      (["sdk"; "r11"; "Utl"; "Dev"; "Gnu"], Dir);
      (["sdk"; "r11"; "Utl"; "Dev"; "Gnu"; "Bin"], Dir);
      (["sdk"; "r11"; "Utl"; "Dev"; "Gnu"; "Bin"; "ar.exe"], File "" false) ]).

(** A destination that already holds the file to be copied. *)
Definition fs_taken : FS :=
  tree (base ++ [ (["sdk"; "r11"; "lib"; "foo.o"], File "object" false);
                  (["out"], Dir);
                  (["out"; "foo.o"], File "older" false) ]).

(** An SDK with one library in the Hitachi format. *)
Definition fs_hitachi : FS :=
  tree (base ++ [ (["sdk"; "r11"; "lib"; "h.lib"], File "hitachi lib" false) ]).

(** An SDK with a library in the Unix archive format under the suffix
    [.lib]. *)
Definition fs_unixlib : FS :=
  tree (base ++ [ (["sdk"; "r11"; "lib"; "u.lib"],
                   File "!<arch>unix members" false) ]).

(** An SDK with two ELF files, one of them locked, and a plain file. *)
Definition fs_elf : FS :=
  tree (base ++
    [ (["sdk"; "r11"; "lib"; "prog"],
       File (String (ascii_of_nat 127) "ELF code") false);
      (["sdk"; "r11"; "lib"; "busy.elf"],
       File (String (ascii_of_nat 127) "ELF code") false);
      (["sdk"; "r11"; "lib"; "notes.txt"], File "text" false) ]).

(** A free destination directory. *)
Definition fs_free : FS :=
  tree (base ++ [ (["sdk"; "r11"; "lib"; "foo.o"], File "object" false);
                  (["out"], Dir) ]).

(** A temporary directory with two unpacked members, one of which is
    already present in the destination. *)
Definition fs_unpacked : FS :=
  tree (base ++ [ (["tmp"; "t"], Dir);
                  (["tmp"; "t"; "a.o"], File "new a" false);
                  (["tmp"; "t"; "b.o"], File "new b" false);
                  (["out"], Dir);
                  (["out"; "a.o"], File "old a" false) ]).

Definition world (fs : FS) : World := mkWorld fs tools0 [].

Definition foo_o : Path := at_ ["sdk"; "r11"; "lib"; "foo.o"].
Definition libx_a : Path := at_ ["sdk"; "r11"; "lib"; "libx.a"].
Definition gone_lib : Path := at_ ["sdk"; "r11"; "lib"; "gone.lib"].
Definition h_lib : Path := at_ ["sdk"; "r11"; "lib"; "h.lib"].
Definition u_lib : Path := at_ ["sdk"; "r11"; "lib"; "u.lib"].
Definition prog_elf : Path := at_ ["sdk"; "r11"; "lib"; "prog"].
Definition notes_txt : Path := at_ ["sdk"; "r11"; "lib"; "notes.txt"].
Definition nul_name : Path :=
  at_ ["sdk"; "r11"; "lib"; "a" +:+ String (ascii_of_nat 0) ".elf"].
Definition gnu_lib : Path :=
  at_ ["sdk"; "r11"; "Utl"; "Dev"; "Gnu"; "lib"; "libc.lib"].
Definition out : Path := at_ ["out"].
Definition tmp_t : Path := at_ ["tmp"; "t"].
Definition work : Path := project_root_of "dc".

(** The state a real build of [fs] is in after [prepare], after the
    walk, and when the first analysis run has ended. *)
Definition prepared (fs : FS) : World :=
  (prepare (env false) sdk_root work (world fs)).2.
Definition walked (fs : FS) : World :=
  (walk (env false) sdk_root work (prepared fs)).2.
Definition analysed (fs : FS) : FS :=
  match spawn (env false) (cmd1 (env false) "dc" {["gcc"; "shc"]})
              (abs (env false) work) (w_fs (walked fs)) with
  | Some (_, fs') => fs'
  | None => ∅
  end.

End Sample.

(** ** Vocabulary for the further properties *)

(** [meets R X m]: whatever [m] does, the state it leaves is related by
    [R] to the state it found, and when it leaves through [exit] the code
    satisfies [X]. *)
Definition meets (R : World → World → Prop) (X : Z → Prop) {A} (m : M A)
  : Prop :=
  ∀ w r w', m w = (r, w') → R w w' ∧ ∀ c, r = Exit c → X c.

(** The events of a dry run: lines printed and files opened for reading. *)
Definition dry_event (e : Event) : Prop :=
  match e with
  | EvPrint _ => True
  | EvOpen _ mode => mode = "rb"
  | EvWrite _ _ | EvRun _ _ | EvCheckCall _ _ => False
  end.

(** What a dry run may do to the state: nothing to the file system, and
    only dry events. *)
Definition dry_step (w w' : World) : Prop :=
  w_fs w' = w_fs w
  ∧ ∃ evs, w_trace w' = w_trace w ++ evs ∧ Forall dry_event evs.

(** The file system and the tools dictionary are left as they are. *)
Definition same_store (w w' : World) : Prop :=
  w_fs w' = w_fs w ∧ w_tools w' = w_tools w.

(** Any change of state. *)
Definition any_step (w w' : World) : Prop := True.

(** A lower-cased part of [path] is one of [markers]. *)
Definition has_marker (markers : list string) (path : Path) : Prop :=
  ∃ seg, seg ∈ PyPath.parts path ∧ PyStr.lower seg ∈ markers.

Global Instance any_step_refl : Reflexive any_step.
Proof. by intros w. Qed.
Global Instance any_step_trans : Transitive any_step.
Proof. by intros w1 w2 w3 _ _. Qed.

Global Instance same_store_refl : Reflexive same_store.
Proof. by intros w. Qed.
Global Instance same_store_trans : Transitive same_store.
Proof. intros w1 w2 w3 [H1 H2] [H3 H4]. split; congruence. Qed.

Global Instance dry_step_refl : Reflexive dry_step.
Proof.
  intros w. split; [done|]. exists []. by rewrite app_nil_r.
Qed.
Global Instance dry_step_trans : Transitive dry_step.
Proof.
  intros w1 w2 w3 [Hf1 (evs1 & Ht1 & He1)] [Hf2 (evs2 & Ht2 & He2)].
  split; [congruence|]. exists (evs1 ++ evs2).
  rewrite Ht2, Ht1, app_assoc. split; [done | by apply Forall_app].
Qed.

(** The only code the script passes to [exit]. *)
Definition exit_one (c : Z) : Prop := c = 1%Z.

(** The events that reach outside the copies the walk makes: a file
    written through [open], an analysis run. *)
Definition is_action (e : Event) : bool :=
  match e with
  | EvWrite _ _ | EvCheckCall _ _ => true
  | EvPrint _ | EvOpen _ _ | EvRun _ _ => false
  end.

Definition actions (tr : list Event) : list Event := List.filter is_action tr.

(** [acts l m]: the actions of [m], in order, are the first ones of [l],
    and all of [l] when [m] returns. *)
Definition acts (l : list Event) {A} (m : M A) : Prop :=
  ∀ w r w', m w = (r, w') →
    ∃ evs, w_trace w' = w_trace w ++ evs
           ∧ actions evs `prefix_of` l
           ∧ ∀ a, r = Ret a → actions evs = l.

(** The same platform with the exit status of every program replaced:
    [f argv code] is the status the program started with [argv] ends
    with, instead of [code]. *)
Definition with_status (f : list string → Z → Z) (E : Env) : Env :=
  mkEnv (DEBUG E) (sep E) (cwd E) (GHIDRA_HOME E) (mkdtemp E)
        (λ argv dir fs,
           (λ r : Z * FS, (f argv r.1, r.2)) <$> spawn E argv dir fs)
        (set_order E) (locked E).

(** Two computations that do the same in every state. *)
Definition same {A} (m m' : M A) : Prop := ∀ w, m w = m' w.

(** ** More sample inputs *)

Module Cases.
Import Sample.

(** The sample platform with programs that all end with status 1 and
    change nothing. *)
Definition env_failing : Env :=
  mkEnv false "\"%char (at_ ["sdk"]) (at_ ["ghidra"])
        (λ _, at_ ["tmp"; "tmp0"]) (λ _ _ fs, Some (1%Z, fs)) elements
        (λ _, false).

(** The sample platform with programs none of which can be started. *)
Definition env_unstartable : Env :=
  mkEnv false "\"%char (at_ ["sdk"]) (at_ ["ghidra"])
        (λ _, at_ ["tmp"; "tmp0"]) (λ _ _ _, None) elements (λ _, false).

Definition mw_obj : Path := at_ ["sdk"; "r11"; "MWerks"; "lib"; "x.o"].
Definition plain_lib : Path := at_ ["sdk"; "r11"; "lib"; "h.lib"].
Definition demo_obj : Path := at_ ["sdk"; "r11"; "Demo"; "x.o"].
Definition readme : Path := at_ ["sdk"; "r11"; "lib"; "readme.txt"].
Definition ar_exe : Path :=
  at_ ["sdk"; "r11"; "Utl"; "Dev"; "Gnu"; "Bin"; "ar.exe"].
Definition elfcnv_exe : Path :=
  at_ ["sdk"; "r11"; "Utl"; "Dev"; "Hitachi"; "elfcnv.exe"].

(** A machine without Ghidra. *)
Definition fs_no_ghidra : FS := tree [ ([], Dir); (["sdk"], Dir) ].

(** The tools dictionary after a build has looked for the tools. *)
Definition tools_found : Tools :=
  [ ("ar",     mkTool true ar_exe (Some true));
    ("elfcnv", mkTool true elfcnv_exe (Some true)) ].
Definition tools_missing : Tools :=
  [ ("ar", mkTool true ar_exe (Some false)) ].

(** An SDK with one read-only archive, and a free destination. *)
Definition fs_archive : FS :=
  tree (base ++ [ (["sdk"; "r11"; "lib"; "libx.a"], File "!<arch>members" true);
                  (["out"], Dir) ]).

(** A temporary directory with two unpacked members: an ELF file without
    a suffix, read-only, and an object file in the Hitachi format. *)
Definition fs_members : FS :=
  tree (base ++ [ (["tmp"; "t"], Dir);
                  (["tmp"; "t"; "prog"], File (String (ascii_of_nat 127) "ELF code") true);
                  (["tmp"; "t"; "m.obj"], File "hitachi" false) ]).

Definition m_obj : Path := at_ ["tmp"; "t"; "m.obj"].

End Cases.

(** * Properties *)

(** ** Stepping through computations *)

Lemma bind_ret {A B} (a : A) (f : A → M B) w : bind (ret a) f w = f a w.
Proof. reflexivity. Qed.

Lemma bind_Ret {A B} (m : M A) (f : A → M B) w a w' :
  m w = (Ret a, w') → bind m f w = f a w'.
Proof. intros H. unfold bind. by rewrite H. Qed.

Lemma bind_Raise {A B} (m : M A) (f : A → M B) w e w' :
  m w = (Raise e, w') → bind m f w = (Raise e, w').
Proof. intros H. unfold bind. by rewrite H. Qed.

Lemma bind_Exit {A B} (m : M A) (f : A → M B) w c w' :
  m w = (Exit c, w') → bind m f w = (Exit c, w').
Proof. intros H. unfold bind. by rewrite H. Qed.

Lemma bind_print {B} s (f : unit → M B) w :
  bind (print s) f w = f tt (log (EvPrint s) w).
Proof. reflexivity. Qed.

Lemma existsb_mem_true (parts markers : list string) m :
  m ∈ markers → m ∈ parts → existsb (λ p, mem p parts) markers = true.
Proof.
  intros Hm Hp. apply existsb_exists. exists m. split.
  - by apply list_elem_of_In.
  - unfold mem. by apply bool_decide_eq_true.
Qed.

(** ** The classifier *)

(** C4. A path with a segment equal, up to case, to "gnu" or "sh-elf" is
    classified as "gcc" by [detect_compiler], whatever its extension and
    content: the folder rule comes first, nothing is opened and the state
    is left as it was. *)
Theorem detect_compiler_gnu_folder (E : Env) (path : Path) (seg : string)
    (w : World) :
  seg ∈ PyPath.parts path →
  PyStr.lower seg = "gnu" ∨ PyStr.lower seg = "sh-elf" →
  detect_compiler E path w = (Ret (Some "gcc"), w).
Proof.
  intros Hin Hseg. unfold detect_compiler.
  assert (Hm : PyStr.lower seg ∈ PyStr.lower <$> PyPath.parts path)
    by (by apply list_elem_of_fmap_2).
  rewrite (existsb_mem_true _ _ (PyStr.lower seg)); [done | | done].
  destruct Hseg as [-> | ->]; repeat constructor.
Qed.

(** What [open] and [read] give. *)
Lemma read_file_ok (E : Env) (fs : FS) (p : Path) (c : string) :
  read_file E fs p = inr c ↔
  PyStr.has_nul (pstr E p) = false ∧ locked E (abs E p) = false
  ∧ ∃ ro, fs !! abs E p = Some (File c ro).
Proof.
  unfold read_file, os_error, fail, ok. split.
  - destruct (PyStr.has_nul _); [done|].
    destruct (fs !! abs E p) as [[c' ro|]|]; [|done..].
    destruct (locked E _); [done|]. intros H. inversion H; subst. eauto.
  - intros (-> & -> & ro & ->). done.
Qed.

Lemma read_file_error (E : Env) (fs : FS) (p : Path) (e : Exn) :
  read_file E fs p = inl e →
  if PyStr.has_nul (pstr E p)
  then e = mkExn ValueError "embedded null byte"
  else is_IOError (e_class e) = true
       ∧ (FSys.is_file fs (abs E p) = false ∨ locked E (abs E p) = true).
Proof.
  unfold read_file, os_error, fail, ok, FSys.is_file.
  destruct (PyStr.has_nul _); [by intros [= <-]|].
  destruct (fs !! abs E p) as [[c' ro|]|]; [destruct (locked E _)|..];
    intros [= <-]; auto.
Qed.

Lemma read_file_refused (E : Env) (fs : FS) (p : Path) :
  PyStr.has_nul (pstr E p) = false →
  FSys.is_file fs (abs E p) = false ∨ locked E (abs E p) = true →
  ∃ e, read_file E fs p = inl e ∧ is_IOError (e_class e) = true.
Proof.
  intros Hn Hno. unfold read_file, os_error, fail, FSys.is_file in *.
  rewrite Hn. destruct (fs !! abs E p) as [[c' ro|]|].
  - destruct Hno as [?|Hl]; [done|]. rewrite Hl. by eexists.
  - by eexists.
  - by eexists.
Qed.

Lemma open_read_eq (E : Env) (p : Path) (n : nat) (w : World) :
  open_read E p n w =
  match read_file E (w_fs w) p with
  | inr c => (Ret (PyStr.take n c), log (EvOpen p "rb") w)
  | inl e => (Raise e, log (EvOpen p "rb") w)
  end.
Proof.
  unfold open_read, bind, fs_read. simpl.
  destruct (read_file E (w_fs w) p); reflexivity.
Qed.

Lemma is_elf_eq (E : Env) (path : Path) (w : World) :
  is_elf E path w =
  match read_file E (w_fs w) path with
  | inr c => (Ret (bool_decide (PyStr.take 4 c = ELF_MAGIC)),
              log (EvOpen path "rb") w)
  | inl e =>
      if is_IOError (e_class e) then (Ret false, log (EvOpen path "rb") w)
      else (Raise e, log (EvOpen path "rb") w)
  end.
Proof.
  unfold is_elf, try_except, bind. rewrite open_read_eq.
  destruct (read_file E (w_fs w) path) as [e|c]; [|reflexivity].
  by destruct (is_IOError (e_class e)).
Qed.

(** C10. [is_elf] answers [False] whenever opening or reading the file
    fails with an [IOError]: for every such error, and so for a path
    that names no file and for a file that is locked.  For a file that
    can be read it answers whether the first four bytes are the byte 127
    followed by "ELF".  An error of [open] that is no [IOError] is not
    caught: a name with a NUL character makes the call raise
    [ValueError]. *)
Theorem is_elf_unreadable (E : Env) (path : Path) (w : World) :
  let opened := log (EvOpen path "rb") w in
  (∀ e, read_file E (w_fs w) path = inl e →
        is_IOError (e_class e) = true →
        is_elf E path w = (Ret false, opened))
  ∧ (PyStr.has_nul (pstr E path) = false →
     FSys.is_file (w_fs w) (abs E path) = false
     ∨ locked E (abs E path) = true →
     is_elf E path w = (Ret false, opened))
  ∧ (∀ c ro, PyStr.has_nul (pstr E path) = false →
       locked E (abs E path) = false →
       w_fs w !! abs E path = Some (File c ro) →
       is_elf E path w =
         (Ret (bool_decide (PyStr.take 4 c = String (ascii_of_nat 127) "ELF")),
          opened))
  ∧ (PyStr.has_nul (pstr E path) = true →
     is_elf E path w = (Raise (mkExn ValueError "embedded null byte"), opened)).
Proof.
  intros opened. unfold opened. rewrite is_elf_eq. repeat split.
  - intros e -> Hio. by rewrite Hio.
  - intros Hn Hno. destruct (read_file_refused E (w_fs w) path Hn Hno)
      as (e & -> & Hio). by rewrite Hio.
  - intros c ro Hn Hl Hf.
    assert (Hr : read_file E (w_fs w) path = inr c)
      by (apply read_file_ok; eauto).
    by rewrite Hr.
  - intros Hn. unfold read_file. by rewrite Hn.
Qed.

(** The archive test, case by case. *)
Lemma is_ar_archive_eq (E : Env) (path : Path) (w : World) :
  is_ar_archive E path w =
  if PyStr.endswith_any (PyStr.lower (pstr E path)) [".a"; ".elf.lib"] then
    (Ret true, w)
  else if PyStr.endswith (PyStr.lower (pstr E path)) ".lib" then
    match read_file E (w_fs w) path with
    | inr c => (Ret (bool_decide (PyStr.take 7 c = AR_MAGIC)),
                log (EvOpen path "rb") w)
    | inl e => (Raise e, log (EvOpen path "rb") w)
    end
  else (Ret false, w).
Proof.
  unfold is_ar_archive.
  destruct (PyStr.endswith_any _ _); [reflexivity|].
  destruct (PyStr.endswith _ ".lib"); [|reflexivity].
  unfold bind. rewrite open_read_eq.
  destruct (read_file E (w_fs w) path); reflexivity.
Qed.

Lemma is_ar_archive_by_suffix (E : Env) (path : Path) (w : World) :
  PyStr.endswith_any (PyStr.lower (pstr E path)) [".a"; ".elf.lib"] = true →
  is_ar_archive E path w = (Ret true, w).
Proof. intros H. rewrite is_ar_archive_eq. by rewrite H. Qed.

Lemma is_ar_archive_by_magic (E : Env) (path : Path) (w : World)
    (c : string) :
  PyStr.endswith_any (PyStr.lower (pstr E path)) [".a"; ".elf.lib"] = false →
  PyStr.endswith (PyStr.lower (pstr E path)) ".lib" = true →
  read_file E (w_fs w) path = inr c →
  is_ar_archive E path w =
    (Ret (bool_decide (PyStr.take 7 c = AR_MAGIC)), log (EvOpen path "rb") w).
Proof.
  intros H1 H2 H3. rewrite is_ar_archive_eq. by rewrite H1, H2, H3.
Qed.

(** *** The name of a path and the end of its string *)

Section NameSuffix.
Import PyStr PyPath.

Lemma append_cons (x : ascii) (a b : string) :
  String x a +:+ b = String x (a +:+ b).
Proof. reflexivity. Qed.

Lemma append_assoc (a b c : string) : (a +:+ b) +:+ c = a +:+ (b +:+ c).
Proof.
  induction a as [|x a IH]; [reflexivity|].
  rewrite !append_cons. by f_equal.
Qed.

Lemma append_empty_r (a : string) : a +:+ "" = a.
Proof.
  induction a as [|x a IH]; [reflexivity|]. rewrite append_cons. by f_equal.
Qed.

Lemma chars_app (a b : string) : chars (a +:+ b) = chars a ++ chars b.
Proof.
  induction a as [|c a IH]; [reflexivity|]. rewrite append_cons.
  unfold chars in *. simpl. by f_equal.
Qed.

Lemma lower_app (a b : string) : lower (a +:+ b) = lower a +:+ lower b.
Proof.
  induction a as [|c a IH]; [reflexivity|]. rewrite append_cons. simpl.
  rewrite append_cons. by f_equal.
Qed.

Lemma suffix_past_separator (S L N : list ascii) (c : ascii) :
  c ∉ S → S `suffix_of` L ++ c :: N → S `suffix_of` N.
Proof.
  intros Hc. destruct S as [|s S]; [intros _; apply suffix_nil|].
  induction L as [|x L IH]; simpl; intros H.
  - apply suffix_cons_inv in H as [Heq|H]; [|done].
    exfalso. apply Hc. inversion Heq. constructor.
  - apply suffix_cons_inv in H as [Heq|H]; [|by apply IH].
    exfalso. apply Hc. rewrite Heq. apply elem_of_cons. right.
    apply elem_of_app. right. constructor.
Qed.

Lemma concat_last (c : ascii) (init : list string) (n : string) :
  ∃ x, String.concat (String c "") (init ++ [n]) = x +:+ n
       ∧ (x = "" ∨ ∃ y, x = y +:+ String c "").
Proof.
  induction init as [|s init IH]; simpl.
  - exists "". split; [done | by left].
  - destruct IH as (x & Hx & Hsep).
    destruct (init ++ [n]) as [|s' l] eqn:Hl.
    { by destruct init. }
    exists (s +:+ String c "" +:+ x). split.
    + rewrite Hx. by rewrite !append_assoc.
    + right. destruct Hsep as [->|[y ->]].
      * exists s. by rewrite append_empty_r.
      * exists (s +:+ String c "" +:+ y). by rewrite !append_assoc.
Qed.

(** For a path with a last segment, whose anchor is empty or ends in the
    separator, [str(path).lower()] ends in a separator-free [suf] exactly
    when the lower-cased name does. *)
Lemma endswith_str_name (E : Env) (path : Path) (suf : string) :
  segs path ≠ [] →
  lower_ascii (sep E) = sep E →
  sep E ∉ chars suf →
  (anchor path = "" ∨ ∃ y, anchor path = y +:+ String (sep E) "") →
  endswith (lower (pstr E path)) suf = endswith (lower (name path)) suf.
Proof.
  intros Hsegs Hlow Hsuf Hanchor.
  destruct (segs path) as [|n0 init0 _] eqn:Hs using rev_ind; [done|].
  assert (Hname : name path = n0).
  { unfold name. rewrite Hs. apply last_last. }
  assert (Hstr : ∃ x, pstr E path = x +:+ n0
                     ∧ (x = "" ∨ ∃ y, x = y +:+ String (sep E) "")).
  { destruct (concat_last (sep E) init0 n0) as (x & Hx & Hsep).
    exists (anchor path +:+ x). split.
    - unfold pstr, str, PyStr.join. rewrite Hs.
      destruct (anchor path) eqn:Ha.
      + destruct (init0 ++ [n0]) eqn:Hl; [by destruct init0|].
        exact Hx.
      + rewrite Hx. by rewrite append_assoc.
    - destruct Hsep as [->|[y ->]].
      + rewrite append_empty_r. done.
      + right. exists (anchor path +:+ y). by rewrite append_assoc. }
  destruct Hstr as (x & Hx & Hsep). rewrite Hx, Hname.
  unfold endswith. apply bool_decide_ext.
  rewrite lower_app, chars_app. split.
  - destruct Hsep as [->|[y ->]]; [done|].
    rewrite lower_app, chars_app. simpl. rewrite Hlow.
    rewrite <- app_assoc. simpl. by apply suffix_past_separator.
  - apply suffix_app_r.
Qed.
End NameSuffix.

(** C8, as the code has it.  [is_ar_archive] answers [True] exactly when
    the lower-cased path ends in ".a" or ".elf.lib", or ends in ".lib"
    and names a file that can be read and whose first 7 bytes are
    "!<arch>".  For the first two suffixes nothing is opened and the
    state is untouched.  A path that ends in ".lib" only and cannot be
    opened makes the call raise the error of [open], whatever that error
    is; every remaining path gets [False].  For a path with a last
    segment the three suffix tests on [str(path)] are tests on its
    name. *)
Theorem is_ar_archive_cases (E : Env) (path : Path) (w : World) :
  let s := PyStr.lower (pstr E path) in
  let by_suffix := PyStr.endswith s ".a" || PyStr.endswith s ".elf.lib" in
  let by_magic :=
    PyStr.endswith s ".lib" = true ∧
    ∃ c, read_file E (w_fs w) path = inr c ∧ PyStr.take 7 c = "!<arch>" in
  ((is_ar_archive E path w).1 = Ret true ↔ by_suffix = true ∨ by_magic) ∧
  (by_suffix = true → is_ar_archive E path w = (Ret true, w)) ∧
  (by_suffix = false → PyStr.endswith s ".lib" = true →
     ∀ e, read_file E (w_fs w) path = inl e →
          is_ar_archive E path w = (Raise e, log (EvOpen path "rb") w)) ∧
  (by_suffix = false → PyStr.endswith s ".lib" = true →
     PyStr.has_nul (pstr E path) = false →
     FSys.is_file (w_fs w) (abs E path) = false
     ∨ locked E (abs E path) = true →
     ∃ e, is_ar_archive E path w = (Raise e, log (EvOpen path "rb") w)
          ∧ is_IOError (e_class e) = true) ∧
  (¬ (by_suffix = true ∨ by_magic) →
     PyStr.endswith s ".lib" = false
     ∨ (∃ c, read_file E (w_fs w) path = inr c) →
     (is_ar_archive E path w).1 = Ret false) ∧
  (segs path ≠ [] →
   sep E = "/"%char ∨ sep E = "\"%char →
   anchor path = "" ∨ (∃ y, anchor path = y +:+ String (sep E) "") →
   ∀ suf, suf ∈ [".a"; ".elf.lib"; ".lib"] →
     PyStr.endswith s suf
     = PyStr.endswith (PyStr.lower (PyPath.name path)) suf).
Proof.
  intros s by_suffix by_magic.
  assert (Hname : segs path ≠ [] →
    sep E = "/"%char ∨ sep E = "\"%char →
    anchor path = "" ∨ (∃ y, anchor path = y +:+ String (sep E) "") →
    ∀ suf, suf ∈ [".a"; ".elf.lib"; ".lib"] →
      PyStr.endswith s suf
      = PyStr.endswith (PyStr.lower (PyPath.name path)) suf).
  { intros Hsegs Hsep Hanchor suf Hsuf. apply endswith_str_name; [done | | | done].
    - destruct Hsep as [-> | ->]; reflexivity.
    - repeat (apply elem_of_cons in Hsuf as [-> | Hsuf];
              [destruct Hsep as [-> | ->];
               apply (bool_decide_unpack _); vm_compute; exact I|]).
      by apply elem_of_nil in Hsuf. }
  revert Hname. generalize (PyStr.lower (PyPath.name path)). intros nm Hname.
  assert (Hany : PyStr.endswith_any s [".a"; ".elf.lib"] = by_suffix).
  { unfold PyStr.endswith_any, by_suffix. simpl. by rewrite orb_false_r. }
  assert (Hmagic : AR_MAGIC = "!<arch>") by reflexivity.
  rewrite is_ar_archive_eq. fold s. rewrite Hany, Hmagic.
  unfold by_magic.
  destruct by_suffix; simpl.
  { repeat split; try done; auto. intros H. exfalso. apply H. by left. }
  destruct (PyStr.endswith s ".lib") eqn:Hlib; simpl.
  - destruct (read_file E (w_fs w) path) as [e|c] eqn:Hr; simpl.
    + repeat split; try done.
      * intros [H|(_ & c' & Heq & _)]; done.
      * by intros _ _ e' [= <-].
      * intros _ _ Hn Hno.
        destruct (read_file_refused E (w_fs w) path Hn Hno) as (e' & He' & Hio).
        rewrite Hr in He'. injection He' as <-. by exists e.
      * intros _ [H|[c' H]]; done.
    + repeat split; try done.
      * intros [= Hb%bool_decide_eq_true]. right. split; [done|]. by exists c.
      * intros [H|(_ & c' & [= <-] & Hm)]; [done|].
        f_equal. by apply bool_decide_eq_true.
      * intros _ _ Hn Hno.
        destruct (read_file_refused E (w_fs w) path Hn Hno) as (e' & He' & _).
        by rewrite Hr in He'.
      * intros Hno _. f_equal. apply bool_decide_eq_false.
        intros Hm. apply Hno. right. split; [done|]. by exists c.
  - repeat split; try done.
    intros [H|(H & _)]; done.
Qed.

(** ** The tree builder *)

(** C5. A file [is_ar_archive] recognises gets the handling mode "ar",
    which is neither "copy" nor "libsplit"; a file it does not recognise
    whose suffix is ".lib" gets "libsplit". *)
Theorem select_tool_archive (E : Env) (file : Path) (w w' : World) :
  (is_ar_archive E file w = (Ret true, w') →
   select_tool E file w = (Ret "ar", w')) ∧
  (is_ar_archive E file w = (Ret false, w') →
   PyStr.lower (PyPath.suffix file) = ".lib" →
   select_tool E file w = (Ret "libsplit", w')).
Proof.
  split.
  - intros H. unfold select_tool. by rewrite (bind_Ret _ _ _ _ _ H).
  - intros H Hs. unfold select_tool. rewrite (bind_Ret _ _ _ _ _ H).
    by rewrite bool_decide_eq_true_2.
Qed.

Lemma build_fidb_eq (E : Env) (fidb_name : string) (sdk_root : Path) :
  build_fidb E fidb_name sdk_root =
  (go <- prepare E sdk_root (project_root_of fidb_name) ;;
   if go then
     st <- walk E sdk_root (project_root_of fidb_name) ;;
     run_analysis E fidb_name (project_root_of fidb_name) st.1 st.2
   else ret tt).
Proof. reflexivity. Qed.

Lemma prepare_existing (E : Env) (sdk_root project_root : Path) (w : World) :
  DEBUG E = false →
  FSys.exists_ (w_fs w) (abs E project_root) = true →
  prepare E sdk_root project_root w =
    (Ret false,
     log (EvPrint (pstr E project_root +:+
                   " already exists. Remove it before running the script."))
         (set_tools (List.map (λ kt : string * Tool,
            (kt.1, resolve_tool E (w_fs w) sdk_root kt.2))) w)).
Proof.
  intros Hd Hex. unfold prepare, resolve_tools, bind. rewrite Hd.
  unfold path_exists, fs_read. simpl. by rewrite Hex.
Qed.

Lemma script_eq (E : Env) (fidb_name : string) (sdk_root : Path)
    (w : World) :
  FSys.exists_ (w_fs w) (abs E (ANALYZE E)) = true →
  script E fidb_name sdk_root w =
  build_fidb E fidb_name sdk_root (set_tools (λ _, tools0) w).
Proof.
  intros H. unfold script, bind, path_exists, fs_read. simpl. by rewrite H.
Qed.

(** C3, as the code has it.  In a real run whose work directory already
    exists, [build_fidb] prints its message and returns: the file system
    is the one it started with, the trace grows by that one line (no
    directory made, no file opened, no process started), and the call
    ends normally.  The script, once it has found Ghidra, ends the same
    way, which is exit status 0. *)
Theorem build_fidb_existing_work_dir (E : Env) (fidb_name : string)
    (sdk_root : Path) (w : World) :
  DEBUG E = false →
  FSys.exists_ (w_fs w) (abs E (project_root_of fidb_name)) = true →
  (∃ w', build_fidb E fidb_name sdk_root w = (Ret tt, w')
         ∧ w_fs w' = w_fs w
         ∧ w_trace w' = w_trace w ++
             [EvPrint (pstr E (project_root_of fidb_name) +:+
                       " already exists. Remove it before running the script.")])
  ∧ (FSys.exists_ (w_fs w) (abs E (ANALYZE E)) = true →
     (script E fidb_name sdk_root w).1 = Ret tt
     ∧ exit_status (script E fidb_name sdk_root w).1 = 0%Z).
Proof.
  intros Hd Hex. split.
  - eexists. assert (Hb := prepare_existing E sdk_root _ w Hd Hex).
    rewrite build_fidb_eq. rewrite (bind_Ret _ _ _ _ _ Hb).
    repeat split; reflexivity.
  - intros Hgh. rewrite script_eq by done.
    assert (Hb := prepare_existing E sdk_root _
                    (set_tools (λ _, tools0) w) Hd Hex).
    rewrite build_fidb_eq. rewrite (bind_Ret _ _ _ _ _ Hb). by split.
Qed.

(** ** What a computation adds to the trace *)

Section Emits.
Context (P : Event → Prop).

Lemma emits_silent {A} (m : M A) :
  (∀ w r w', m w = (r, w') → w_trace w' = w_trace w) → emits P m.
Proof.
  intros H w r w' Hm. exists []. rewrite app_nil_r. eauto.
Qed.

Lemma emits_ret {A} (a : A) : emits P (ret a).
Proof. apply emits_silent. intros w r w' H. by inversion H. Qed.

Lemma emits_raise {A} c t : emits P (@raise A c t).
Proof. apply emits_silent. intros w r w' H. by inversion H. Qed.

Lemma emits_reraise {A} e : emits P (@reraise A e).
Proof. apply emits_silent. intros w r w' H. by inversion H. Qed.

Lemma emits_exit {A} c : emits P (@exit_ A c).
Proof. apply emits_silent. intros w r w' H. by inversion H. Qed.

Lemma emits_get_tools : emits P get_tools.
Proof. apply emits_silent. intros w r w' H. by inversion H. Qed.

Lemma emits_fs_read {A} (f : FS → Exc A) : emits P (fs_read f).
Proof.
  apply emits_silent. intros w r w'. unfold fs_read.
  destruct (f (w_fs w)); intros H; by inversion H.
Qed.

Lemma emits_fs_update (f : FS → Exc FS) : emits P (fs_update f).
Proof.
  apply emits_silent. intros w r w'. unfold fs_update.
  destruct (f (w_fs w)); intros H; by inversion H.
Qed.

Lemma emits_print s : P (EvPrint s) → emits P (print s).
Proof.
  intros HP w r w' H. inversion H; subst. exists [EvPrint s].
  split; [reflexivity | by constructor].
Qed.

Lemma emits_bind {A B} (m : M A) (f : A → M B) :
  emits P m → (∀ a, emits P (f a)) → emits P (bind m f).
Proof.
  intros Hm Hf w r w'. unfold bind.
  destruct (m w) as [[a|e|c] w1] eqn:Hmw; intros H.
  - destruct (Hm _ _ _ Hmw) as (evs1 & Ht1 & HP1).
    destruct (Hf a _ _ _ H) as (evs2 & Ht2 & HP2).
    exists (evs1 ++ evs2). rewrite Ht2, Ht1, app_assoc.
    split; [done | by apply Forall_app].
  - inversion H; subst. eauto.
  - inversion H; subst. eauto.
Qed.

Lemma emits_try_except {A} (m : M A) catches (h : Exn → M A) :
  emits P m → (∀ e, emits P (h e)) → emits P (try_except m catches h).
Proof.
  intros Hm Hh w r w'. unfold try_except.
  destruct (m w) as [[a|e|c] w1] eqn:Hmw; intros H.
  - inversion H; subst. eauto.
  - destruct (catches (e_class e)).
    + destruct (Hm _ _ _ Hmw) as (evs1 & Ht1 & HP1).
      destruct (Hh e _ _ _ H) as (evs2 & Ht2 & HP2).
      exists (evs1 ++ evs2). rewrite Ht2, Ht1, app_assoc.
      split; [done | by apply Forall_app].
    + inversion H; subst. eauto.
  - inversion H; subst. eauto.
Qed.

Lemma emits_when b (m : M unit) : emits P m → emits P (when b m).
Proof. intros H. destruct b; [done | apply emits_ret]. Qed.

Lemma emits_for_each {A} (l : list A) (body : A → M unit) :
  (∀ x, emits P (body x)) → emits P (for_each l body).
Proof.
  intros Hb. induction l as [|x l IH]; simpl.
  - apply emits_ret.
  - apply emits_bind; [apply Hb | intros _; apply IH].
Qed.

Lemma emits_for_fold {A S} (l : list A) (acc : S) (body : S → A → M S) :
  (∀ s x, emits P (body s x)) → emits P (for_fold l acc body).
Proof.
  intros Hb. revert acc. induction l as [|x l IH]; intros acc; simpl.
  - apply emits_ret.
  - apply emits_bind; [apply Hb | intros s; apply IH].
Qed.

Lemma emits_with_tmpdir {A} E (body : Path → M A) :
  (∀ d, emits P (body d)) → emits P (with_tmpdir E body).
Proof.
  intros Hb w r w'. unfold with_tmpdir.
  destruct (body _ _) as [r1 w1] eqn:Hbw. intros H. inversion H; subst.
  destruct (Hb _ _ _ _ Hbw) as (evs & Ht & HP). simpl in *. eauto.
Qed.

Lemma emits_open_read E p n : P (EvOpen p "rb") → emits P (open_read E p n).
Proof.
  intros HP w r w'. rewrite open_read_eq.
  destruct (read_file _ _ _); intros H; inversion H; subst;
    exists [EvOpen p "rb"]; (split; [reflexivity | by constructor]).
Qed.

Lemma emits_open_write E p t :
  P (EvOpen p "w") → P (EvWrite p t) → emits P (open_write E p t).
Proof.
  intros HP1 HP2 w r w'. unfold open_write, bind, fs_update. simpl.
  destruct (FSys.write_text _ _ _); intros H; inversion H; subst; simpl.
  - exists [EvOpen p "w"]. split; [reflexivity | by constructor].
  - exists [EvOpen p "w"; EvWrite p t]. rewrite <- app_assoc.
    split; [reflexivity | by repeat constructor].
Qed.

Lemma emits_subprocess_run E argv dir :
  P (EvRun argv dir) → emits P (subprocess_run E argv dir).
Proof.
  intros HP w r w'. unfold subprocess_run.
  destruct (spawn E _ _ _) as [[c fs']|]; intros H; inversion H; subst;
    exists [EvRun argv dir]; (split; [reflexivity | by constructor]).
Qed.

Lemma emits_subprocess_check_call E argv dir :
  P (EvCheckCall argv dir) → emits P (subprocess_check_call E argv dir).
Proof.
  intros HP w r w'. unfold subprocess_check_call.
  destruct (spawn E _ _ _) as [[c fs']|]; [destruct (decide _)|];
    intros H; inversion H; subst;
    exists [EvCheckCall argv dir]; (split; [reflexivity | by constructor]).
Qed.

End Emits.

Ltac emits_step :=
  lazymatch goal with
  | |- emits _ (bind _ _) => apply emits_bind; [| intros ?]
  | |- emits _ (ret _) => apply emits_ret
  | |- emits _ (raise _ _) => apply emits_raise
  | |- emits _ (reraise _) => apply emits_reraise
  | |- emits _ (exit_ _) => apply emits_exit
  | |- emits _ get_tools => apply emits_get_tools
  | |- emits _ (print _) => apply emits_print; exact I
  | |- emits _ (when _ _) => apply emits_when
  | |- emits _ (try_except _ _ _) => apply emits_try_except; [| intros ?]
  | |- emits _ (for_each _ _) => apply emits_for_each; intros ?
  | |- emits _ (for_fold _ _ _) => apply emits_for_fold; intros ? ?
  | |- emits _ (with_tmpdir _ _) => apply emits_with_tmpdir; intros ?
  | |- emits _ (open_read _ _ _) => apply emits_open_read; reflexivity
  | |- emits _ (subprocess_run _ _ _) => apply emits_subprocess_run; exact I
  | |- emits _ (fs_read _) => apply emits_fs_read
  | |- emits _ (fs_update _) => apply emits_fs_update
  | |- emits _ (if ?b then _ else _) => destruct b
  | |- emits _ (match ?x with _ => _ end) => destruct x
  end.

Ltac emits_auto := repeat emits_step.

Ltac unfold_calls :=
  unfold path_exists, path_is_file, path_is_dir, path_touch, path_mkdir,
    path_mkdir_parents, shutil_copy2, os_remove, path_readonly,
    path_chmod_644, os_rename, path_iterdir, path_rglob, path_with_suffix,
    tool_path.

Section WalkTrace.
Context (E : Env).

Lemma emits_shutil_move src dst : emits walk_event (shutil_move E src dst).
Proof.
  unfold shutil_move. unfold_calls. unfold shutil_copytree_rmtree.
  emits_auto.
Qed.

Lemma emits_move_tmp_files tmpdir dst_dir :
  emits walk_event (move_tmp_files E tmpdir dst_dir).
Proof.
  unfold move_tmp_files, move_one. unfold_calls. emits_auto.
  apply emits_shutil_move.
Qed.

Lemma emits_is_elf f : emits walk_event (is_elf E f).
Proof. unfold is_elf. emits_auto. Qed.

Lemma emits_is_ar_archive f : emits walk_event (is_ar_archive E f).
Proof. unfold is_ar_archive. emits_auto. Qed.

Lemma emits_should_ignore f : emits walk_event (should_ignore E f).
Proof.
  unfold should_ignore. emits_auto.
  generalize (set_order E IGNORE_DIRS). intros ds.
  induction ds as [|d ds IH]; simpl; emits_auto. exact IH.
Qed.

Lemma emits_detect_compiler f : emits walk_event (detect_compiler E f).
Proof.
  unfold detect_compiler. emits_auto. apply emits_is_ar_archive.
Qed.

Lemma emits_convert_obj tmpdir f : emits walk_event (convert_obj E tmpdir f).
Proof. unfold convert_obj. unfold_calls. emits_auto. Qed.

Lemma emits_fix_extracted f : emits walk_event (fix_extracted E f).
Proof.
  unfold fix_extracted. unfold_calls. emits_auto. apply emits_is_elf.
Qed.

Lemma emits_extract_or_copy tool src dst_dir :
  emits walk_event (extract_or_copy E tool src dst_dir).
Proof.
  unfold extract_or_copy. unfold_calls.
  emits_auto;
    first [ apply emits_move_tmp_files | apply emits_convert_obj
          | apply emits_fix_extracted ].
Qed.

Lemma emits_select_tool f : emits walk_event (select_tool E f).
Proof. unfold select_tool. emits_auto. apply emits_is_ar_archive. Qed.

Lemma emits_walk_step sdk_root project_root st file :
  emits walk_event (walk_step E sdk_root project_root st file).
Proof.
  unfold walk_step. unfold_calls.
  emits_auto;
    first [ apply emits_should_ignore | apply emits_detect_compiler
          | apply emits_select_tool | apply emits_extract_or_copy ].
Qed.

Lemma emits_walk sdk_root project_root :
  emits walk_event (walk E sdk_root project_root).
Proof.
  unfold walk. unfold_calls. emits_auto. apply emits_walk_step.
Qed.

Lemma emits_prepare sdk_root project_root :
  emits walk_event (prepare E sdk_root project_root).
Proof.
  unfold prepare, debug_banner. unfold_calls. emits_auto.
  apply emits_silent. intros w r w' H. by inversion H.
Qed.

End WalkTrace.

(** C6. When the walk over the SDK tree ends with a count of zero,
    [build_fidb] prints its report and leaves through [exit(1)].  Up to
    that point the call has only printed, opened files for reading and
    run unpacking tools: no analysis run was started, and none follows. *)
Theorem build_fidb_nothing_copied (E : Env) (fidb_name : string)
    (sdk_root : Path) (compilers : gset string) (w w1 w2 : World) :
  prepare E sdk_root (project_root_of fidb_name) w = (Ret true, w1) →
  walk E sdk_root (project_root_of fidb_name) w1 = (Ret (0, compilers), w2) →
  build_fidb E fidb_name sdk_root w =
    (Exit 1,
     log (EvPrint "No SDK files were copied. Check filters or paths.") w2)
  ∧ exit_status (build_fidb E fidb_name sdk_root w).1 = 1%Z
  ∧ ∃ evs, w_trace w2 = w_trace w ++ evs
           ∧ Forall walk_event evs
           ∧ ∀ argv dir, EvCheckCall argv dir ∉ evs.
Proof.
  intros Hp Hw.
  assert (Hb : build_fidb E fidb_name sdk_root w =
    (Exit 1,
     log (EvPrint "No SDK files were copied. Check filters or paths.") w2)).
  { rewrite build_fidb_eq. rewrite (bind_Ret _ _ _ _ _ Hp).
    rewrite (bind_Ret _ _ _ _ _ Hw). reflexivity. }
  split; [done|]. split; [by rewrite Hb|].
  destruct (emits_prepare E _ _ _ _ _ Hp) as (evs1 & Ht1 & Hevs1).
  destruct (emits_walk E _ _ _ _ _ Hw) as (evs2 & Ht2 & Hevs2).
  assert (Hall : Forall walk_event (evs1 ++ evs2)) by (by apply Forall_app).
  exists (evs1 ++ evs2). split; [by rewrite Ht2, Ht1, app_assoc|].
  split; [done|]. intros argv dir Hin.
  rewrite Forall_forall in Hall. exact (Hall _ Hin).
Qed.

(** ** The analysis driver *)

Lemma bind_assoc {A B C} (m : M A) (f : A → M B) (g : B → M C) w :
  bind (bind m f) g w = bind m (λ a, bind (f a) g) w.
Proof. unfold bind. by destruct (m w) as [[a|e|c] w']. Qed.

Lemma open_write_new (E : Env) (p : Path) (t : string) (w : World) :
  FSys.is_dir (w_fs w) (PyPath.parent (abs E p)) = true →
  w_fs w !! abs E p = None →
  open_write E p t w =
    (Ret tt, log (EvWrite p t)
               (set_fs (λ _, <[abs E p := File t false]> (w_fs w))
                  (log (EvOpen p "w") w))).
Proof.
  intros Hd Hn. unfold open_write, bind, fs_update, FSys.write_text. simpl.
  by rewrite Hd, Hn.
Qed.

Lemma written_app (tr1 tr2 : list Event) :
  written (tr1 ++ tr2) = written tr1 ++ written tr2.
Proof. unfold written. apply omap_app. Qed.

Lemma written_not_write (evs : list Event) :
  Forall not_write evs → written evs = [].
Proof.
  induction 1 as [|e evs He _ IH]; [done|].
  unfold written in *. by destruct e.
Qed.

Lemma walk_event_not_write (evs : list Event) :
  Forall walk_event evs → Forall not_write evs.
Proof. intros H. eapply Forall_impl; [exact H|]. by intros []. Qed.

(** A real run past the walk, up to the moment the properties file has
    been written: what is left to do writes no file. *)
Lemma run_analysis_to_properties (E : Env) (fidb_name : string)
    (project_root : Path) (copied : nat) (compilers : gset string)
    (w : World) (fs1 : FS) (c : string) (rest : list string) :
  let props := project_root // "CreateMultipleLibraries.properties" in
  DEBUG E = false → copied ≠ 0 →
  spawn E (cmd1 E fidb_name compilers) (abs E project_root) (w_fs w)
    = Some (0%Z, fs1) →
  set_order E compilers = c :: rest →
  FSys.is_dir fs1 (PyPath.parent (abs E props)) = true →
  fs1 !! abs E props = None →
  ∃ (k : M unit) (w3 : World),
    run_analysis E fidb_name project_root copied compilers w = k w3
    ∧ emits not_write k
    ∧ w_trace w3 = w_trace w ++
        [ EvPrint ("[+] Copied " +:+ pretty copied +:+ " files");
          EvPrint "[RUN ] analyzeHeadless (1/2)";
          EvCheckCall (cmd1 E fidb_name compilers) project_root;
          EvOpen props "w";
          EvWrite props (props_text fidb_name c) ].
Proof.
  intros props Hd Hc Hs Ho Hdir Hnew.
  unfold run_analysis. rewrite bool_decide_eq_false_2 by done. rewrite Hd.
  rewrite bind_print.
  unfold bind at 1. unfold try_except at 1. rewrite bind_print.
  unfold subprocess_check_call at 1. simpl w_fs. rewrite Hs.
  rewrite decide_True by done.
  unfold bind at 1. unfold first_compiler at 1. rewrite Ho. unfold ret at 1.
  unfold create_extra_files. rewrite bind_assoc.
  erewrite bind_Ret; [|by apply open_write_new].
  eexists _, _. split; [reflexivity|]. split.
  - unfold_calls. repeat emits_step.
    apply emits_subprocess_check_call. exact I.
  - simpl. by repeat rewrite <- app_assoc.
Qed.

Lemma root_folder_line_inj (c c' : string) :
  root_folder_line c = root_folder_line c' → c = c'.
Proof. unfold root_folder_line. apply String.app_inj. Qed.

(** The text of the properties file, written out. *)
Lemma props_text_eq (sdk_name compiler : string) :
  props_text sdk_name compiler =
    "Duplicate Results File OK = duplicates.txt" +:+ nl +:+
    "Do Duplication Detection Do you want to detect duplicates = true"
    +:+ nl +:+
    "Choose destination FidDB Please choose the destination FidDB for population = "
    +:+ sdk_name +:+ ".fidb" +:+ nl +:+
    "Select root folder containing all libraries (at a depth of 3): = /"
    +:+ compiler +:+ nl +:+
    "Common symbols file (optional): OK = common_symbols.txt" +:+ nl +:+
    "Enter LanguageID To Process Language ID: = SuperH4:LE:32:default"
    +:+ nl.
Proof.
  unfold props_text, props_lines. cbn [fmap list_fmap String.concat].
  by rewrite !append_assoc.
Qed.

Lemma text_lines_line (a b : string) :
  ascii_of_nat 10 ∉ PyStr.chars a →
  text_lines (a +:+ nl +:+ b) = a :: text_lines b.
Proof.
  induction a as [|x a IH]; intros Hn; [reflexivity|].
  assert (Hx : Ascii.eqb x (ascii_of_nat 10) = false).
  { apply Ascii.eqb_neq. intros ->. apply Hn. by left. }
  assert (Ha : ascii_of_nat 10 ∉ PyStr.chars a).
  { intros Hin. apply Hn. by right. }
  change (String x a +:+ nl +:+ b) with (String x (a +:+ nl +:+ b)).
  cbn [text_lines]. by rewrite Hx, (IH Ha).
Qed.

(** The lines of the properties file, for a database name that holds no
    line feed and a toolchain name the walk can give. *)
Lemma props_text_lines (sdk_name compiler : string) :
  ascii_of_nat 10 ∉ PyStr.chars sdk_name →
  compiler = "gcc" ∨ compiler = "shc" →
  text_lines (props_text sdk_name compiler) =
    [ "Duplicate Results File OK = duplicates.txt";
      "Do Duplication Detection Do you want to detect duplicates = true";
      "Choose destination FidDB Please choose the destination FidDB for population = "
        +:+ sdk_name +:+ ".fidb";
      root_folder_line compiler;
      "Common symbols file (optional): OK = common_symbols.txt";
      "Enter LanguageID To Process Language ID: = SuperH4:LE:32:default" ].
Proof.
  intros Hn Hc. rewrite props_text_eq.
  assert (H3 : ascii_of_nat 10 ∉ PyStr.chars
            ("Choose destination FidDB Please choose the destination FidDB for population = "
             +:+ sdk_name +:+ ".fidb")).
  { rewrite !chars_app, !elem_of_app. intros [H|[H|H]]; [|done|].
    - vm_compute in H. by repeat (apply elem_of_cons in H as [H|H]; [done|]);
        apply elem_of_nil in H.
    - vm_compute in H. by repeat (apply elem_of_cons in H as [H|H]; [done|]);
        apply elem_of_nil in H. }
  assert (H4 : ascii_of_nat 10 ∉ PyStr.chars (root_folder_line compiler)).
  { destruct Hc as [-> | ->]; apply (bool_decide_unpack _);
      vm_compute; exact I. }
  rewrite (text_lines_line "Duplicate Results File OK = duplicates.txt")
    by (apply (bool_decide_unpack _); vm_compute; exact I).
  rewrite (text_lines_line
             "Do Duplication Detection Do you want to detect duplicates = true")
    by (apply (bool_decide_unpack _); vm_compute; exact I).
  assert (Hre3 : ∀ rest,
    "Choose destination FidDB Please choose the destination FidDB for population = "
    +:+ sdk_name +:+ ".fidb" +:+ nl +:+ rest =
    ("Choose destination FidDB Please choose the destination FidDB for population = "
     +:+ sdk_name +:+ ".fidb") +:+ nl +:+ rest)
    by (intros rest; by rewrite !append_assoc).
  assert (Hre4 : ∀ rest,
    "Select root folder containing all libraries (at a depth of 3): = /"
    +:+ compiler +:+ nl +:+ rest = root_folder_line compiler +:+ nl +:+ rest)
    by (intros rest; unfold root_folder_line; by rewrite !append_assoc).
  rewrite Hre3, (text_lines_line _ _ H3).
  rewrite Hre4, (text_lines_line _ _ H4).
  rewrite (text_lines_line
             "Common symbols file (optional): OK = common_symbols.txt")
    by (apply (bool_decide_unpack _); vm_compute; exact I).
  reflexivity.
Qed.

(** *** What the walk returns *)

Lemma detect_compiler_range (E : Env) (path : Path) (w w' : World)
    (c : option string) :
  detect_compiler E path w = (Ret c, w') →
  c = Some "gcc" ∨ c = Some "shc" ∨ c = None.
Proof.
  unfold detect_compiler.
  destruct (existsb _ ["gnu"; "sh-elf"]); [intros [= <- _]; by left|].
  destruct (existsb _ ["codewarrior"; "mwerks"; "mw"]);
    [intros [= <- _]; right; by left|].
  unfold bind.
  destruct (if mem _ [".a"; ".o"; ".elf"] then _ else _) as [[[|]|e|x] w1];
    try done.
  - intros [= <- _]. by left.
  - destruct (mem _ [".lib"; ".obj"]); intros [= <- _]; right; [by left|by right].
Qed.

Lemma for_fold_inv {A S} (I : S → Prop) (body : S → A → M S) (l : list A) :
  (∀ s x w s' w', I s → body s x w = (Ret s', w') → I s') →
  ∀ acc w s' w', I acc → for_fold l acc body w = (Ret s', w') → I s'.
Proof.
  intros Hbody. induction l as [|x l IH]; intros acc w s' w' Hacc; simpl.
  - by intros [= <- _].
  - unfold bind. destruct (body acc x w) as [[s1|e|c] w1] eqn:Hb; try done.
    apply IH. by eapply Hbody.
Qed.

(** A round of the loop keeps the set within the two toolchains, and
    not empty once the count is not 0. *)
Lemma walk_step_inv (E : Env) (sdk_root project_root : Path)
    (st st' : nat * gset string) (file : Path) (w w' : World) :
  st.2 ⊆ {["gcc"; "shc"]} ∧ (st.1 ≠ 0 → st.2 ≠ ∅) →
  walk_step E sdk_root project_root st file w = (Ret st', w') →
  st'.2 ⊆ {["gcc"; "shc"]} ∧ (st'.1 ≠ 0 → st'.2 ≠ ∅).
Proof.
  intros [Hsub Hne]. unfold walk_step. unfold bind at 1.
  destruct (path_is_file E file w) as [[isf|e|c] w1]; try done.
  unfold bind at 1.
  destruct (if negb isf || _ then _ else _) as [[[|]|e|c] w2]; try done.
  { by intros [= <- _]. }
  unfold bind at 1.
  destruct (detect_compiler E file w2) as [[comp|e|c] w3] eqn:Hdc; try done.
  apply detect_compiler_range in Hdc.
  destruct comp as [comp|].
  2:{ rewrite bind_print. by intros [= <- _]. }
  assert (Hc : comp = "gcc" ∨ comp = "shc").
  { destruct Hdc as [[= ->] | [[= ->] | ?]]; [by left|by right|done]. }
  assert (Hin : ({[comp]} ∪ st.2 : gset string) ⊆ {["gcc"; "shc"]}
                ∧ ({[comp]} ∪ st.2 : gset string) ≠ ∅).
  { split.
    - apply union_subseteq. split; [|done].
      apply singleton_subseteq_l.
      destruct Hc as [-> | ->];
        rewrite elem_of_union, !elem_of_singleton; [by left|by right].
    - intros Hemp. assert (Hx : comp ∈ ({[comp]} ∪ st.2 : gset string)).
      { apply elem_of_union. left. by apply elem_of_singleton. }
      rewrite Hemp in Hx. by apply elem_of_empty in Hx. }
  unfold bind at 1. destruct (when _ _ w3) as [[[]|e|c] w4]; try done.
  unfold bind at 1. destruct (select_tool E file w4) as [[tool|e|c] w5]; try done.
  destruct (DEBUG E).
  - rewrite bind_print. intros [= <- _]. simpl. by destruct Hin.
  - unfold bind.
    destruct (extract_or_copy E tool file _ w5) as [[n|e|c] w6]; try done.
    intros [= <- _]. simpl. by destruct Hin.
Qed.

Lemma walk_inv (E : Env) (sdk_root project_root : Path) (w w' : World)
    (copied : nat) (compilers : gset string) :
  walk E sdk_root project_root w = (Ret (copied, compilers), w') →
  compilers ⊆ {["gcc"; "shc"]} ∧ (copied ≠ 0 → compilers ≠ ∅).
Proof.
  unfold walk. unfold bind.
  destruct (path_rglob E sdk_root w) as [[files|e|c] w1]; try done.
  intros Hf.
  assert (Hinv : (copied, compilers).2 ⊆ ({["gcc"; "shc"]} : gset string)
                 ∧ ((copied, compilers).1 ≠ 0 → (copied, compilers).2 ≠ ∅)).
  { eapply (for_fold_inv
              (λ st : nat * gset string,
                 st.2 ⊆ {["gcc"; "shc"]} ∧ (st.1 ≠ 0 → st.2 ≠ ∅)));
      [|split|exact Hf].
    - intros s x w0 s' w0' Hs Hb. by eapply walk_step_inv.
    - simpl. apply empty_subseteq.
    - done. }
  exact Hinv.
Qed.

(** C9. In a real run that discovers files of both toolchains and gets
    past the first analysis run, the properties file is written once,
    with the six lines of the script's template.  Its root-folder line
    names the one toolchain [list(compilers)[0]] yields, a member of the
    discovered set; for a database name without a line feed these six
    are the lines of the file, so the folder of the other discovered
    toolchain is on no line of it. *)
Theorem properties_name_first_compiler (E : Env) (fidb_name : string)
    (sdk_root : Path) (copied : nat) (compilers : gset string)
    (w w1 w2 : World) (fs1 : FS) :
  let project_root := project_root_of fidb_name in
  let props := project_root // "CreateMultipleLibraries.properties" in
  DEBUG E = false →
  prepare E sdk_root project_root w = (Ret true, w1) →
  walk E sdk_root project_root w1 = (Ret (copied, compilers), w2) →
  copied ≠ 0 →
  "gcc" ∈ compilers → "shc" ∈ compilers →
  (∀ x, x ∈ set_order E compilers ↔ x ∈ compilers) →
  spawn E (cmd1 E fidb_name compilers) (abs E project_root) (w_fs w2)
    = Some (0%Z, fs1) →
  FSys.is_dir fs1 (PyPath.parent (abs E props)) = true →
  fs1 !! abs E props = None →
  ∃ (c other : string) (r : Outcome unit) (w' : World) (text : string),
    head (set_order E compilers) = Some c
    ∧ c ∈ compilers ∧ other ∈ compilers ∧ other ≠ c
    ∧ build_fidb E fidb_name sdk_root w = (r, w')
    ∧ written (w_trace w') = written (w_trace w) ++ [(props, text)]
    ∧ text =
        "Duplicate Results File OK = duplicates.txt" +:+ nl +:+
        "Do Duplication Detection Do you want to detect duplicates = true"
        +:+ nl +:+
        "Choose destination FidDB Please choose the destination FidDB for population = "
        +:+ fidb_name +:+ ".fidb" +:+ nl +:+
        "Select root folder containing all libraries (at a depth of 3): = /"
        +:+ c +:+ nl +:+
        "Common symbols file (optional): OK = common_symbols.txt" +:+ nl +:+
        "Enter LanguageID To Process Language ID: = SuperH4:LE:32:default"
        +:+ nl
    ∧ (ascii_of_nat 10 ∉ PyStr.chars fidb_name →
       text_lines text =
         [ "Duplicate Results File OK = duplicates.txt";
           "Do Duplication Detection Do you want to detect duplicates = true";
           "Choose destination FidDB Please choose the destination FidDB for population = "
             +:+ fidb_name +:+ ".fidb";
           "Select root folder containing all libraries (at a depth of 3): = /"
             +:+ c;
           "Common symbols file (optional): OK = common_symbols.txt";
           "Enter LanguageID To Process Language ID: = SuperH4:LE:32:default" ]
       ∧ root_folder_line c ∈ text_lines text
       ∧ root_folder_line other ∉ text_lines text).
Proof.
  intros project_root props Hd Hp Hw Hc Hgcc Hshc Hord Hs Hdir Hnew.
  subst project_root props.
  destruct (set_order E compilers) as [|c rest] eqn:Ho.
  { apply Hord in Hgcc. by apply elem_of_nil in Hgcc. }
  assert (Hcin : c ∈ compilers) by (apply Hord; constructor).
  assert (Hrange : c = "gcc" ∨ c = "shc").
  { destruct (walk_inv _ _ _ _ _ _ _ Hw) as [Hsub _]. apply Hsub in Hcin.
    by rewrite elem_of_union, !elem_of_singleton in Hcin. }
  destruct (run_analysis_to_properties E fidb_name _ copied
              compilers w2 fs1 c rest Hd Hc Hs Ho Hdir Hnew)
    as (k & w3 & Hrun & Hk & Ht3).
  destruct (k w3) as [r w'] eqn:Hkw.
  destruct (Hk _ _ _ Hkw) as (evs3 & Ht' & Hevs3).
  destruct (emits_prepare E _ _ _ _ _ Hp) as (evs1 & Ht1 & Hevs1).
  destruct (emits_walk E _ _ _ _ _ Hw) as (evs2 & Ht2 & Hevs2).
  exists c, (if decide (c = "gcc") then "shc" else "gcc"), r, w',
         (props_text fidb_name c).
  split; [done|]. split; [done|].
  split; [by destruct (decide (c = "gcc"))|].
  split; [destruct (decide (c = "gcc")) as [->|]; [done | congruence]|].
  split.
  { rewrite build_fidb_eq. rewrite (bind_Ret _ _ _ _ _ Hp).
    rewrite (bind_Ret _ _ _ _ _ Hw). cbn [fst snd]. by rewrite Hrun. }
  split.
  { rewrite Ht', Ht3, Ht2, Ht1. rewrite !written_app.
    rewrite (written_not_write evs3 Hevs3).
    rewrite (written_not_write evs1 (walk_event_not_write _ Hevs1)).
    rewrite (written_not_write evs2 (walk_event_not_write _ Hevs2)).
    by rewrite !app_nil_r. }
  split; [apply props_text_eq|].
  intros Hn. rewrite (props_text_lines _ _ Hn Hrange).
  split; [reflexivity|]. split.
  - do 3 right. by left.
  - intros Hin.
    repeat (apply elem_of_cons in Hin as [Hin|Hin];
            [first [ apply root_folder_line_inj in Hin
                   | by inversion Hin ]|]);
      [|by apply elem_of_nil in Hin].
    destruct (decide (c = "gcc")) as [->|]; [done | congruence].
Qed.

(** ** Paths and the file system: what a call leaves alone *)

Section Frames.
Import PyPath.

Lemma join1_segs (p : Path) (s : string) :
  s ≠ "" → p // s = mkPath (anchor p) (segs p ++ [s]).
Proof. intros H. unfold join1. by rewrite decide_False. Qed.

Lemma abs_join1 (E : Env) (p : Path) (s : string) :
  abs E (p // s) = abs E p // s.
Proof.
  unfold abs, join1. destruct (decide (s = "")) as [->|Hs]; [done|].
  unfold join. simpl. destruct (decide (anchor p = "")); [|done].
  simpl. by rewrite app_assoc.
Qed.

Lemma abs_anchored (E : Env) (p : Path) : anchor p ≠ "" → abs E p = p.
Proof. intros H. unfold abs. by rewrite decide_False. Qed.


Lemma under_refl (p : Path) : under p p.
Proof. by split. Qed.

Lemma under_join1 (p : Path) (s : string) : under p (p // s).
Proof.
  unfold join1. destruct (decide (s = "")); [apply under_refl|].
  split; [done|]. simpl. by apply prefix_app_r.
Qed.

Lemma under_trans (a b c : Path) : under a b → under b c → under a c.
Proof.
  intros [Ha1 Ha2] [Hb1 Hb2]. split; [congruence | by etrans].
Qed.

(** Two entries of one directory level never contain one another. *)
Lemma under_siblings (d : Path) (s t : string) :
  s ≠ "" → t ≠ "" → under (d // s) (d // t) → s = t.
Proof.
  intros Hs Ht. rewrite !join1_segs by done. intros [_ Hp]. simpl in Hp.
  destruct Hp as [k Hk]. rewrite <- app_assoc in Hk.
  apply app_inv_head in Hk. simpl in Hk. by inversion Hk.
Qed.

Lemma rebase_under (src dst k : Path) : under dst (rebase src dst k).
Proof. split; [done|]. simpl. by apply prefix_app_r. Qed.

Lemma rename_tree_lookup (fs : FS) (src dst k : Path) :
  ¬ under dst k →
  FSys.rename_tree fs src dst !! k =
    if decide (under src k) then None else fs !! k.
Proof.
  intros Hk. unfold FSys.rename_tree. rewrite lookup_union.
  rewrite (not_elem_of_list_to_map_1 _ k).
  - rewrite (left_id None _). rewrite map_lookup_filter.
    destruct (fs !! k) as [n|] eqn:Hn; simpl.
    + destruct (decide (under src k)).
      * by rewrite option_guard_False by (simpl; tauto).
      * by rewrite option_guard_True.
    + by destruct (decide (under src k)).
  - rewrite <- list_fmap_compose. intros Hin.
    apply list_elem_of_fmap in Hin as ([k' n'] & -> & _). simpl in Hk.
    apply Hk, rebase_under.
Qed.

(** What [mkdirs] adds: directories, at absent paths above its target. *)
Lemma mkdirs_from_lookup (a : string) (rest pre : list string)
    (fs fs' : FS) (k : Path) :
  FSys.mkdirs_from a pre rest fs = inr fs' →
  fs' !! k = fs !! k
  ∨ (fs !! k = None ∧ anchor k = a ∧
     ∃ r1, r1 `prefix_of` rest ∧ segs k = pre ++ r1).
Proof.
  revert pre fs. induction rest as [|s rest IH]; intros pre fs H; simpl in H.
  - inversion H. by left.
  - destruct (fs !! mkPath a (pre ++ [s])) as [[c ro|]|] eqn:Hq.
    + inversion H.
    + destruct (IH _ _ H) as [Heq|(Hn & Ha & r1 & Hr1 & Hs)]; [by left|].
      right. split; [done|]. split; [done|]. exists (s :: r1).
      split; [by apply prefix_cons|]. by rewrite Hs, <- app_assoc.
    + destruct (IH _ _ H) as [Heq|(Hn & Ha & r1 & Hr1 & Hs)].
      * destruct (decide (k = mkPath a (pre ++ [s]))) as [->|Hne].
        -- right. split; [done|]. split; [done|]. exists [s].
           split; [|done]. by apply prefix_cons, prefix_nil.
        -- left. by rewrite Heq, lookup_insert_ne.
      * right. destruct (decide (k = mkPath a (pre ++ [s]))) as [->|Hne].
        { by rewrite lookup_insert_eq in Hn. }
        rewrite lookup_insert_ne in Hn by done.
        split; [done|]. split; [done|]. exists (s :: r1).
        split; [by apply prefix_cons|]. by rewrite Hs, <- app_assoc.
Qed.

Lemma mkdirs_lookup (fs fs' : FS) (p k : Path) :
  FSys.mkdirs fs p = inr fs' →
  fs' !! k = fs !! k ∨ (fs !! k = None ∧ under k p).
Proof.
  intros H. destruct (mkdirs_from_lookup _ _ _ _ _ k H)
    as [Heq|(Hn & Ha & r1 & Hr1 & Hs)]; [by left|].
  right. split; [done|]. split; [done|]. by rewrite Hs.
Qed.

End Frames.

(** ** Moving into a directory *)

Lemma moved_frame_refl src dst fs : moved_frame src dst fs fs.
Proof. intros k Hk. split; auto. Qed.

Lemma under_parent (p : Path) : PyPath.under (PyPath.parent p) p.
Proof.
  split; [done|]. simpl. destruct (segs p) as [|s l] using rev_ind.
  - done.
  - rewrite removelast_last. by apply prefix_app_r.
Qed.

Lemma moved_frame_rename (fs : FS) (src dst : Path) :
  ¬ PyPath.under src dst →
  moved_frame src dst fs (FSys.rename_tree fs src dst).
Proof.
  intros Hnu k Hk. rewrite rename_tree_lookup by done. split.
  - intros _ _ [H|H]; [|done]. by rewrite decide_False.
  - intros Hn _. by destruct (decide _).
Qed.

Lemma moved_frame_copytree (fs fs' : FS) (src dst : Path) :
  ¬ PyPath.under src dst →
  FSys.copytree_rmtree fs src dst = inr fs' →
  moved_frame src dst fs fs'.
Proof.
  intros Hnu. unfold FSys.copytree_rmtree.
  destruct (FSys.exists_ fs dst); [done|].
  destruct (FSys.mkdirs fs (PyPath.parent dst)) as [e|fs1] eqn:Hm; [done|].
  intros H. inversion H; subst. intros k Hk.
  rewrite rename_tree_lookup by done.
  destruct (mkdirs_lookup _ _ _ k Hm) as [Heq|[Hn Hu]]; split.
  - intros _ _ [Hs|Hs]; [|done]. by rewrite decide_False.
  - intros Hn _. destruct (decide _); [done | congruence].
  - intros [n Hs]. congruence.
  - intros _ Hnk. exfalso. apply Hnk.
    eapply under_trans; [exact Hu | apply under_parent].
Qed.

Lemma moved_frame_copy_remove (fs : FS) (src dst : Path) (n : Node) (del : bool) :
  moved_frame src dst fs
    (if del then delete src (<[dst := n]> fs) else <[dst := n]> fs).
Proof.
  intros k Hk. assert (k ≠ dst) by (intros ->; apply Hk, under_refl).
  split.
  - intros _ Hne _. destruct del.
    + by rewrite lookup_delete_ne, lookup_insert_ne.
    + by rewrite lookup_insert_ne.
  - intros Hn _. destruct del.
    + destruct (decide (k = src)) as [->|].
      * by rewrite lookup_delete_eq.
      * by rewrite lookup_delete_ne, lookup_insert_ne.
    + by rewrite lookup_insert_ne.
Qed.

Ltac frame_split := split; [done | split; [done | simpl]].

Lemma shutil_move_frame (E : Env) (src dst : Path) (w w' : World) r :
  w_fs w !! abs E dst = None →
  shutil_move E src dst w = (r, w') →
  w_trace w' = w_trace w ∧ w_tools w' = w_tools w
  ∧ moved_frame (abs E src) (abs E dst) (w_fs w) (w_fs w').
Proof.
  intros Hdst.
  assert (Hisdir : FSys.is_dir (w_fs w) (abs E dst) = false)
    by (unfold FSys.is_dir; by rewrite Hdst).
  unfold shutil_move, shutil_copytree_rmtree. unfold_calls.
  unfold bind, try_except, fs_read, fs_update, ret, raise, ok. simpl.
  rewrite Hisdir. simpl.
  destruct (FSys.rename (w_fs w) (abs E src) (abs E dst)) as [e|fs1] eqn:Hren.
  - unfold FSys.rename in Hren.
    destruct (w_fs w !! abs E src) as [n|] eqn:Hsrc.
    2:{ inversion Hren; subst. simpl. unfold FSys.is_dir at 1. rewrite Hsrc.
        unfold FSys.copy2. rewrite Hisdir, Hsrc. simpl. intros H.
        inversion H; subst. frame_split. apply moved_frame_refl. }
    assert (He : is_IOError (e_class e) = true).
    { revert Hren. unfold FSys.exists_. rewrite Hdst.
      repeat case_match; intros Hi; inversion Hi; done. }
    rewrite He. unfold FSys.is_dir at 1. rewrite Hsrc.
    destruct n as [c ro|].
    + (* a file *)
      unfold FSys.copy2. rewrite Hisdir, Hsrc, Hdst.
      destruct (decide (abs E src = abs E dst)) as [Heq|Hne].
      { rewrite Heq in Hsrc. congruence. }
      destruct (negb (FSys.is_dir (w_fs w) (PyPath.parent (abs E dst)))).
      { simpl. intros H. inversion H; subst. frame_split.
        apply moved_frame_refl. }
      simpl. unfold FSys.remove. rewrite lookup_insert_ne by done.
      rewrite Hsrc. destruct ro; simpl; intros H; inversion H; subst;
        frame_split.
      * apply (moved_frame_copy_remove _ _ _ _ false).
      * apply (moved_frame_copy_remove _ _ _ _ true).
    + (* a directory *)
      destruct (bool_decide (PyPath.under (abs E src) (abs E dst))) eqn:Hu.
      { simpl. intros H. inversion H; subst. frame_split.
        apply moved_frame_refl. }
      apply bool_decide_eq_false in Hu.
      destruct (FSys.copytree_rmtree _ _ _) as [e'|fs2] eqn:Hct; simpl;
        intros H; inversion H; subst; frame_split.
      * apply moved_frame_refl.
      * by eapply moved_frame_copytree.
  - simpl. intros H. inversion H; subst. frame_split.
    unfold FSys.rename in Hren. repeat case_match; try done.
    inversion Hren; subst. apply moved_frame_rename.
    by eapply bool_decide_eq_false_1.
Qed.

Section MoveLoop.
Import PyPath.
Context (E : Env) (T dst_dir : Path) (fs0 : FS) (all : list Path).
Hypothesis T_anchored : anchor T ≠ "".
Hypothesis all_children : ∀ g, g ∈ all → child_of T g ∧ is_Some (fs0 !! g).

Let target (g : Path) : Path := abs E dst_dir // name g.
Let warn (g : Path) : Event :=
  EvPrint ("[WARN] extraction destination already exists: "
           +:+ pstr E (dst_dir // name g)).
Lemma child_eq (g : Path) :
  child_of T g → g = T // name g.
Proof.
  intros (Ha & Hs & Hn). rewrite join1_segs by done.
  destruct g as [a s]. simpl in *. by rewrite <- Hs, Ha.
Qed.

Lemma child_abs (g : Path) : child_of T g → abs E g = g.
Proof. intros (Ha & _). apply abs_anchored. by rewrite Ha. Qed.

Lemma child_names (g g' : Path) :
  child_of T g → child_of T g' → name g = name g' → g = g'.
Proof.
  intros Hg Hg' Hn. rewrite (child_eq g Hg), (child_eq g' Hg'). by rewrite Hn.
Qed.

Lemma target_not_under (g g' : Path) :
  child_of T g → child_of T g' → g ≠ g' → ¬ under (target g) (target g').
Proof.
  intros Hg Hg' Hne Hu. apply Hne, child_names; [done..|].
  eapply under_siblings; [| |exact Hu]; [apply Hg | apply Hg'].
Qed.

(** An entry below which the destination lies is itself moved into its
    own tree. *)
Lemma target_under_entry (g g' : Path) :
  child_of T g → child_of T g' →
  under g (target g') → target g' ≠ g → under g (target g).
Proof.
  intros Hg Hg' [Ha Hp] Hne.
  assert (Hgs := child_eq g Hg). destruct Hg as (Hga & Hgs' & Hgn).
  destruct Hg' as (_ & _ & Hgn').
  unfold target in *. rewrite join1_segs in * by done. simpl in *.
  destruct Hp as [rest Hrest].
  destruct rest as [|x rest _] using rev_ind.
  - exfalso. apply Hne. rewrite app_nil_r in Hrest.
    destruct g as [a s]. simpl in *. by rewrite Hrest, Ha.
  - rewrite app_assoc in Hrest. apply app_inj_tail in Hrest as [Hrest _].
    split; [done|]. simpl. rewrite Hrest.
    rewrite <- app_assoc. by apply prefix_app_r.
Qed.

Lemma target_eq_entry (g g' : Path) :
  child_of T g → child_of T g' → target g' = g → g' = g.
Proof.
  intros Hg Hg' Heq. apply child_names; [done..|].
  rewrite (child_eq g Hg) in Heq. unfold target in Heq.
  destruct Hg as (_ & _ & Hn), Hg' as (_ & _ & Hn').
  rewrite !join1_segs in Heq by done. inversion Heq as [[Ha Hs]].
  by apply app_inj_tail in Hs as [_ Hs].
Qed.

Lemma move_loop (l : list Path) :
  ∀ (num : nat) (w w' : World) (r : Outcome nat),
  NoDup l → (∀ g, g ∈ l → g ∈ all) →
  (∀ g, g ∈ all → g ∈ l ∨ is_Some (fs0 !! target g) →
        w_fs w !! target g = fs0 !! target g) →
  for_fold l num (move_one E dst_dir) w = (r, w') →
  (∀ g, g ∈ all → is_Some (fs0 !! target g) →
        w_fs w' !! target g = fs0 !! target g)
  ∧ w_tools w' = w_tools w
  ∧ ∃ evs, w_trace w' = w_trace w ++ evs
      ∧ ∀ n, r = Ret n →
          n = num + length (filter (λ g, fs0 !! target g = None) l)
          ∧ evs = warn <$> filter (λ g, is_Some (fs0 !! target g)) l.
Proof.
  induction l as [|g l IH]; intros num w w' r Hnd Hsub Hinv Hrun.
  - simpl in Hrun. inversion Hrun; subst. split; [|split; [done|]].
    + intros g Hg Hs. apply Hinv; auto.
    + exists []. rewrite app_nil_r. split; [done|]. intros n Hn.
      inversion Hn; subst. simpl. split; [lia | done].
  - apply NoDup_cons in Hnd as [Hgl Hnd].
    assert (Hgall : g ∈ all) by (apply Hsub; constructor).
    destruct (all_children g Hgall) as [Hgc Hgs].
    assert (Hg0 : w_fs w !! target g = fs0 !! target g).
    { apply Hinv; [done|]. left. constructor. }
    simpl in Hrun. unfold move_one at 1 in Hrun.
    unfold bind at 1 in Hrun. unfold bind at 1 in Hrun.
    unfold path_exists, fs_read, ok in Hrun. rewrite abs_join1 in Hrun.
    fold (target g) in Hrun. unfold FSys.exists_ in Hrun. rewrite Hg0 in Hrun.
    destruct (fs0 !! target g) as [n0|] eqn:Ht0.
    + (* the destination exists: warn and go on *)
      rewrite bind_print in Hrun. unfold ret at 1 in Hrun.
      apply IH in Hrun as (Hkeep & Htools & evs & Htr & Hret); [| done | |].
      * split; [done|]. split; [done|]. exists (warn g :: evs). split.
        { rewrite Htr. simpl. by rewrite <- app_assoc. }
        intros n Hn. destruct (Hret n Hn) as [-> ->].
        rewrite !filter_cons. rewrite decide_False by congruence.
        rewrite decide_True by (by rewrite Ht0). done.
      * intros g' Hg'. apply Hsub. by constructor.
      * intros g' Hg' Hor. simpl. apply Hinv; [done|].
        destruct Hor as [Hin|Hs]; [left; by constructor | by right].
    + (* the destination is free: move *)
      destruct (shutil_move E g (dst_dir // name g) w) as [r1 w1] eqn:Hmv.
      assert (Hfree : w_fs w !! abs E (dst_dir // name g) = None)
        by (by rewrite abs_join1).
      destruct (shutil_move_frame E _ _ _ _ _ Hfree Hmv)
        as (Htr1 & Htl1 & Hframe).
      rewrite abs_join1, (child_abs g Hgc) in Hframe. fold (target g) in Hframe.
      assert (Hkeep1 : ∀ g', g' ∈ all → g' ∈ l ∨ is_Some (fs0 !! target g') →
                w_fs w1 !! target g' = fs0 !! target g').
      { intros g' Hg' Hor.
        destruct (all_children g' Hg') as [Hgc' Hgs'].
        assert (Hne : g ≠ g').
        { intros <-. destruct Hor as [Hin|Hs]; [done|].
          rewrite Ht0 in Hs. by destruct Hs. }
        assert (Hcur : w_fs w !! target g' = fs0 !! target g').
        { apply Hinv; [done|]. destruct Hor; [left; by constructor|by right]. }
        destruct (Hframe (target g') (target_not_under _ _ Hgc Hgc' Hne))
          as [Hsome Hnone].
        assert (Hneq : target g' ≠ g).
        { intros Heq. apply Hne. symmetry. by apply target_eq_entry. }
        destruct (fs0 !! target g') as [n'|] eqn:Ht'.
        - rewrite Hsome; [done | by rewrite Hcur | done |].
          destruct (decide (under g (target g'))) as [Hu|Hu]; [|by left].
          right. by eapply target_under_entry.
        - apply Hnone; [done|]. apply target_not_under; done. }
      unfold bind at 1 in Hrun. rewrite Hmv in Hrun.
      destruct r1 as [[]|e|c].
      * unfold ret at 1 in Hrun.
        apply IH in Hrun as (Hkeep & Htools & evs & Htr & Hret);
          [| done | | done].
        -- split; [done|]. split; [congruence|]. exists evs.
           split; [congruence|]. intros n Hn. destruct (Hret n Hn) as [-> ->].
           rewrite !filter_cons. rewrite decide_True by done.
           rewrite decide_False by (rewrite Ht0; by intros [? ?]).
           simpl. split; [lia | done].
        -- intros g' Hg'. apply Hsub. by constructor.
      * inversion Hrun; subst. split; [|split; [done|]].
        -- intros g' Hg' Hs. apply Hkeep1; auto.
        -- exists []. rewrite app_nil_r. split; [done|]. by intros n Hn.
      * inversion Hrun; subst. split; [|split; [done|]].
        -- intros g' Hg' Hs. apply Hkeep1; auto.
        -- exists []. rewrite app_nil_r. split; [done|]. by intros n Hn.
Qed.
End MoveLoop.

Lemma children_spec (fs : FS) (d g : Path) :
  g ∈ FSys.children fs d ↔ PyPath.child_of d g ∧ is_Some (fs !! g).
Proof.
  unfold FSys.children. rewrite list_elem_of_filter, list_elem_of_fmap.
  split.
  - intros [Hc ([k n] & -> & Hin)]. split; [done|].
    apply elem_of_map_to_list in Hin. by exists n.
  - intros [Hc [n Hn]]. split; [done|]. exists (g, n). split; [done|].
    by apply elem_of_map_to_list.
Qed.

Lemma children_NoDup (fs : FS) (d : Path) : NoDup (FSys.children fs d).
Proof. apply NoDup_filter, NoDup_fst_map_to_list. Qed.

Lemma parent_join1 (p : Path) (s : string) :
  s ≠ "" → PyPath.parent (p // s) = p.
Proof.
  intros Hs. rewrite join1_segs by done. unfold PyPath.parent. simpl.
  rewrite removelast_last. by destruct p.
Qed.

(** Copy mode, step by step. *)
Lemma extract_or_copy_copy (E : Env) (src dst_dir : Path) (w : World) :
  tools_get (w_tools w) "copy" = None →
  extract_or_copy E "copy" src dst_dir w =
    let dst_file := dst_dir // PyPath.name src in
    if FSys.exists_ (w_fs w) (abs E dst_file) then
      (Ret 0,
       log (EvPrint ("[WARN] destination already exists: "
                     +:+ pstr E dst_file +:+ " - skipping copy")) w)
    else
      let w1 := log (EvPrint ("[COPY] " +:+ pstr E src +:+ tab +:+ "-> "
                              +:+ pstr E dst_file)) w in
      match FSys.copy2 (w_fs w) (abs E src) (abs E dst_file) with
      | inr fs' => (Ret 0, set_fs (λ _, fs') w1)
      | inl e => (Raise e, w1)
      end.
Proof.
  intros Ht. unfold extract_or_copy. unfold bind at 1. unfold get_tools at 1.
  rewrite Ht. rewrite bool_decide_eq_true_2 by done.
  unfold bind, path_exists, shutil_copy2, fs_read, fs_update, ok. simpl.
  destruct (FSys.exists_ _ _); [reflexivity|]. simpl.
  destruct (FSys.copy2 _ _ _); reflexivity.
Qed.

(** Copy mode never returns a count other than 0. *)
Lemma extract_or_copy_copy_count (E : Env) (src dst_dir : Path)
    (w w' : World) (n : nat) :
  tools_get (w_tools w) "copy" = None →
  extract_or_copy E "copy" src dst_dir w = (Ret n, w') → n = 0.
Proof.
  intros Ht. rewrite extract_or_copy_copy by done. simpl.
  destruct (FSys.exists_ _ _); [by intros [= <- _]|].
  destruct (FSys.copy2 _ _ _); [done | by intros [= <- _]].
Qed.

(** C2. An existing destination is never overwritten.  In copy mode a
    call whose target exists returns 0 and leaves everything as it was
    but for one warning line.  In [move_tmp_files] the round of the loop
    for an entry whose target exists leaves everything as it was but for
    one warning line, and the count too; whatever the whole call does,
    every target that existed at the start still holds what it held; and
    when the call returns, the warnings are those of the entries whose
    target existed and the count is that of the other entries.  (The
    entries of the temporary directory are named by their absolute
    paths.) *)
Theorem destination_never_overwritten (E : Env) :
  (∀ (src dst_dir : Path) (w : World),
     tools_get (w_tools w) "copy" = None →
     FSys.exists_ (w_fs w) (abs E (dst_dir // PyPath.name src)) = true →
     extract_or_copy E "copy" src dst_dir w =
       (Ret 0,
        log (EvPrint ("[WARN] destination already exists: "
                      +:+ pstr E (dst_dir // PyPath.name src)
                      +:+ " - skipping copy")) w))
  ∧
  (∀ (dst_dir extracted_file : Path) (num_moved : nat) (w : World),
     FSys.exists_ (w_fs w) (abs E (dst_dir // PyPath.name extracted_file))
       = true →
     move_one E dst_dir num_moved extracted_file w =
       (Ret num_moved,
        log (EvPrint ("[WARN] extraction destination already exists: "
                      +:+ pstr E (dst_dir // PyPath.name extracted_file))) w))
  ∧
  (∀ (tmpdir dst_dir : Path) (w w' : World) (r : Outcome nat),
     anchor (abs E tmpdir) ≠ "" →
     move_tmp_files E tmpdir dst_dir w = (r, w') →
     let entries := FSys.children (w_fs w) (abs E tmpdir) in
     let target f := abs E (dst_dir // PyPath.name f) in
     (∀ f, f ∈ entries → is_Some (w_fs w !! target f) →
           w_fs w' !! target f = w_fs w !! target f)
     ∧ (∀ n, r = Ret n →
          n = length (filter (λ f, w_fs w !! target f = None) entries)
          ∧ w_trace w' = w_trace w ++
              ((λ f, EvPrint ("[WARN] extraction destination already exists: "
                              +:+ pstr E (dst_dir // PyPath.name f)))
                 <$> filter (λ f, is_Some (w_fs w !! target f)) entries))).
Proof.
  split; [|split].
  - intros src dst_dir w Ht Hex. rewrite extract_or_copy_copy by done.
    simpl. by rewrite Hex.
  - intros dst_dir f n w Hex. unfold move_one, bind, path_exists, fs_read.
    simpl. by rewrite Hex.
  - intros tmpdir dst_dir w w' r Ha Hrun entries target.
    unfold move_tmp_files in Hrun. unfold bind at 1 in Hrun.
    unfold path_iterdir, fs_read, FSys.iterdir in Hrun.
    destruct (w_fs w !! abs E tmpdir) as [[c ro|]|] eqn:Hd;
      simpl in Hrun; try (inversion Hrun; subst; by split).
    fold entries in Hrun.
    eapply (move_loop E (abs E tmpdir) dst_dir (w_fs w) entries Ha) in Hrun
      as (Hkeep & _ & evs & Htr & Hret).
    + split.
      * intros f Hf Hs. subst target. simpl. rewrite abs_join1.
        apply Hkeep; [done|]. by rewrite <- abs_join1.
      * intros n Hn. destruct (Hret n Hn) as [-> ->]. split.
        -- simpl. f_equal. apply list_filter_iff. intros f. subst target.
           simpl. by rewrite abs_join1.
        -- rewrite Htr. do 2 f_equal. apply list_filter_iff. intros f.
           subst target. simpl. by rewrite abs_join1.
    + intros g Hg. by apply children_spec.
    + apply children_NoDup.
    + done.
    + intros g Hg _. done.
Qed.

(** ** Copy mode *)



(** * Sample runs *)

Lemma pair_eta {A B} (x : A * B) (a : A) : x.1 = a → x = (a, x.2).
Proof. intros <-. by destruct x. Defined.

Section SampleRuns.
Import Sample.

(** C1. Copy mode returns 0 for the file it has just copied, and the
    total of [build_fidb] misses it.  Copying [foo.o] into the free
    directory [C:\out] puts the file there and returns 0.  A real build
    of an SDK that holds this one object file copies it into the work
    directory and then stops with "No SDK files were copied" and
    [exit(1)]; the dry run of the same build counts the file and
    prints "[+] Copied 1 files". *)
Theorem copy_mode_returns_zero :
  w_fs (world fs_free) !! (out // "foo.o") = None
  ∧ (extract_or_copy (env false) "copy" foo_o out (world fs_free)).1 = Ret 0
  ∧ w_fs (extract_or_copy (env false) "copy" foo_o out (world fs_free)).2
      !! (out // "foo.o") = Some (File "object" false)
  ∧ (script (env false) "dc" sdk_root (world fs_plain)).1 = Exit 1
  ∧ w_fs (script (env false) "dc" sdk_root (world fs_plain)).2
      !! at_ ["sdk"; "fid_work_dc"; "gcc"; "foo.o"; "default"; "r11"; "foo.o"]
    = Some (File "object" false)
  ∧ last (w_trace (script (env false) "dc" sdk_root (world fs_plain)).2)
    = Some (EvPrint "No SDK files were copied. Check filters or paths.")
  ∧ EvPrint "[+] Copied 1 files"
      ∈ w_trace (script (env true) "dc" sdk_root (world fs_plain)).2.
Proof.
  repeat split; try (vm_compute; reflexivity).
  apply (bool_decide_unpack _). vm_compute. exact I.
Qed.

(** The claim of C8 fails on a path that ends in ".lib" and names no
    file: the path is none of those the claim gives [True] for, and the
    call does not answer [False], it raises. *)
Lemma is_ar_archive_missing_lib_raises :
  PyStr.endswith (PyStr.lower (pstr (env false) gone_lib)) ".a" = false
  ∧ PyStr.endswith (PyStr.lower (pstr (env false) gone_lib)) ".elf.lib"
    = false
  ∧ w_fs (world fs_plain) !! abs (env false) gone_lib = None
  ∧ (is_ar_archive (env false) gone_lib (world fs_plain)).1
    = Raise (mkExn FileNotFoundError
               "[Errno 2] No such file or directory: 'C:\\sdk\\r11\\lib\\gone.lib'")
  ∧ (is_ar_archive (env false) gone_lib (world fs_plain)).1 ≠ Ret false.
Proof.
  repeat split; try (vm_compute; reflexivity).
  vm_compute. discriminate.
Qed.

(** The claim of C3 fails on its last part: with the work directory in
    place, the script of a real run ends with status 0. *)
Lemma existing_work_dir_exit_zero :
  DEBUG (env false) = false
  ∧ FSys.exists_ (w_fs (world fs_again)) (abs (env false) work) = true
  ∧ (script (env false) "dc" sdk_root (world fs_again)).1 = Ret tt
  ∧ exit_status (script (env false) "dc" sdk_root (world fs_again)).1 = 0%Z
  ∧ ¬ (exit_status (script (env false) "dc" sdk_root (world fs_again)).1
       ≠ 0%Z).
Proof.
  repeat split; try (vm_compute; reflexivity).
  intros H. apply H. vm_compute. reflexivity.
Qed.

Lemma option_eta (o : option (Z * FS)) (z : Z) :
  fst <$> o = Some z →
  o = Some (z, match o with Some (_, fs') => fs' | None => ∅ end).
Proof. destruct o as [[z' fs']|]; intros H; by inversion H. Defined.

Lemma detect_compiler_gnu_folder_witness :
  "Gnu" ∈ PyPath.parts gnu_lib
  ∧ (PyStr.lower "Gnu" = "gnu" ∨ PyStr.lower "Gnu" = "sh-elf")
  ∧ PyPath.suffix gnu_lib = ".lib"
  ∧ detect_compiler (env false) gnu_lib (world fs_plain)
    = (Ret (Some "gcc"), world fs_plain).
Proof.
  assert (H1 : "Gnu" ∈ PyPath.parts gnu_lib)
    by (apply (bool_decide_unpack _); vm_compute; exact I).
  assert (H2 : PyStr.lower "Gnu" = "gnu" ∨ PyStr.lower "Gnu" = "sh-elf")
    by (left; reflexivity).
  split; [exact H1|]. split; [exact H2|]. split; [reflexivity|].
  exact (detect_compiler_gnu_folder (env false) gnu_lib "Gnu"
           (world fs_plain) H1 H2).
Defined.

Lemma is_ar_archive_cases_witness :
  is_ar_archive (env false) libx_a (world fs_both)
    = (Ret true, world fs_both)
  ∧ PyStr.endswith (PyStr.lower (pstr (env false) u_lib)) ".lib" = true
  ∧ read_file (env false) (w_fs (world fs_unixlib)) u_lib
    = inr "!<arch>unix members"
  ∧ (is_ar_archive (env false) u_lib (world fs_unixlib)).1 = Ret true
  ∧ (∃ e, is_ar_archive (env false) gone_lib (world fs_plain)
          = (Raise e, log (EvOpen gone_lib "rb") (world fs_plain))
          ∧ is_IOError (e_class e) = true)
  ∧ (is_ar_archive (env false) h_lib (world fs_hitachi)).1 = Ret false
  ∧ PyStr.endswith (PyStr.lower (pstr (env false) libx_a)) ".a"
    = PyStr.endswith (PyStr.lower (PyPath.name libx_a)) ".a".
Proof.
  assert (Hu1 : PyStr.endswith (PyStr.lower (pstr (env false) u_lib)) ".lib"
                = true) by (vm_compute; reflexivity).
  assert (Hu2 : read_file (env false) (w_fs (world fs_unixlib)) u_lib
                = inr "!<arch>unix members") by (vm_compute; reflexivity).
  split; [|split; [exact Hu1|split; [exact Hu2|split; [|split; [|split]]]]].
  - apply (is_ar_archive_cases (env false) libx_a (world fs_both)).
    vm_compute. reflexivity.
  - apply (proj1 (is_ar_archive_cases (env false) u_lib (world fs_unixlib))).
    right. split; [exact Hu1|].
    exists "!<arch>unix members". split; [exact Hu2|reflexivity].
  - apply (is_ar_archive_cases (env false) gone_lib (world fs_plain));
      try (vm_compute; reflexivity).
    left. vm_compute. reflexivity.
  - apply (is_ar_archive_cases (env false) h_lib (world fs_hitachi)).
    + intros [H | (_ & c & Hc & Hm)].
      * vm_compute in H. discriminate.
      * vm_compute in Hc. inversion Hc; subst. vm_compute in Hm. discriminate.
    + right. exists "hitachi lib". vm_compute. reflexivity.
  - apply (is_ar_archive_cases (env false) libx_a (world fs_both)).
    + vm_compute. discriminate.
    + right. reflexivity.
    + right. exists "C:". reflexivity.
    + repeat constructor.
Defined.

Lemma select_tool_archive_witness :
  is_ar_archive (env false) libx_a (world fs_both)
    = (Ret true, world fs_both)
  ∧ select_tool (env false) libx_a (world fs_both)
    = (Ret "ar", world fs_both)
  ∧ is_ar_archive (env false) h_lib (world fs_hitachi)
    = (Ret false, log (EvOpen h_lib "rb") (world fs_hitachi))
  ∧ PyStr.lower (PyPath.suffix h_lib) = ".lib"
  ∧ select_tool (env false) h_lib (world fs_hitachi)
    = (Ret "libsplit", log (EvOpen h_lib "rb") (world fs_hitachi)).
Proof.
  assert (H1 : is_ar_archive (env false) libx_a (world fs_both)
               = (Ret true, world fs_both)).
  { apply is_ar_archive_by_suffix. vm_compute. reflexivity. }
  assert (H2 : is_ar_archive (env false) h_lib (world fs_hitachi)
               = (Ret false, log (EvOpen h_lib "rb") (world fs_hitachi))).
  { apply (is_ar_archive_by_magic _ _ _ "hitachi lib");
      vm_compute; reflexivity. }
  assert (H3 : PyStr.lower (PyPath.suffix h_lib) = ".lib")
    by (vm_compute; reflexivity).
  split; [exact H1|]. split.
  { exact (proj1 (select_tool_archive (env false) libx_a _ _) H1). }
  split; [exact H2|]. split; [exact H3|].
  exact (proj2 (select_tool_archive (env false) h_lib _ _) H2 H3).
Defined.

Lemma build_fidb_existing_work_dir_witness :
  DEBUG (env false) = false
  ∧ FSys.exists_ (w_fs (world fs_again)) (abs (env false) work) = true
  ∧ (∃ w', build_fidb (env false) "dc" sdk_root (world fs_again) = (Ret tt, w')
         ∧ w_fs w' = w_fs (world fs_again)
         ∧ w_trace w' = w_trace (world fs_again) ++
             [EvPrint (pstr (env false) (project_root_of "dc") +:+
                       " already exists. Remove it before running the script.")])
  ∧ (script (env false) "dc" sdk_root (world fs_again)).1 = Ret tt.
Proof.
  assert (H1 : DEBUG (env false) = false) by reflexivity.
  assert (H2 : FSys.exists_ (w_fs (world fs_again)) (abs (env false) work)
               = true) by (vm_compute; reflexivity).
  split; [exact H1|]. split; [exact H2|].
  destruct (build_fidb_existing_work_dir (env false) "dc" sdk_root
              (world fs_again) H1 H2) as [Hb Hs].
  split; [exact Hb|]. apply Hs. vm_compute. reflexivity.
Defined.

Lemma build_fidb_nothing_copied_witness :
  prepare (env false) sdk_root work (world fs_bare)
    = (Ret true, prepared fs_bare)
  ∧ walk (env false) sdk_root work (prepared fs_bare)
    = (Ret (0, ∅), walked fs_bare)
  ∧ build_fidb (env false) "dc" sdk_root (world fs_bare) =
      (Exit 1,
       log (EvPrint "No SDK files were copied. Check filters or paths.")
           (walked fs_bare)).
Proof.
  assert (H1 : prepare (env false) sdk_root work (world fs_bare)
               = (Ret true, prepared fs_bare)).
  { apply (pair_eta (prepare (env false) sdk_root work (world fs_bare))).
    vm_compute. reflexivity. }
  assert (H2 : walk (env false) sdk_root work (prepared fs_bare)
               = (Ret (0, ∅), walked fs_bare)).
  { apply (pair_eta (walk (env false) sdk_root work (prepared fs_bare))).
    vm_compute. reflexivity. }
  split; [exact H1|]. split; [exact H2|].
  exact (proj1 (build_fidb_nothing_copied (env false) "dc" sdk_root ∅
                  (world fs_bare) _ _ H1 H2)).
Defined.

Lemma destination_never_overwritten_witness :
  tools_get (w_tools (world fs_taken)) "copy" = None
  ∧ FSys.exists_ (w_fs (world fs_taken))
      (abs (env false) (out // PyPath.name foo_o)) = true
  ∧ extract_or_copy (env false) "copy" foo_o out (world fs_taken) =
      (Ret 0,
       log (EvPrint ("[WARN] destination already exists: "
                     +:+ pstr (env false) (out // PyPath.name foo_o)
                     +:+ " - skipping copy")) (world fs_taken))
  ∧ move_one (env false) out 0 (at_ ["tmp"; "t"; "a.o"]) (world fs_unpacked)
    = (Ret 0,
       log (EvPrint ("[WARN] extraction destination already exists: "
                     +:+ pstr (env false)
                           (out // PyPath.name (at_ ["tmp"; "t"; "a.o"]))))
           (world fs_unpacked))
  ∧ anchor (abs (env false) tmp_t) ≠ ""
  ∧ w_fs (move_tmp_files (env false) tmp_t out (world fs_unpacked)).2
      !! (out // "a.o") = Some (File "old a" false)
  ∧ (move_tmp_files (env false) tmp_t out (world fs_unpacked)).1 = Ret 1
  ∧ w_trace (move_tmp_files (env false) tmp_t out (world fs_unpacked)).2
    = [EvPrint "[WARN] extraction destination already exists: C:\out\a.o"].
Proof.
  assert (H1 : tools_get (w_tools (world fs_taken)) "copy" = None)
    by reflexivity.
  assert (H2 : FSys.exists_ (w_fs (world fs_taken))
                 (abs (env false) (out // PyPath.name foo_o)) = true)
    by (vm_compute; reflexivity).
  assert (H3 : anchor (abs (env false) tmp_t) ≠ "")
    by (vm_compute; discriminate).
  split; [exact H1|]. split; [exact H2|]. split.
  { exact (proj1 (destination_never_overwritten (env false))
             foo_o out (world fs_taken) H1 H2). }
  split.
  { apply (proj1 (proj2 (destination_never_overwritten (env false)))).
    vm_compute. reflexivity. }
  split; [exact H3|].
  destruct (proj2 (proj2 (destination_never_overwritten (env false)))
              tmp_t out (world fs_unpacked) _ _ H3
              (surjective_pairing _)) as [Hkeep Hret].
  split.
  { refine (eq_trans (Hkeep (at_ ["tmp"; "t"; "a.o"]) _ _) _).
    - apply (bool_decide_unpack _). vm_compute. exact I.
    - eexists. vm_compute. reflexivity.
    - vm_compute. reflexivity. }
  assert (Hr : (move_tmp_files (env false) tmp_t out (world fs_unpacked)).1
               = Ret 1) by (vm_compute; reflexivity).
  split; [exact Hr|].
  destruct (Hret 1 Hr) as [_ ->]. vm_compute. reflexivity.
Defined.


Lemma properties_name_first_compiler_witness :
  DEBUG (env false) = false
  ∧ prepare (env false) sdk_root work (world fs_both)
    = (Ret true, prepared fs_both)
  ∧ walk (env false) sdk_root work (prepared fs_both)
    = (Ret (1, {["gcc"; "shc"]}), walked fs_both)
  ∧ spawn (env false) (cmd1 (env false) "dc" {["gcc"; "shc"]})
      (abs (env false) work) (w_fs (walked fs_both))
    = Some (0%Z, analysed fs_both)
  ∧ (ascii_of_nat 10 ∉ PyStr.chars "dc")
  ∧ ∃ (c other : string) (r : Outcome unit) (w' : World) (text : string),
      head (set_order (env false) {["gcc"; "shc"]}) = Some c
      ∧ c ∈ ({["gcc"; "shc"]} : gset string)
      ∧ other ∈ ({["gcc"; "shc"]} : gset string) ∧ other ≠ c
      ∧ build_fidb (env false) "dc" sdk_root (world fs_both) = (r, w')
      ∧ written (w_trace w') =
          [(work // "CreateMultipleLibraries.properties", text)]
      ∧ text =
          "Duplicate Results File OK = duplicates.txt" +:+ nl +:+
          "Do Duplication Detection Do you want to detect duplicates = true"
          +:+ nl +:+
          "Choose destination FidDB Please choose the destination FidDB for population = dc.fidb"
          +:+ nl +:+
          "Select root folder containing all libraries (at a depth of 3): = /"
          +:+ c +:+ nl +:+
          "Common symbols file (optional): OK = common_symbols.txt"
          +:+ nl +:+
          "Enter LanguageID To Process Language ID: = SuperH4:LE:32:default"
          +:+ nl
      ∧ root_folder_line c ∈ text_lines text
      ∧ root_folder_line other ∉ text_lines text.
Proof.
  assert (H0 : DEBUG (env false) = false) by reflexivity.
  assert (H1 : prepare (env false) sdk_root work (world fs_both)
               = (Ret true, prepared fs_both)).
  { apply (pair_eta (prepare (env false) sdk_root work (world fs_both))).
    vm_compute. reflexivity. }
  assert (H2 : walk (env false) sdk_root work (prepared fs_both)
               = (Ret (1, {["gcc"; "shc"]}), walked fs_both)).
  { apply (pair_eta (walk (env false) sdk_root work (prepared fs_both))).
    vm_compute. reflexivity. }
  assert (H3 : spawn (env false) (cmd1 (env false) "dc" {["gcc"; "shc"]})
                 (abs (env false) work) (w_fs (walked fs_both))
               = Some (0%Z, analysed fs_both)).
  { apply (option_eta
             (spawn (env false) (cmd1 (env false) "dc" {["gcc"; "shc"]})
                (abs (env false) work) (w_fs (walked fs_both)))).
    vm_compute. reflexivity. }
  assert (H4 : ascii_of_nat 10 ∉ PyStr.chars "dc")
    by (apply (bool_decide_unpack _); vm_compute; exact I).
  split; [exact H0|]. split; [exact H1|]. split; [exact H2|].
  split; [exact H3|]. split; [exact H4|].
  destruct (properties_name_first_compiler (env false) "dc" sdk_root 1
              {["gcc"; "shc"]} (world fs_both) _ _ (analysed fs_both)
              H0 H1 H2)
    as (c & other & r & w' & text & Hc & Hin & Hoin & Hne & Hb & Hw & Ht
        & Hlines).
  - lia.
  - apply (bool_decide_unpack _). vm_compute. exact I.
  - apply (bool_decide_unpack _). vm_compute. exact I.
  - intros x. apply elem_of_elements.
  - exact H3.
  - vm_compute. reflexivity.
  - vm_compute. reflexivity.
  - destruct (Hlines H4) as (_ & Hl1 & Hl2).
    exists c, other, r, w', text. repeat split; assumption.
Defined.

Lemma is_elf_unreadable_witness :
  PyStr.has_nul (pstr (env false) gone_lib) = false
  ∧ FSys.is_file (w_fs (world fs_elf)) (abs (env false) gone_lib) = false
  ∧ is_elf (env false) gone_lib (world fs_elf)
    = (Ret false, log (EvOpen gone_lib "rb") (world fs_elf))
  ∧ locked (env false) (abs (env false) busy_elf) = true
  ∧ w_fs (world fs_elf) !! abs (env false) busy_elf
    = Some (File (String (ascii_of_nat 127) "ELF code") false)
  ∧ (∃ e, read_file (env false) (w_fs (world fs_elf)) busy_elf = inl e
          ∧ e_class e = PermissionError)
  ∧ is_elf (env false) busy_elf (world fs_elf)
    = (Ret false, log (EvOpen busy_elf "rb") (world fs_elf))
  ∧ is_elf (env false) prog_elf (world fs_elf)
    = (Ret true, log (EvOpen prog_elf "rb") (world fs_elf))
  ∧ is_elf (env false) notes_txt (world fs_elf)
    = (Ret false, log (EvOpen notes_txt "rb") (world fs_elf))
  ∧ PyStr.has_nul (pstr (env false) nul_name) = true
  ∧ is_elf (env false) nul_name (world fs_elf)
    = (Raise (mkExn ValueError "embedded null byte"),
       log (EvOpen nul_name "rb") (world fs_elf)).
Proof.
  pose proof (is_elf_unreadable (env false) gone_lib (world fs_elf))
    as (_ & Hgone & _).
  pose proof (is_elf_unreadable (env false) busy_elf (world fs_elf))
    as (Hbusy & _).
  pose proof (is_elf_unreadable (env false) prog_elf (world fs_elf))
    as (_ & _ & Hprog & _).
  pose proof (is_elf_unreadable (env false) notes_txt (world fs_elf))
    as (_ & _ & Hnotes & _).
  pose proof (is_elf_unreadable (env false) nul_name (world fs_elf))
    as (_ & _ & _ & Hnul).
  assert (H1 : PyStr.has_nul (pstr (env false) gone_lib) = false)
    by (vm_compute; reflexivity).
  assert (H2 : FSys.is_file (w_fs (world fs_elf)) (abs (env false) gone_lib)
               = false) by (vm_compute; reflexivity).
  assert (H3 : read_file (env false) (w_fs (world fs_elf)) busy_elf
               = inl (mkExn PermissionError
                        "[Errno 13] Permission denied: 'C:\\sdk\\r11\\lib\\busy.elf'"))
    by (vm_compute; reflexivity).
  assert (H4 : PyStr.has_nul (pstr (env false) nul_name) = true)
    by (vm_compute; reflexivity).
  split; [exact H1|]. split; [exact H2|].
  split; [exact (Hgone H1 (or_introl H2))|].
  split; [vm_compute; reflexivity|]. split; [vm_compute; reflexivity|].
  split; [eexists; split; [exact H3|reflexivity]|].
  split; [exact (Hbusy _ H3 eq_refl)|].
  split.
  { rewrite (Hprog (String (ascii_of_nat 127) "ELF code") false);
      [reflexivity|vm_compute; reflexivity..]. }
  split.
  { rewrite (Hnotes "text" false);
      [reflexivity|vm_compute; reflexivity..]. }
  split; [exact H4|]. exact (Hnul H4).
Defined.

End SampleRuns.

(** * Further properties *)

(** ** How a computation ends and what it leaves *)

Section Meets.
Context (R : World → World → Prop) (X : Z → Prop).
Context `{!Reflexive R} `{!Transitive R}.

Lemma meets_quiet {A} (m : M A) :
  (∀ w r w', m w = (r, w') → R w w' ∧ ∀ c, r ≠ Exit c) → meets R X m.
Proof.
  intros H w r w' Hm. destruct (H _ _ _ Hm) as [HR Hne].
  split; [done|]. intros c Hc. by destruct (Hne c).
Qed.

Lemma meets_ret {A} (a : A) : meets R X (ret a).
Proof. apply meets_quiet. intros w r w' [= <- <-]. by split. Qed.

Lemma meets_raise {A} c t : meets R X (@raise A c t).
Proof. apply meets_quiet. intros w r w' [= <- <-]. by split. Qed.

Lemma meets_reraise {A} e : meets R X (@reraise A e).
Proof. apply meets_quiet. intros w r w' [= <- <-]. by split. Qed.

Lemma meets_exit {A} c : X c → meets R X (@exit_ A c).
Proof.
  intros Hc w r w' [= <- <-]. split; [done|]. by intros c' [= <-].
Qed.

Lemma meets_get_tools : meets R X get_tools.
Proof. apply meets_quiet. intros w r w' [= <- <-]. by split. Qed.

Lemma meets_fs_read {A} (f : FS → Exc A) : meets R X (fs_read f).
Proof.
  apply meets_quiet. intros w r w'. unfold fs_read.
  destruct (f (w_fs w)); intros [= <- <-]; by split.
Qed.

Lemma meets_fs_update (f : FS → Exc FS) :
  (∀ w fs', R w (set_fs (λ _, fs') w)) → meets R X (fs_update f).
Proof.
  intros HR. apply meets_quiet. intros w r w'. unfold fs_update.
  destruct (f (w_fs w)); intros [= <- <-]; by split.
Qed.

Lemma meets_print s : (∀ w, R w (log (EvPrint s) w)) → meets R X (print s).
Proof. intros HR. apply meets_quiet. intros w r w' [= <- <-]. by split. Qed.

Lemma meets_bind {A B} (m : M A) (f : A → M B) :
  meets R X m → (∀ a, meets R X (f a)) → meets R X (bind m f).
Proof.
  intros Hm Hf w r w'. unfold bind.
  destruct (m w) as [[a|e|c] w1] eqn:Hmw; intros H.
  - destruct (Hm _ _ _ Hmw) as [HR1 _]. destruct (Hf a _ _ _ H) as [HR2 HX].
    split; [by etrans | done].
  - inversion H; subst. destruct (Hm _ _ _ Hmw) as [HR1 _]. by split.
  - inversion H; subst. destruct (Hm _ _ _ Hmw) as [HR1 HX].
    split; [done|]. intros c' [= <-]. by apply HX.
Qed.

Lemma meets_try_except {A} (m : M A) catches (h : Exn → M A) :
  meets R X m → (∀ e, meets R X (h e)) → meets R X (try_except m catches h).
Proof.
  intros Hm Hh w r w'. unfold try_except.
  destruct (m w) as [[a|e|c] w1] eqn:Hmw; intros H.
  - inversion H; subst. eauto.
  - destruct (catches (e_class e)).
    + destruct (Hm _ _ _ Hmw) as [HR1 _]. destruct (Hh e _ _ _ H) as [HR2 HX].
      split; [by etrans | done].
    + inversion H; subst. eauto.
  - inversion H; subst. eauto.
Qed.

Lemma meets_when b (m : M unit) : meets R X m → meets R X (when b m).
Proof. intros H. destruct b; [done | apply meets_ret]. Qed.

Lemma meets_for_each {A} (l : list A) (body : A → M unit) :
  (∀ x, meets R X (body x)) → meets R X (for_each l body).
Proof.
  intros Hb. induction l as [|x l IH]; simpl.
  - apply meets_ret.
  - apply meets_bind; [apply Hb | intros _; apply IH].
Qed.

Lemma meets_for_fold {A S} (l : list A) (acc : S) (body : S → A → M S) :
  (∀ s x, meets R X (body s x)) → meets R X (for_fold l acc body).
Proof.
  intros Hb. revert acc. induction l as [|x l IH]; intros acc; simpl.
  - apply meets_ret.
  - apply meets_bind; [apply Hb | intros s; apply IH].
Qed.

Lemma meets_with_tmpdir {A} E (body : Path → M A) :
  (∀ w f, R w (set_fs f w)) →
  (∀ d, meets R X (body d)) → meets R X (with_tmpdir E body).
Proof.
  intros HR Hb w r w'. unfold with_tmpdir.
  destruct (body _ _) as [r1 w1] eqn:Hbw. intros [= <- <-].
  destruct (Hb _ _ _ _ Hbw) as [HR1 HX]. split; [|done].
  etrans; [apply HR|]. etrans; [exact HR1 | apply HR].
Qed.

Lemma meets_open_read E p n :
  (∀ w, R w (log (EvOpen p "rb") w)) → meets R X (open_read E p n).
Proof.
  intros HR. apply meets_quiet. intros w r w'. rewrite open_read_eq.
  destruct (read_file _ _ _); intros [= <- <-]; by split.
Qed.

Lemma meets_open_write E p t :
  (∀ w fs', R w (log (EvWrite p t)
                   (set_fs (λ _, fs') (log (EvOpen p "w") w)))) →
  (∀ w, R w (log (EvOpen p "w") w)) →
  meets R X (open_write E p t).
Proof.
  intros HR1 HR2. apply meets_quiet. intros w r w'.
  unfold open_write, bind, fs_update. simpl.
  destruct (FSys.write_text _ _ _); intros [= <- <-]; by split.
Qed.

Lemma meets_subprocess_run E argv dir :
  (∀ w fs', R w (set_fs (λ _, fs') (log (EvRun argv dir) w))) →
  (∀ w, R w (log (EvRun argv dir) w)) →
  meets R X (subprocess_run E argv dir).
Proof.
  intros HR1 HR2. apply meets_quiet. intros w r w'. unfold subprocess_run.
  destruct (spawn E _ _ _) as [[c fs']|]; intros [= <- <-]; by split.
Qed.

Lemma meets_subprocess_check_call E argv dir :
  (∀ w fs', R w (set_fs (λ _, fs') (log (EvCheckCall argv dir) w))) →
  (∀ w, R w (log (EvCheckCall argv dir) w)) →
  meets R X (subprocess_check_call E argv dir).
Proof.
  intros HR1 HR2. apply meets_quiet. intros w r w'.
  unfold subprocess_check_call.
  destruct (spawn E _ _ _) as [[c fs']|]; [destruct (decide _)|];
    intros [= <- <-]; by split.
Qed.

Lemma meets_resolve_tools E sdk_root :
  (∀ w f, R w (set_tools f w)) → meets R X (resolve_tools E sdk_root).
Proof. intros HR. apply meets_quiet. intros w r w' [= <- <-]. by split. Qed.

End Meets.

Ltac inst := try (solve [exact _]).

Ltac meets_step tac :=
  lazymatch goal with
  | |- meets _ _ (bind _ _) => apply meets_bind; inst; [| intros ?]
  | |- meets _ _ (ret _) => apply meets_ret; inst
  | |- meets _ _ (raise _ _) => apply meets_raise; inst
  | |- meets _ _ (reraise _) => apply meets_reraise; inst
  | |- meets _ _ (exit_ _) => apply meets_exit; inst; tac
  | |- meets _ _ get_tools => apply meets_get_tools; inst
  | |- meets _ _ (print _) => apply meets_print; inst; tac
  | |- meets _ _ (when _ _) => apply meets_when; inst
  | |- meets _ _ (try_except _ _ _) =>
      apply meets_try_except; inst; [| intros ?]
  | |- meets _ _ (for_each _ _) => apply meets_for_each; inst; intros ?
  | |- meets _ _ (for_fold _ _ _) => apply meets_for_fold; inst; intros ? ?
  | |- meets _ _ (with_tmpdir _ _) =>
      apply meets_with_tmpdir; inst; [tac | intros ?]
  | |- meets _ _ (open_read _ _ _) => apply meets_open_read; inst; tac
  | |- meets _ _ (open_write _ _ _) => apply meets_open_write; inst; tac
  | |- meets _ _ (subprocess_run _ _ _) =>
      apply meets_subprocess_run; inst; tac
  | |- meets _ _ (subprocess_check_call _ _ _) =>
      apply meets_subprocess_check_call; inst; tac
  | |- meets _ _ (resolve_tools _ _) => apply meets_resolve_tools; inst; tac
  | |- meets _ _ (fs_read _) => apply meets_fs_read; inst
  | |- meets _ _ (fs_update _) => apply meets_fs_update; inst; tac
  | |- meets _ _ (if ?b then _ else _) => destruct b
  | |- meets _ _ (match ?x with _ => _ end) => destruct x
  end.

(** ** The functions that only look *)

Section Looking.
Context (E : Env) (R : World → World → Prop) (X : Z → Prop).
Context `{!Reflexive R} `{!Transitive R}.
Hypothesis R_log : ∀ e w, dry_event e → R w (log e w).

Local Ltac look := intros; apply R_log; done.

Lemma meets_is_elf f : meets R X (is_elf E f).
Proof. unfold is_elf. repeat meets_step look. Qed.

Lemma meets_is_ar_archive f : meets R X (is_ar_archive E f).
Proof. unfold is_ar_archive. repeat meets_step look. Qed.

Lemma meets_should_ignore f : meets R X (should_ignore E f).
Proof.
  unfold should_ignore. repeat meets_step look.
  generalize (set_order E IGNORE_DIRS). intros ds.
  induction ds as [|d ds IH]; simpl; repeat meets_step look. exact IH.
Qed.

Lemma meets_detect_compiler f : meets R X (detect_compiler E f).
Proof.
  unfold detect_compiler. repeat meets_step look. apply meets_is_ar_archive; inst; done.
Qed.

Lemma meets_select_tool f : meets R X (select_tool E f).
Proof.
  unfold select_tool. repeat meets_step look. apply meets_is_ar_archive; inst; done.
Qed.

(** With [DEBUG] on, [build_fidb] is made of these and of prints. *)
Hypothesis R_tools : ∀ w f, R w (set_tools f w).
Hypothesis X_1 : X 1%Z.
Hypothesis dry : DEBUG E = true.

Lemma meets_prepare_dry sdk_root project_root :
  meets R X (prepare E sdk_root project_root).
Proof.
  unfold prepare, debug_banner. rewrite dry.
  repeat meets_step ltac:(first [look | apply R_tools]).
Qed.

Lemma meets_walk_step_dry sdk_root project_root st file :
  meets R X (walk_step E sdk_root project_root st file).
Proof.
  unfold walk_step. rewrite dry. unfold_calls.
  repeat first
    [ lazymatch goal with
      | |- meets _ _ (when (negb true) _) => apply meets_ret; inst
      end
    | meets_step look ];
    first [ apply meets_should_ignore | apply meets_detect_compiler
          | apply meets_select_tool ].
Qed.

Lemma meets_walk_dry sdk_root project_root :
  meets R X (walk E sdk_root project_root).
Proof.
  unfold walk. unfold_calls. repeat meets_step look.
  apply meets_walk_step_dry.
Qed.

Lemma meets_run_analysis_dry fidb_name project_root copied compilers :
  meets R X (run_analysis E fidb_name project_root copied compilers).
Proof.
  unfold run_analysis. rewrite dry.
  repeat meets_step ltac:(first [exact X_1 | look]).
Qed.

Lemma meets_build_fidb_dry fidb_name sdk_root :
  meets R X (build_fidb E fidb_name sdk_root).
Proof.
  unfold build_fidb. repeat meets_step look;
    first [ apply meets_prepare_dry | apply meets_walk_dry
          | apply meets_run_analysis_dry ].
Qed.

End Looking.

Lemma dry_step_log (e : Event) (w : World) : dry_event e → dry_step w (log e w).
Proof.
  intros He. split; [done|]. exists [e]. split; [done | by constructor].
Qed.

Lemma dry_step_tools (w : World) (f : Tools → Tools) :
  dry_step w (set_tools f w).
Proof. split; [done|]. exists []. by rewrite app_nil_r. Qed.

(** X1. A dry run ([DEBUG] on) of [build_fidb] leaves the file system
    exactly as it found it, and all it does besides is print lines and
    open files for reading: no file is written, no unpacking tool and no
    analysis run is started, however the run ends. *)
Theorem build_fidb_dry_run (E : Env) (fidb_name : string) (sdk_root : Path)
    (w w' : World) (r : Outcome unit) :
  DEBUG E = true →
  build_fidb E fidb_name sdk_root w = (r, w') →
  w_fs w' = w_fs w
  ∧ ∃ evs, w_trace w' = w_trace w ++ evs ∧ Forall dry_event evs.
Proof.
  intros Hd Hb.
  exact (proj1 (meets_build_fidb_dry E dry_step (λ _, True) dry_step_log
                  dry_step_tools I Hd fidb_name sdk_root w r w' Hb)).
Qed.

(** ** Leaving through [exit] *)

Section Exits.
Context (E : Env).

Local Abbreviation ends := (meets any_step exit_one).
Local Ltac any := first [ by intros | reflexivity ].
Local Ltac walk_on := repeat meets_step any.

Lemma any_step_log (e : Event) (w : World) : dry_event e → any_step w (log e w).
Proof. done. Qed.

Lemma ends_shutil_move src dst : ends (shutil_move E src dst).
Proof.
  unfold shutil_move. unfold_calls. unfold shutil_copytree_rmtree. walk_on.
Qed.

Lemma ends_move_tmp_files tmpdir dst_dir :
  ends (move_tmp_files E tmpdir dst_dir).
Proof.
  unfold move_tmp_files, move_one. unfold_calls. walk_on.
  apply ends_shutil_move.
Qed.

Lemma ends_convert_obj tmpdir f : ends (convert_obj E tmpdir f).
Proof. unfold convert_obj. unfold_calls. walk_on. Qed.

Lemma ends_fix_extracted f : ends (fix_extracted E f).
Proof.
  unfold fix_extracted. unfold_calls. walk_on.
  apply meets_is_elf; inst. apply any_step_log.
Qed.

Lemma ends_extract_or_copy tool src dst_dir :
  ends (extract_or_copy E tool src dst_dir).
Proof.
  unfold extract_or_copy. unfold_calls.
  walk_on;
    first [ apply ends_move_tmp_files | apply ends_convert_obj
          | apply ends_fix_extracted ].
Qed.

Lemma ends_walk_step sdk_root project_root st file :
  ends (walk_step E sdk_root project_root st file).
Proof.
  unfold walk_step. unfold_calls.
  walk_on;
    first [ apply meets_should_ignore | apply meets_detect_compiler
          | apply meets_select_tool | apply ends_extract_or_copy ];
    inst; apply any_step_log.
Qed.

Lemma ends_walk sdk_root project_root : ends (walk E sdk_root project_root).
Proof. unfold walk. unfold_calls. walk_on. apply ends_walk_step. Qed.

Lemma ends_prepare sdk_root project_root :
  ends (prepare E sdk_root project_root).
Proof. unfold prepare, debug_banner. unfold_calls. walk_on. Qed.

Lemma ends_create_extra_files project_root sdk_name compiler :
  ends (create_extra_files E project_root sdk_name compiler).
Proof. unfold create_extra_files. unfold_calls. walk_on. Qed.

Lemma ends_run_analysis fidb_name project_root copied compilers :
  ends (run_analysis E fidb_name project_root copied compilers).
Proof.
  unfold run_analysis, first_compiler. walk_on.
  apply ends_create_extra_files.
Qed.

Lemma ends_build_fidb fidb_name sdk_root :
  ends (build_fidb E fidb_name sdk_root).
Proof.
  unfold build_fidb. walk_on;
    first [ apply ends_prepare | apply ends_walk | apply ends_run_analysis ].
Qed.

Lemma ends_script fidb_name sdk_root : ends (script E fidb_name sdk_root).
Proof.
  unfold script. unfold_calls. walk_on; [|apply ends_build_fidb].
  apply meets_quiet; inst. intros w r w' [= <- <-]. by split.
Qed.

End Exits.

(** X2. Whenever the script leaves through [exit], the code is 1; so a
    run of the script ends with status 0 (it returned) or 1 (it left
    through [exit] or an exception was not caught).  When Ghidra's
    launcher is not found the script prints where it looked and leaves
    with 1 at once: [build_fidb] is not entered and the file system is
    untouched. *)
Theorem script_exit_status (E : Env) (fidb_name : string) (sdk_root : Path)
    (w : World) :
  let launcher := GHIDRA_HOME E // "support" // "analyzeHeadless.bat" in
  (∀ c, (script E fidb_name sdk_root w).1 = Exit c → c = 1%Z)
  ∧ (exit_status (script E fidb_name sdk_root w).1 = 0%Z
     ∨ exit_status (script E fidb_name sdk_root w).1 = 1%Z)
  ∧ (FSys.exists_ (w_fs w) (abs E launcher) = false →
     ∃ w', script E fidb_name sdk_root w = (Exit 1, w')
       ∧ w_fs w' = w_fs w
       ∧ w_trace w' =
           w_trace w ++
           [EvPrint ("Ghidra not installed or GHIDRA_HOME not set correctly."
                     +:+ String (ascii_of_nat 10) "" +:+ "Not found: "
                     +:+ pstr E launcher)]).
Proof.
  intros launcher.
  assert (Hc : ∀ c, (script E fidb_name sdk_root w).1 = Exit c → c = 1%Z).
  { intros c Hc.
    destruct (script E fidb_name sdk_root w) as [r w'] eqn:Hs.
    exact (proj2 (ends_script E fidb_name sdk_root w r w' Hs) c Hc). }
  split; [exact Hc|]. split.
  - destruct (script E fidb_name sdk_root w).1 as [a|e|c] eqn:Hr; simpl.
    + by left.
    + by right.
    + right. by apply Hc.
  - intros Hno. unfold script, bind, path_exists, fs_read. simpl.
    change (ANALYZE E) with launcher. rewrite Hno. by eexists.
Qed.

(** ** More on the classifier *)

Lemma first_token_spec (tokens parts : list string) :
  (first_token tokens parts = "default" ∧ ∀ t, t ∈ tokens → t ∉ parts)
  ∨ ∃ pre t post, tokens = pre ++ t :: post ∧ t ∈ parts
                  ∧ (∀ u, u ∈ pre → u ∉ parts)
                  ∧ first_token tokens parts = t.
Proof.
  induction tokens as [|t tokens IH]; simpl.
  - left. split; [done|]. intros t Ht. by apply elem_of_nil in Ht.
  - unfold mem. destruct (bool_decide (t ∈ parts)) eqn:Ht.
    + apply bool_decide_eq_true in Ht. right. exists [], t, tokens.
      repeat split; try done. intros u Hu. by apply elem_of_nil in Hu.
    + apply bool_decide_eq_false in Ht.
      destruct IH as [[Hd Hno] | (pre & t' & post & -> & Hin & Hpre & Hr)].
      * left. split; [done|]. intros u [-> | Hu]%elem_of_cons; auto.
      * right. exists (t :: pre), t', post. repeat split; try done.
        intros u [-> | Hu]%elem_of_cons; auto.
Qed.

(** X3. [detect_variant] gives the first of the five tokens, in the
    order "m4-single-only", "m4-single", "mnomacsave", "m4", "ml", that
    is a lower-cased part of the path: every token before the one it
    gives is no part of the path; and it gives "default" only when none
    of the five is a part. *)
Theorem detect_variant_priority (path : Path) :
  let parts := PyStr.lower <$> PyPath.parts path in
  let tokens := ["m4-single-only"; "m4-single"; "mnomacsave"; "m4"; "ml"] in
  (detect_variant path = "default" ∧ ∀ t, t ∈ tokens → t ∉ parts)
  ∨ ∃ pre t post, tokens = pre ++ t :: post ∧ t ∈ parts
                  ∧ (∀ u, u ∈ pre → u ∉ parts)
                  ∧ detect_variant path = t.
Proof. intros parts tokens. apply first_token_spec. Qed.

Lemma existsb_marker (markers : list string) (path : Path) :
  existsb (λ p, mem p (PyStr.lower <$> PyPath.parts path)) markers = true
  ↔ has_marker markers path.
Proof.
  rewrite existsb_exists. unfold has_marker, mem. split.
  - intros (m & Hm & Hp). apply bool_decide_eq_true in Hp.
    apply list_elem_of_fmap in Hp as (seg & -> & Hseg).
    exists seg. split; [done|]. by apply list_elem_of_In.
  - intros (seg & Hseg & Hm). exists (PyStr.lower seg). split.
    + by apply list_elem_of_In.
    + apply bool_decide_eq_true. by apply list_elem_of_fmap_2.
Qed.

Lemma existsb_no_marker (markers : list string) (path : Path) :
  ¬ has_marker markers path →
  existsb (λ p, mem p (PyStr.lower <$> PyPath.parts path)) markers = false.
Proof.
  intros H. apply not_true_is_false. intros Ht. by apply H, existsb_marker.
Qed.

(** X4. A path with a part equal, up to case, to "codewarrior", "mwerks"
    or "mw", and with no part equal to "gnu" or "sh-elf", is classified
    "shc" whatever its extension and content; nothing is opened and the
    state is left as it was. *)
Theorem detect_compiler_second_folder (E : Env) (path : Path) (w : World) :
  has_marker ["codewarrior"; "mwerks"; "mw"] path →
  ¬ has_marker ["gnu"; "sh-elf"] path →
  detect_compiler E path w = (Ret (Some "shc"), w).
Proof.
  intros Hmw Hgnu. unfold detect_compiler.
  rewrite (existsb_no_marker _ _ Hgnu).
  by rewrite (proj2 (existsb_marker _ _) Hmw).
Qed.

Lemma valid_ext_cases (s : string) :
  s ∈ VALID_EXTS ↔ s ∈ [".o"; ".a"; ".elf"; ".obj"; ".lib"].
Proof.
  unfold VALID_EXTS. rewrite !elem_of_union, !elem_of_singleton.
  rewrite !elem_of_cons, elem_of_nil. tauto.
Qed.

(** X5. For a path whose lower-cased suffix is one of the five of
    [VALID_EXTS], [detect_compiler] never answers [None]: when it
    returns, it returns "gcc" or "shc".  So the files [build_fidb] lets
    through its extension filter never reach its "unknown compiler"
    branch. *)
Theorem detect_compiler_valid_ext (E : Env) (path : Path) (w w' : World)
    (c : option string) :
  let ext := PyStr.lower (PyPath.suffix path) in
  (ext ∈ VALID_EXTS ↔ ext ∈ [".o"; ".a"; ".elf"; ".obj"; ".lib"])
  ∧ (ext ∈ VALID_EXTS →
     detect_compiler E path w = (Ret c, w') →
     c = Some "gcc" ∨ c = Some "shc").
Proof.
  intros ext. split; [apply valid_ext_cases|].
  intros Hv%valid_ext_cases. unfold ext in Hv. clear ext.
  unfold detect_compiler.
  destruct (existsb _ ["gnu"; "sh-elf"]); [intros [= <- _]; by left|].
  destruct (existsb _ ["codewarrior"; "mwerks"; "mw"]);
    [intros [= <- _]; by right|].
  rewrite !elem_of_cons, elem_of_nil in Hv. unfold bind.
  destruct (mem _ [".a"; ".o"; ".elf"]) eqn:H1; [intros [= <- _]; by left|].
  destruct (is_ar_archive E path w) as [[[|]|e|x] w1]; try done.
  { intros [= <- _]. by left. }
  destruct Hv as [Hs | [Hs | [Hs | [Hs | [Hs | []]]]]]; rewrite Hs in *;
    try (vm_compute in H1; discriminate);
    change (mem _ [".lib"; ".obj"]) with true; intros [= <- _]; by right.
Qed.


(** ** More on the archive handler *)

(** X7. [extract_or_copy] with a tool of the dictionary that was not
    found, or with a mode that is none of "copy", "ar" and "libsplit",
    prints one warning and returns 0: the file system is not touched and
    no program is started. *)
Theorem extract_or_copy_no_tool (E : Env) (tool : string)
    (src dst_dir : Path) (w : World) :
  (∀ t, tools_get (w_tools w) tool = Some t → tool_found t = false →
     extract_or_copy E tool src dst_dir w =
       (Ret 0,
        log (EvPrint ("[WARN] " +:+ tool +:+ " not found: "
                      +:+ pstr E (t_path t) +:+ " - cannot process "
                      +:+ PyPath.name src)) w))
  ∧ ((tools_get (w_tools w) tool = None
      ∨ ∃ t, tools_get (w_tools w) tool = Some t ∧ tool_found t = true) →
     tool ∉ ["copy"; "ar"; "libsplit"] →
     extract_or_copy E tool src dst_dir w =
       (Ret 0, log (EvPrint ("[WARN] unknown tool: " +:+ tool)) w)).
Proof.
  split.
  - intros t Ht Hf. unfold extract_or_copy, bind, get_tools, tool_path.
    rewrite Ht, Hf. simpl. unfold bind, get_tools. by rewrite Ht.
  - intros Hfound Hmode.
    assert (Hc : tool ≠ "copy") by (intros ->; apply Hmode; repeat constructor).
    assert (Hm : mem tool ["ar"; "libsplit"] = false).
    { apply bool_decide_eq_false. intros Hin. apply Hmode.
      by apply elem_of_cons; right. }
    unfold extract_or_copy, bind, get_tools.
    destruct Hfound as [-> | (t & -> & ->)]; simpl;
      rewrite bool_decide_eq_false_2 by done; by rewrite Hm.
Qed.

(** ** More on the analysis driver *)

Lemma elem_of_flat_import (c : string) (l : list string) :
  c ∈ l →
  ∃ pre post,
    flat_map (λ compiler, ["-import"; compiler]) l
    = pre ++ ["-import"; c] ++ post.
Proof.
  induction l as [|x l IH]; intros Hin.
  - by apply elem_of_nil in Hin.
  - apply elem_of_cons in Hin as [-> | Hin].
    + exists [], (flat_map (λ compiler, ["-import"; compiler]) l). done.
    + destruct (IH Hin) as (pre & post & Heq).
      exists ("-import" :: x :: pre), post. simpl. by rewrite Heq.
Qed.

(** X8. The command of the first analysis run imports every discovered
    toolchain: for each compiler the set iteration yields, the arguments
    hold "-import" followed by its name, after the launcher, the project
    and the database name and before "-recursive". *)
Theorem cmd1_imports (E : Env) (fidb_name c : string)
    (compilers : gset string) :
  c ∈ set_order E compilers →
  ∃ pre post,
    cmd1 E fidb_name compilers =
      [pstr E (GHIDRA_HOME E // "support" // "analyzeHeadless.bat");
       "ghidraproj"; fidb_name]
      ++ pre ++ ["-import"; c] ++ post ++
      [ "-recursive";
        "-processor";  "SuperH4:LE:32:default";
        "-preScript";  "FunctionIDHeadlessPrescript.java";
        "-postScript"; "FunctionIDHeadlessPostscript.java";
        "-scriptlog";  "script.log";
        "-log";        "analyze.log" ].
Proof.
  intros Hin. destruct (elem_of_flat_import c _ Hin) as (pre & post & Heq).
  exists pre, post. unfold cmd1. rewrite Heq.
  by rewrite <- !app_assoc.
Qed.

(** X9. In a real run that has copied something, a first analysis run
    that ends with a status other than 0 stops the build: the error line
    is printed, the [CalledProcessError] goes on to the caller, and
    neither the properties file nor the second run follows.  When the
    launcher cannot be started at all the error of the system goes on to
    the caller without the error line. *)
Theorem run_analysis_first_run_fails (E : Env) (fidb_name : string)
    (project_root : Path) (copied : nat) (compilers : gset string)
    (w : World) :
  DEBUG E = false → copied ≠ 0 →
  let cmd :=
    [ pstr E (GHIDRA_HOME E // "support" // "analyzeHeadless.bat");
      "ghidraproj"; fidb_name ]
    ++ flat_map (λ compiler, ["-import"; compiler]) (set_order E compilers)
    ++ [ "-recursive";
         "-processor";  "SuperH4:LE:32:default";
         "-preScript";  "FunctionIDHeadlessPrescript.java";
         "-postScript"; "FunctionIDHeadlessPostscript.java";
         "-scriptlog";  "script.log";
         "-log";        "analyze.log" ] in
  let started :=
    [ EvPrint ("[+] Copied " +:+ pretty copied +:+ " files");
      EvPrint "[RUN ] analyzeHeadless (1/2)";
      EvCheckCall cmd project_root ] in
  (∀ code fs1,
     spawn E cmd (abs E project_root) (w_fs w) = Some (code, fs1) →
     code ≠ 0%Z →
     ∃ e, e_class e = CalledProcessError
          ∧ run_analysis E fidb_name project_root copied compilers w =
              (Raise e,
               mkWorld fs1 (w_tools w)
                 (w_trace w ++ started ++
                  [EvPrint ("[ERROR] analyzeHeadless first run failed: "
                            +:+ e_text e)])))
  ∧ (spawn E cmd (abs E project_root) (w_fs w) = None →
     ∃ e, is_IOError (e_class e) = true
          ∧ run_analysis E fidb_name project_root copied compilers w =
              (Raise e, mkWorld (w_fs w) (w_tools w) (w_trace w ++ started))).
Proof.
  intros Hd Hc cmd started.
  change cmd with (cmd1 E fidb_name compilers) in *.
  clear cmd. set (cmd := cmd1 E fidb_name compilers) in *.
  assert (Hrun : ∀ e w1,
    try_except
      (print "[RUN ] analyzeHeadless (1/2)" >>
       subprocess_check_call E cmd project_root)
      is_CalledProcessError
      (λ e, print ("[ERROR] analyzeHeadless first run failed: "
                   +:+ e_text e) >> reraise e)
      (log (EvPrint ("[+] Copied " +:+ pretty copied +:+ " files")) w)
    = (Raise e, w1) →
    run_analysis E fidb_name project_root copied compilers w = (Raise e, w1)).
  { intros e w1 Ht. unfold run_analysis. rewrite bool_decide_eq_false_2 by done.
    rewrite Hd, bind_print. by apply bind_Raise. }
  split.
  - intros code fs1 Hs Hcode.
    exists (mkExn CalledProcessError
              ("Command '" +:+ repr_list cmd +:+
               "' returned non-zero exit status " +:+ pretty code +:+ ".")).
    split; [done|apply Hrun].
    unfold try_except. rewrite bind_print.
    unfold subprocess_check_call. simpl w_fs. rewrite Hs.
    rewrite decide_False by done. simpl. rewrite bind_print.
    unfold reraise, log, set_fs, started. simpl. by rewrite <- !app_assoc.
  - intros Hs.
    exists (mkExn FileNotFoundError "cannot start the program").
    split; [done|apply Hrun].
    unfold try_except. rewrite bind_print.
    unfold subprocess_check_call. simpl w_fs. rewrite Hs.
    simpl. unfold log, started. simpl. by rewrite <- !app_assoc.
Qed.

(** ** More on the tools *)

(** X10. Setting the tool paths a second time changes nothing that the
    first time has fixed: a relative path joined to an absolute SDK root
    stays joined to that first root, whatever root the later call names,
    and a tool once found stays marked found, whatever the file system
    then holds. *)
Theorem resolve_tool_first_wins (E : Env) (fs1 fs2 : FS)
    (root1 root2 : Path) (t : Tool) :
  anchor root1 ≠ "" →
  let t1 := resolve_tool E fs1 root1 t in
  let t2 := resolve_tool E fs2 root2 t1 in
  t_path t2 = t_path t1
  ∧ (t_rel t = true → anchor (t_path t) = "" →
     t_path t1 = mkPath (anchor root1) (segs root1 ++ segs (t_path t)))
  ∧ (tool_found t1 = true → t_exists t2 = Some true)
  ∧ (tool_found t1 = false →
     t_exists t2 = Some (FSys.exists_ fs2 (abs E (t_path t1)))).
Proof.
  intros Ha t1 t2. subst t1 t2. unfold resolve_tool. simpl.
  assert (Hp : ∀ p, t_rel t = true → anchor (PyPath.join root1 p) ≠ "").
  { intros p _. unfold PyPath.join. by destruct (decide (anchor p = "")). }
  repeat split.
  - destruct (t_rel t) eqn:Hr; [|done].
    unfold PyPath.join at 1. rewrite decide_False; [done|]. by apply Hp.
  - intros -> Hrel. unfold PyPath.join. by rewrite decide_True.
  - intros Hf. rewrite Hf. unfold tool_found in Hf at 1. simpl in Hf.
    destruct (tool_found t) eqn:Ht.
    + destruct (t_exists t) as [[|]|]; done.
    + simpl in Hf. by rewrite Hf.
  - intros Hf. rewrite Hf.
    destruct (t_rel t) eqn:Hr; [|done].
    unfold PyPath.join at 1. rewrite decide_False; [done|]. by apply Hp.
Qed.

(** ** More on the walk *)

(** X11. Whatever the SDK tree holds, the set of toolchains the walk
    returns holds nothing but "gcc" and "shc", and when the count it
    returns is not 0 the set is not empty: the [list(compilers)[0]] that
    names the root folder of the properties file then finds an element,
    which is "gcc" or "shc". *)
Theorem walk_compilers (E : Env) (sdk_root project_root : Path)
    (w w' : World) (copied : nat) (compilers : gset string) :
  (∀ (s : gset string) x, x ∈ set_order E s ↔ x ∈ s) →
  walk E sdk_root project_root w = (Ret (copied, compilers), w') →
  compilers ⊆ {["gcc"; "shc"]}
  ∧ (copied ≠ 0 →
     ∃ c, head (set_order E compilers) = Some c
          ∧ first_compiler E compilers = ret c
          ∧ c ∈ compilers ∧ (c = "gcc" ∨ c = "shc")).
Proof.
  intros Hord. unfold walk. unfold bind.
  destruct (path_rglob E sdk_root w) as [[files|e|c] w1]; try done.
  intros Hf.
  assert (Hinv : (copied, compilers).2 ⊆ ({["gcc"; "shc"]} : gset string)
                 ∧ ((copied, compilers).1 ≠ 0 → (copied, compilers).2 ≠ ∅)).
  { eapply (for_fold_inv
              (λ st : nat * gset string,
                 st.2 ⊆ {["gcc"; "shc"]} ∧ (st.1 ≠ 0 → st.2 ≠ ∅))); [|split|exact Hf].
    - intros s x w0 s' w0' Hs Hb. by eapply walk_step_inv.
    - simpl. apply empty_subseteq.
    - done. }
  simpl in Hinv. destruct Hinv as [Hsub Hne]. split; [done|].
  intros Hc. specialize (Hne Hc). unfold first_compiler.
  destruct (set_order E compilers) as [|c l] eqn:Ho.
  - exfalso. apply Hne. apply set_eq. intros x.
    rewrite <- Hord, Ho. split; intros Hx; [by apply elem_of_nil in Hx|].
    by apply elem_of_empty in Hx.
  - exists c. split; [done|]. split; [done|].
    assert (Hin : c ∈ compilers).
    { apply Hord. rewrite Ho. by apply elem_of_cons; left. }
    split; [done|].
    apply Hsub in Hin. by rewrite elem_of_union, !elem_of_singleton in Hin.
Qed.

(** ** More on the filter *)

Lemma ignore_dirs_loop_spec (E : Env) (lower : string) (path : Path)
    (ds : list string) (w : World) :
  ∃ b w', ignore_dirs_loop E lower path ds w = (Ret b, w')
    ∧ w_fs w' = w_fs w ∧ w_tools w' = w_tools w
    ∧ (DEBUG E = false → w' = w)
    ∧ (b = true ↔
       ∃ d, d ∈ ds ∧ (PyStr.contains ("/" +:+ d +:+ "/") lower = true
                      ∨ PyStr.contains ("\" +:+ d +:+ "\") lower = true)).
Proof.
  induction ds as [|d ds IH]; simpl.
  - exists false, w. repeat split; try done.
    intros (d & Hd & _). by apply elem_of_nil in Hd.
  - destruct (PyStr.contains ("/" +:+ d +:+ "/") lower
              || PyStr.contains ("\" +:+ d +:+ "\") lower) eqn:Hc.
    + apply orb_true_iff in Hc.
      destruct (DEBUG E); simpl.
      * eexists true, _. rewrite bind_print. repeat split; try done.
        intros _. exists d. split; [by apply elem_of_cons; left|done].
      * exists true, w. repeat split; try done.
        intros _. exists d. split; [by apply elem_of_cons; left|done].
    + apply orb_false_iff in Hc as [Hc1 Hc2].
      destruct IH as (b & w' & Heq & Hfs & Hts & Hd & Hb).
      exists b, w'. repeat split; try done.
      * intros Hbt. apply Hb in Hbt as (d' & Hin & Hd').
        exists d'. split; [by apply elem_of_cons; right|done].
      * intros (d' & Hin & Hd'). apply Hb.
        apply elem_of_cons in Hin as [-> | Hin].
        { destruct Hd' as [Hd'|Hd']; congruence. }
        by exists d'.
Qed.

(** X12. [should_ignore] always returns; it changes neither the file
    system nor the tool dictionary, and outside a dry run it prints
    nothing.  Its answer does not depend on the order the set of ignored
    directories is iterated in: it is True exactly when the lower-cased
    name is an ignored file name, or the lower-cased text of the path
    holds an ignored directory name between two slashes or between two
    backslashes. *)
Theorem should_ignore_spec (E : Env) (path : Path) (w : World) :
  let dirs : gset string := {[ "demo"; "sample"; "vmutool" ]} in
  (∀ d, d ∈ set_order E dirs ↔ d ∈ dirs) →
  ∃ b w', should_ignore E path w = (Ret b, w')
    ∧ w_fs w' = w_fs w ∧ w_tools w' = w_tools w
    ∧ (DEBUG E = false → w' = w)
    ∧ (b = true ↔
       PyStr.lower (PyPath.name path) = "copying.lib"
       ∨ ∃ d, d ∈ dirs
              ∧ (PyStr.contains ("/" +:+ d +:+ "/")
                   (PyStr.lower (pstr E path)) = true
                 ∨ PyStr.contains ("\" +:+ d +:+ "\")
                     (PyStr.lower (pstr E path)) = true)).
Proof.
  intros dirs Hord. change dirs with IGNORE_DIRS in *. clear dirs.
  unfold should_ignore.
  destruct (bool_decide _) eqn:Hf.
  - apply bool_decide_eq_true in Hf. apply elem_of_singleton in Hf.
    destruct (DEBUG E); simpl.
    + eexists true, _. rewrite bind_print. repeat split; try done. by left.
    + exists true, w. repeat split; try done. by left.
  - apply bool_decide_eq_false in Hf.
    assert (Hf' : PyStr.lower (PyPath.name path) ≠ "copying.lib").
    { intros Heq. apply Hf. by apply elem_of_singleton. }
    clear Hf. rename Hf' into Hf.
    destruct (ignore_dirs_loop_spec E (PyStr.lower (pstr E path)) path
                (set_order E IGNORE_DIRS) w)
      as (b & w' & Heq & Hfs & Hts & Hd & Hb).
    exists b, w'. repeat split; try done.
    + intros Hbt. right. apply Hb in Hbt as (d & Hin & Hc).
      exists d. split; [by apply Hord|done].
    + intros [Hn | (d & Hin & Hc)]; [done|].
      apply Hb. exists d. split; [by apply Hord|done].
Qed.

Lemma prefix_append (a b : string) : String.prefix a (a +:+ b) = true.
Proof.
  induction a as [|c a IH]; [by destruct b|].
  rewrite append_cons. simpl. by destruct (ascii_dec c c).
Qed.

Lemma contains_append (sub a b : string) :
  PyStr.contains sub (a +:+ sub +:+ b) = true.
Proof.
  induction a as [|c a IH].
  - change ("" +:+ sub +:+ b) with (sub +:+ b).
    pose proof (prefix_append sub b) as Hp.
    destruct (sub +:+ b); unfold PyStr.contains; fold PyStr.contains;
      by rewrite Hp.
  - rewrite append_cons. simpl. rewrite IH. apply orb_true_r.
Qed.

Lemma concat_cons (s x : string) (l : list string) :
  l ≠ [] → String.concat s (x :: l) = x +:+ s +:+ String.concat s l.
Proof. by destruct l. Qed.

Lemma concat_app (s : string) (l1 l2 : list string) :
  l1 ≠ [] → l2 ≠ [] →
  String.concat s (l1 ++ l2) = String.concat s l1 +:+ s +:+ String.concat s l2.
Proof.
  intros H1 H2. induction l1 as [|x l1 IH]; [done|].
  destruct l1 as [|y l1].
  - simpl app. by rewrite concat_cons.
  - rewrite <- app_comm_cons. rewrite concat_cons by done.
    rewrite IH by done. rewrite (concat_cons s x (y :: l1)) by done.
    by rewrite !append_assoc.
Qed.

(** X13. A path that has a directory named like an ignored directory, in
    any letter case, somewhere above its last segment is ignored on a
    platform whose separator is the slash or the backslash, provided
    that directory is not the first thing in the text of the path (a
    segment comes before it, or the anchor ends in the separator). *)
Theorem should_ignore_inside_dir (E : Env) (path : Path)
    (pre post : list string) (d : string) (w : World) :
  let dirs : gset string := {[ "demo"; "sample"; "vmutool" ]} in
  (∀ x, x ∈ set_order E dirs ↔ x ∈ dirs) →
  sep E = "/"%char ∨ sep E = "\"%char →
  segs path = pre ++ d :: post →
  post ≠ [] →
  pre ≠ [] ∨ (∃ a, anchor path = a +:+ String (sep E) "") →
  PyStr.lower d ∈ ["demo"; "sample"; "vmutool"] →
  ∃ w', should_ignore E path w = (Ret true, w').
Proof.
  intros dirs Hord Hsep Hsegs Hpost Hpre Hd.
  change dirs with IGNORE_DIRS in *. clear dirs.
  assert (Hd' : PyStr.lower d ∈ IGNORE_DIRS).
  { unfold IGNORE_DIRS. rewrite !elem_of_union, !elem_of_singleton.
    rewrite !elem_of_cons, elem_of_nil in Hd. tauto. }
  clear Hd. rename Hd' into Hd.
  unfold should_ignore. destruct (bool_decide _).
  { destruct (DEBUG E); simpl; [rewrite bind_print|]; by eexists. }
  destruct (ignore_dirs_loop_spec E (PyStr.lower (pstr E path)) path
              (set_order E IGNORE_DIRS) w)
    as (b & w' & Heq & _ & _ & _ & Hb).
  exists w'. rewrite Heq. f_equal. f_equal. apply Hb.
  exists (PyStr.lower d). split; [by apply Hord|].
  set (s := String (sep E) "").
  assert (Hlow : PyStr.lower s = s).
  { unfold s. by destruct Hsep as [-> | ->]. }
  assert (Hstr : ∃ x y, pstr E path = x +:+ (s +:+ d +:+ s) +:+ y).
  { unfold pstr, PyPath.str, PyStr.join. fold s. rewrite Hsegs.
    assert (Hne : pre ++ d :: post ≠ []) by by destruct pre.
    assert (Hgo : ∃ x y, anchor path +:+ String.concat s (pre ++ d :: post)
                         = x +:+ (s +:+ d +:+ s) +:+ y).
    { destruct pre as [|p0 pre].
      - destruct Hpre as [? | [a Ha]]; [done|]. simpl app.
        rewrite concat_cons by done. exists a, (String.concat s post).
        rewrite Ha. fold s. by rewrite !append_assoc.
      - exists (anchor path +:+ String.concat s (p0 :: pre)),
               (String.concat s post).
        rewrite concat_app by done. rewrite (concat_cons s d post) by done.
        by rewrite !append_assoc. }
    destruct (anchor path); [|done].
    destruct (pre ++ d :: post); [done|done]. }
  destruct Hstr as (x & y & ->).
  rewrite !lower_app, Hlow.
  destruct Hsep as [Hs | Hs]; [left|right];
    unfold s; rewrite Hs; apply contains_append.
Qed.

(** X14. In a real run the loop over the SDK tree passes over an entry
    that is not a file, whose suffix is not one of the object and
    library suffixes, or that the filter ignores: the count and the set
    of toolchains stay as they are, nothing is printed and the file
    system is not touched. *)
Theorem walk_step_skips (E : Env) (sdk_root project_root : Path)
    (st : nat * gset string) (file : Path) (w : World) :
  let dirs : gset string := {[ "demo"; "sample"; "vmutool" ]} in
  DEBUG E = false →
  (∀ d, d ∈ set_order E dirs ↔ d ∈ dirs) →
  FSys.is_file (w_fs w) (abs E file) = false
  ∨ PyStr.lower (PyPath.suffix file) ∉ [".o"; ".a"; ".elf"; ".obj"; ".lib"]
  ∨ PyStr.lower (PyPath.name file) = "copying.lib"
  ∨ (∃ d, d ∈ dirs
          ∧ (PyStr.contains ("/" +:+ d +:+ "/")
               (PyStr.lower (pstr E file)) = true
             ∨ PyStr.contains ("\" +:+ d +:+ "\")
                 (PyStr.lower (pstr E file)) = true)) →
  walk_step E sdk_root project_root st file w = (Ret st, w).
Proof.
  intros dirs Hd Hord Hskip. change dirs with IGNORE_DIRS in *. clear dirs.
  unfold walk_step.
  unfold bind at 1. unfold path_is_file, fs_read, ok.
  destruct (FSys.is_file (w_fs w) (abs E file)) eqn:Hf; [|done].
  destruct (bool_decide (PyStr.lower (PyPath.suffix file) ∈ VALID_EXTS))
    eqn:Hv; [|done].
  apply bool_decide_eq_true in Hv. apply valid_ext_cases in Hv.
  destruct Hskip as [? | [? | Hskip]]; [done|done|].
  simpl negb. simpl orb. cbv iota.
  assert (Hi : should_ignore E file w = (Ret true, w)).
  { unfold should_ignore. destruct Hskip as [Hn | (d & Hin & Hc)].
    - rewrite bool_decide_eq_true_2 by (by apply elem_of_singleton).
      by rewrite Hd.
    - destruct (bool_decide _); [by rewrite Hd|].
      destruct (ignore_dirs_loop_spec E (PyStr.lower (pstr E file)) file
                  (set_order E IGNORE_DIRS) w)
        as (b & w' & Heq & _ & _ & Hw & Hb).
      rewrite Heq, (Hw Hd). f_equal. f_equal. apply Hb.
      exists d. split; [by apply Hord|done]. }
  unfold bind. by rewrite Hi.
Qed.

(** ** The order of the analysis runs *)

Lemma actions_app (tr1 tr2 : list Event) :
  actions (tr1 ++ tr2) = actions tr1 ++ actions tr2.
Proof. apply List.filter_app. Qed.

Lemma actions_walk_event (evs : list Event) :
  Forall walk_event evs → actions evs = [].
Proof.
  induction 1 as [|e evs He _ IH]; [done|].
  unfold actions in *. simpl. by destruct e.
Qed.

Lemma acts_emits {A} (m : M A) : emits walk_event m → acts [] m.
Proof.
  intros Hm w r w' H. destruct (Hm _ _ _ H) as (evs & Ht & He).
  exists evs. rewrite (actions_walk_event _ He). by repeat split.
Qed.

Lemma acts_never {A} (l : list Event) (m : M A) :
  acts [] m → (∀ w a w', m w ≠ (Ret a, w')) → acts l m.
Proof.
  intros Hm Hn w r w' H. destruct (Hm _ _ _ H) as (evs & Ht & Hp & Hr).
  apply prefix_nil_inv in Hp. exists evs. rewrite Hp.
  split; [done|]. split; [apply prefix_nil|].
  intros a ->. by destruct (Hn _ _ _ H).
Qed.

Lemma acts_bind {A B} (l1 l2 : list Event) (m : M A) (f : A → M B) :
  acts l1 m → (∀ a, acts l2 (f a)) → acts (l1 ++ l2) (bind m f).
Proof.
  intros Hm Hf w r w'. unfold bind.
  destruct (m w) as [[a|e|c] w1] eqn:Hmw; intros H.
  - destruct (Hm _ _ _ Hmw) as (evs1 & Ht1 & Hp1 & Hr1).
    destruct (Hf a _ _ _ H) as (evs2 & Ht2 & Hp2 & Hr2).
    exists (evs1 ++ evs2). rewrite Ht2, Ht1, app_assoc, actions_app.
    rewrite (Hr1 a eq_refl). split; [done|]. split.
    + by apply prefix_app.
    + intros b Hb. by rewrite (Hr2 b Hb).
  - inversion H; subst.
    destruct (Hm _ _ _ Hmw) as (evs1 & Ht1 & Hp1 & Hr1).
    exists evs1. split; [done|]. split; [|done].
    by apply prefix_app_r.
  - inversion H; subst.
    destruct (Hm _ _ _ Hmw) as (evs1 & Ht1 & Hp1 & Hr1).
    exists evs1. split; [done|]. split; [|done].
    by apply prefix_app_r.
Qed.

Lemma acts_check_call (E : Env) (argv : list string) (dir : Path) :
  acts [EvCheckCall argv dir] (subprocess_check_call E argv dir).
Proof.
  intros w r w'. unfold subprocess_check_call.
  destruct (spawn E _ _ _) as [[c fs']|]; [destruct (decide _)|];
    intros H; inversion H; subst;
    exists [EvCheckCall argv dir]; by repeat split.
Qed.

Lemma acts_open_write (E : Env) (p : Path) (t : string) :
  acts [EvWrite p t] (open_write E p t).
Proof.
  intros w r w'. unfold open_write, bind, fs_update. simpl.
  destruct (FSys.write_text _ _ _); intros H; inversion H; subst; simpl.
  - exists [EvOpen p "w"]. split; [done|]. split; [apply prefix_nil|done].
  - exists [EvOpen p "w"; EvWrite p t]. rewrite <- app_assoc.
    by repeat split.
Qed.

(** A handler that prints and raises again adds no action and never
    turns a failure into a return. *)
Lemma acts_try_reraise (l : list Event) (m : M unit) catches
    (line : Exn → string) :
  acts l m →
  acts l (try_except m catches (λ e, print (line e) >> reraise e)).
Proof.
  intros Hm w r w'. unfold try_except.
  destruct (m w) as [[a|e|c] w1] eqn:Hmw; intros H.
  - inversion H; subst. eauto.
  - destruct (Hm _ _ _ Hmw) as (evs1 & Ht1 & Hp1 & Hr1).
    destruct (catches (e_class e)).
    + rewrite bind_print in H. inversion H; subst. simpl.
      exists (evs1 ++ [EvPrint (line e)]). rewrite Ht1, app_assoc.
      rewrite actions_app. simpl. rewrite app_nil_r. by repeat split.
    + inversion H; subst. exists evs1. by repeat split.
  - inversion H; subst. eauto.
Qed.

Lemma acts_create_extra_files (E : Env) (project_root : Path)
    (sdk_name compiler : string) :
  acts [EvWrite (project_root // "CreateMultipleLibraries.properties")
          (props_text sdk_name compiler)]
       (create_extra_files E project_root sdk_name compiler).
Proof.
  unfold create_extra_files.
  apply (acts_bind [_] []); [apply acts_open_write|intros _].
  apply acts_emits. unfold_calls. emits_auto.
Qed.

Lemma bind_ext_ret {A B} (a : A) (f : A → M B) : bind (ret a) f = f a.
Proof. reflexivity. Qed.

Lemma acts_run_analysis (E : Env) (fidb_name : string) (project_root : Path)
    (copied : nat) (compilers : gset string) :
  copied ≠ 0 → DEBUG E = false →
  ∃ c, acts [ EvCheckCall (cmd1 E fidb_name compilers) project_root;
              EvWrite (project_root // "CreateMultipleLibraries.properties")
                (props_text fidb_name c);
              EvCheckCall (cmd2 E fidb_name) project_root ]
            (run_analysis E fidb_name project_root copied compilers).
Proof.
  intros Hc Hd. unfold run_analysis.
  rewrite bool_decide_eq_false_2 by done. rewrite Hd.
  exists (default "" (head (set_order E compilers))).
  apply (acts_bind [] [_; _; _]); [apply acts_emits; emits_auto|intros _].
  apply (acts_bind [_] [_; _]).
  { apply acts_try_reraise.
    apply (acts_bind [] [_]); [apply acts_emits; emits_auto|intros _].
    apply acts_check_call. }
  intros _. unfold first_compiler.
  destruct (set_order E compilers) as [|c rest].
  { intros w r w' H. unfold bind, raise in H. inversion H; subst.
    exists []. rewrite app_nil_r. split; [done|]. split; [apply prefix_nil|done]. }
  rewrite (bind_ext_ret c). simpl.
  apply (acts_bind [_] [_]); [apply acts_create_extra_files|intros _].
  apply (acts_bind [_] []).
  { apply acts_try_reraise.
    apply (acts_bind [] [_]); [apply acts_emits; emits_auto|intros _].
    apply acts_check_call. }
  intros _. apply acts_emits. emits_auto.
Qed.

Lemma run_analysis_actions (E : Env) (fidb_name : string)
    (project_root : Path) (copied : nat) (compilers : gset string) :
  ∃ c, ∀ w r w',
    run_analysis E fidb_name project_root copied compilers w = (r, w') →
    let l := [ EvCheckCall (cmd1 E fidb_name compilers) project_root;
               EvWrite (project_root // "CreateMultipleLibraries.properties")
                 (props_text fidb_name c);
               EvCheckCall (cmd2 E fidb_name) project_root ] in
    ∃ evs, w_trace w' = w_trace w ++ evs
           ∧ actions evs `prefix_of` l
           ∧ ∀ a, r = Ret a → actions evs = [] ∨ actions evs = l.
Proof.
  destruct (decide (copied = 0)) as [Hc|Hc]; [|destruct (DEBUG E) eqn:Hd].
  3:{ destruct (acts_run_analysis E fidb_name project_root copied compilers
                  Hc Hd) as (c & Hacts).
      exists c. intros w r w' H l.
      destruct (Hacts _ _ _ H) as (evs & Ht & Hp & Hr).
      exists evs. split; [done|]. split; [done|].
      intros a Ha. right. by apply (Hr a). }
  all: exists ""; intros w r w' H l;
    assert (He : emits walk_event
              (run_analysis E fidb_name project_root copied compilers))
      by (unfold run_analysis;
          rewrite ?(bool_decide_eq_true_2 _ Hc),
                  ?(bool_decide_eq_false_2 _ Hc), ?Hd;
          emits_auto);
    destruct (He _ _ _ H) as (evs & Ht & Hw);
    exists evs; rewrite (actions_walk_event _ Hw);
    (split; [done|]); (split; [apply prefix_nil|]); intros a _; by left.
Qed.

(** X15. Whatever the SDK tree, the tools and the programs do, one call
    of [build_fidb] writes through [open] and starts analysis runs only
    in this order, stopping anywhere in it: the first run with the
    import arguments for the toolchains found, the properties file, the
    second run, each run in the work directory.  When the call returns
    it has either done none of the three or all of them. *)
Theorem build_fidb_actions (E : Env) (fidb_name : string) (sdk_root : Path)
    (w : World) :
  let project_root := mkPath "" ["fid_work_" +:+ fidb_name] in
  let props := project_root // "CreateMultipleLibraries.properties" in
  let launcher :=
    pstr E (GHIDRA_HOME E // "support" // "analyzeHeadless.bat") in
  let lf := String (ascii_of_nat 10) "" in
  ∃ (evs : list Event) (compilers : gset string) (c : string),
    let first_run :=
      [ launcher; "ghidraproj"; fidb_name ]
      ++ flat_map (λ compiler, ["-import"; compiler]) (set_order E compilers)
      ++ [ "-recursive";
           "-processor";  "SuperH4:LE:32:default";
           "-preScript";  "FunctionIDHeadlessPrescript.java";
           "-postScript"; "FunctionIDHeadlessPostscript.java";
           "-scriptlog";  "script.log";
           "-log";        "analyze.log" ] in
    let text :=
    "Duplicate Results File OK = duplicates.txt" +:+ lf +:+
    "Do Duplication Detection Do you want to detect duplicates = true"
    +:+ lf +:+
    "Choose destination FidDB Please choose the destination FidDB for population = "
    +:+ fidb_name +:+ ".fidb" +:+ lf +:+
    "Select root folder containing all libraries (at a depth of 3): = /"
    +:+ c +:+ lf +:+
    "Common symbols file (optional): OK = common_symbols.txt" +:+ lf +:+
    "Enter LanguageID To Process Language ID: = SuperH4:LE:32:default"
    +:+ lf in
    let second_run :=
      [ launcher; "ghidraproj"; fidb_name;
        "-noanalysis";
        "-propertiesPath"; ".";
        "-preScript";      "CreateEmptyFidDatabase.java"; fidb_name +:+ ".fidb";
        "-preScript";      "FunctionIDHeadlessPrescript.java";
        "-preScript";      "CreateMultipleLibraries.java";
        "-log";            "generation.log" ] in
    let l := [ EvCheckCall first_run project_root;
               EvWrite props text;
               EvCheckCall second_run project_root ] in
    w_trace (build_fidb E fidb_name sdk_root w).2 = w_trace w ++ evs
    ∧ actions evs `prefix_of` l
    ∧ ((build_fidb E fidb_name sdk_root w).1 = Ret tt →
       actions evs = [] ∨ actions evs = l).
Proof.
  intros project_root props launcher lf.
  cut (∃ (evs : list Event) (compilers : gset string) (c : string),
         let l := [ EvCheckCall (cmd1 E fidb_name compilers) project_root;
                    EvWrite props (props_text fidb_name c);
                    EvCheckCall (cmd2 E fidb_name) project_root ] in
         w_trace (build_fidb E fidb_name sdk_root w).2 = w_trace w ++ evs
         ∧ actions evs `prefix_of` l
         ∧ ((build_fidb E fidb_name sdk_root w).1 = Ret tt →
            actions evs = [] ∨ actions evs = l)).
  { intros (evs & compilers & c & H). exists evs, compilers, c.
    rewrite props_text_eq in H. exact H. }
  clear launcher lf.
  change project_root with (project_root_of fidb_name) in *.
  clear project_root. set (project_root := project_root_of fidb_name) in *.
  destruct (prepare E sdk_root project_root w) as [[go|e|x] w1] eqn:Hp;
    destruct (emits_prepare E _ _ _ _ _ Hp) as (evs1 & Ht1 & He1);
    pose proof (actions_walk_event _ He1) as Ha1.
  2:{ exists evs1, ∅, "". rewrite build_fidb_eq, (bind_Raise _ _ _ _ _ Hp).
      simpl. rewrite Ha1. split; [done|]. split; [apply prefix_nil|by left]. }
  2:{ exists evs1, ∅, "". rewrite build_fidb_eq, (bind_Exit _ _ _ _ _ Hp).
      simpl. rewrite Ha1. split; [done|]. split; [apply prefix_nil|by left]. }
  destruct go.
  2:{ exists evs1, ∅, "". rewrite build_fidb_eq, (bind_Ret _ _ _ _ _ Hp).
      simpl. rewrite Ha1. split; [done|]. split; [apply prefix_nil|by left]. }
  destruct (walk E sdk_root project_root w1) as [[st|e|x] w2] eqn:Hw;
    destruct (emits_walk E _ _ _ _ _ Hw) as (evs2 & Ht2 & He2);
    pose proof (actions_walk_event _ He2) as Ha2.
  2:{ exists (evs1 ++ evs2), ∅, "".
      rewrite build_fidb_eq, (bind_Ret _ _ _ _ _ Hp), (bind_Raise _ _ _ _ _ Hw).
      simpl. rewrite actions_app, Ha1, Ha2, Ht2, Ht1, app_assoc.
      split; [done|]. split; [apply prefix_nil|by left]. }
  2:{ exists (evs1 ++ evs2), ∅, "".
      rewrite build_fidb_eq, (bind_Ret _ _ _ _ _ Hp), (bind_Exit _ _ _ _ _ Hw).
      simpl. rewrite actions_app, Ha1, Ha2, Ht2, Ht1, app_assoc.
      split; [done|]. split; [apply prefix_nil|by left]. }
  destruct (run_analysis_actions E fidb_name project_root st.1 st.2)
    as (c & Hrun).
  destruct (run_analysis E fidb_name project_root st.1 st.2 w2)
    as [r w3] eqn:Hr.
  destruct (Hrun _ _ _ Hr) as (evs3 & Ht3 & Hp3 & Hr3).
  exists (evs1 ++ evs2 ++ evs3), st.2, c.
  rewrite build_fidb_eq, (bind_Ret _ _ _ _ _ Hp), (bind_Ret _ _ _ _ _ Hw).
  cbv beta. fold project_root. rewrite Hr.
  simpl. rewrite !actions_app, Ha1, Ha2. simpl.
  rewrite Ht3, Ht2, Ht1, !app_assoc.
  split; [done|]. split; [done|]. intros ->. by apply (Hr3 tt).
Qed.

(** ** The files of the second run *)

(** X16. [create_extra_files] in a work directory that exists, with no
    read-only file and no directory in the place of the properties
    file: the call returns; the properties file holds the text for the
    given name and toolchain, whatever it held before; [duplicates.txt]
    and [common_symbols.txt] exist, empty when they were missing and
    otherwise as they were; nothing else in the file system changes.
    When the work directory is missing the [open] raises and nothing is
    created. *)
Theorem create_extra_files_effect (E : Env) (project_root : Path)
    (sdk_name compiler : string) (w : World) :
  let props := abs E (project_root // "CreateMultipleLibraries.properties") in
  let dup := abs E (project_root // "duplicates.txt") in
  let com := abs E (project_root // "common_symbols.txt") in
  let lf := String (ascii_of_nat 10) "" in
  let text :=
    "Duplicate Results File OK = duplicates.txt" +:+ lf +:+
    "Do Duplication Detection Do you want to detect duplicates = true"
    +:+ lf +:+
    "Choose destination FidDB Please choose the destination FidDB for population = "
    +:+ sdk_name +:+ ".fidb" +:+ lf +:+
    "Select root folder containing all libraries (at a depth of 3): = /"
    +:+ compiler +:+ lf +:+
    "Common symbols file (optional): OK = common_symbols.txt" +:+ lf +:+
    "Enter LanguageID To Process Language ID: = SuperH4:LE:32:default"
    +:+ lf in
  (FSys.is_dir (w_fs w) (abs E project_root) = true →
   (∀ t, w_fs w !! props ≠ Some (File t true)) →
   w_fs w !! props ≠ Some Dir →
   ∃ w', create_extra_files E project_root sdk_name compiler w = (Ret tt, w')
     ∧ w_fs w' !! props = Some (File text false)
     ∧ w_fs w' !! dup = Some (default (File "" false) (w_fs w !! dup))
     ∧ w_fs w' !! com = Some (default (File "" false) (w_fs w !! com))
     ∧ ∀ k, k ≠ props → k ≠ dup → k ≠ com → w_fs w' !! k = w_fs w !! k)
  ∧ (FSys.is_dir (w_fs w) (abs E project_root) = false →
     ∃ e w', create_extra_files E project_root sdk_name compiler w
             = (Raise e, w')
       ∧ e_class e = FileNotFoundError ∧ w_fs w' = w_fs w).
Proof.
  intros props dup com lf text.
  assert (Htext : text = props_text sdk_name compiler)
    by (symmetry; apply props_text_eq).
  clearbody text. subst text. clear lf.
  assert (Hpar : ∀ s, s ≠ "" →
            PyPath.parent (abs E (project_root // s)) = abs E project_root).
  { intros s Hs. by rewrite abs_join1, parent_join1. }
  assert (Hne : ∀ s t, s ≠ "" → t ≠ "" → s ≠ t →
            abs E (project_root // s) ≠ abs E (project_root // t)).
  { intros s t Hs Ht Hst Heq. rewrite !abs_join1 in Heq.
    rewrite !join1_segs in Heq by done. inversion Heq as [Hsegs].
    by apply app_inv_head in Hsegs as [= ?]. }
  pose proof (Hpar "CreateMultipleLibraries.properties" ltac:(done)) as Hp1.
  pose proof (Hpar "duplicates.txt" ltac:(done)) as Hp2.
  pose proof (Hpar "common_symbols.txt" ltac:(done)) as Hp3.
  fold props in Hp1. fold dup in Hp2. fold com in Hp3.
  assert (Hpd : props ≠ dup) by (by apply Hne).
  assert (Hpc : props ≠ com) by (by apply Hne).
  assert (Hdc : dup ≠ com) by (by apply Hne).
  split.
  - intros Hdir Hro Hnd.
    set (fs1 := <[props := File (props_text sdk_name compiler) false]> (w_fs w)).
    set (fs2 := match fs1 !! dup with
                | Some _ => fs1 | None => <[dup := File "" false]> fs1 end).
    set (fs3 := match fs2 !! com with
                | Some _ => fs2 | None => <[com := File "" false]> fs2 end).
    assert (Hd1 : FSys.is_dir fs1 (abs E project_root) = true).
    { unfold FSys.is_dir, fs1 in *.
      destruct (decide (abs E project_root = props)) as [Heq|Hneq].
      - rewrite Heq in Hdir. by destruct (w_fs w !! props) as [[]|].
      - by rewrite lookup_insert_ne. }
    assert (Hd2 : FSys.is_dir fs2 (abs E project_root) = true).
    { unfold fs2. destruct (fs1 !! dup) eqn:Hl; [done|].
      unfold FSys.is_dir in *.
      destruct (decide (abs E project_root = dup)) as [Heq|Hneq].
      - rewrite Heq, Hl in Hd1. done.
      - by rewrite lookup_insert_ne. }
    assert (Hw : FSys.write_text (w_fs w) props (props_text sdk_name compiler)
                 = inr fs1).
    { unfold FSys.write_text. rewrite Hp1, Hdir. simpl.
      destruct (w_fs w !! props) as [[t [|]|]|] eqn:Hl; try done.
      by destruct (Hro t). }
    assert (Ht2 : FSys.touch fs1 dup = inr fs2).
    { unfold FSys.touch, fs2. rewrite Hp2, Hd1. by destruct (fs1 !! dup). }
    assert (Ht3 : FSys.touch fs2 com = inr fs3).
    { unfold FSys.touch, fs3. rewrite Hp3, Hd2. by destruct (fs2 !! com). }
    exists (log (EvPrint ("[INFO] Created "
                  +:+ pstr E (project_root // "CreateMultipleLibraries.properties")
                  +:+ ", empty duplicates.txt and common_symbols.txt"))
             (mkWorld fs3 (w_tools w)
                (w_trace w
                 ++ [EvOpen (project_root // "CreateMultipleLibraries.properties") "w"]
                 ++ [EvWrite (project_root // "CreateMultipleLibraries.properties")
                       (props_text sdk_name compiler)]))).
    split.
    + unfold create_extra_files, open_write, path_touch.
      unfold bind, fs_update. simpl w_fs. fold props dup com.
      rewrite Hw. simpl w_fs. rewrite Ht2. simpl w_fs. rewrite Ht3.
      unfold print, log, set_fs. simpl. by rewrite <- !app_assoc.
    + simpl.
      assert (L3 : ∀ k, fs3 !! k =
                if decide (k = com)
                then Some (default (File "" false) (fs2 !! com))
                else fs2 !! k).
      { intros k. unfold fs3. destruct (decide (k = com)) as [->|Hk].
        - destruct (fs2 !! com) eqn:Hl; [by rewrite Hl|].
          by rewrite lookup_insert_eq.
        - destruct (fs2 !! com); [done|]. by rewrite lookup_insert_ne. }
      assert (L2 : ∀ k, fs2 !! k =
                if decide (k = dup)
                then Some (default (File "" false) (fs1 !! dup))
                else fs1 !! k).
      { intros k. unfold fs2. destruct (decide (k = dup)) as [->|Hk].
        - destruct (fs1 !! dup) eqn:Hl; [by rewrite Hl|].
          by rewrite lookup_insert_eq.
        - destruct (fs1 !! dup); [done|]. by rewrite lookup_insert_ne. }
      repeat split.
      * rewrite L3, decide_False, L2, decide_False by done.
        unfold fs1. by rewrite lookup_insert_eq.
      * rewrite L3, decide_False, L2, decide_True by done.
        unfold fs1. by rewrite lookup_insert_ne.
      * rewrite L3, decide_True, L2, decide_False by done.
        unfold fs1. by rewrite lookup_insert_ne.
      * intros k H1 H2 H3.
        rewrite L3, decide_False, L2, decide_False by done.
        unfold fs1. by rewrite lookup_insert_ne.
  - intros Hdir. eexists _, _. split; [|split].
    + unfold create_extra_files.
      unfold open_write.
      unfold bind, fs_update, FSys.write_text. simpl.
      fold props. rewrite Hp1, Hdir. simpl. reflexivity.
    + done.
    + done.
Qed.

(** ** The work directory *)

Lemma mkdirs_from_adds (a : string) (rest pre : list string)
    (fs fs' : FS) :
  FSys.mkdirs_from a pre rest fs = inr fs' →
  (rest ≠ [] → fs' !! mkPath a (pre ++ rest) = Some Dir)
  ∧ ∀ k, fs' !! k = fs !! k
         ∨ (fs !! k = None ∧ fs' !! k = Some Dir
            ∧ PyPath.under k (mkPath a (pre ++ rest))).
Proof.
  revert pre fs. induction rest as [|s rest IH]; intros pre fs H; simpl in H.
  - inversion H; subst. split; [done|]. intros k. by left.
  - assert (Hstep : ∀ fs1,
      fs1 !! mkPath a (pre ++ [s]) = Some Dir →
      (∀ k, k ≠ mkPath a (pre ++ [s]) → fs1 !! k = fs !! k) →
      (fs !! mkPath a (pre ++ [s]) = Some Dir
       ∨ fs !! mkPath a (pre ++ [s]) = None) →
      FSys.mkdirs_from a (pre ++ [s]) rest fs1 = inr fs' →
      (fs' !! mkPath a (pre ++ s :: rest) = Some Dir)
      ∧ ∀ k, fs' !! k = fs !! k
             ∨ (fs !! k = None ∧ fs' !! k = Some Dir
                ∧ PyPath.under k (mkPath a (pre ++ s :: rest)))).
    { intros fs1 Hq Hother Hold Hrec.
      destruct (IH _ _ Hrec) as [Htarget Hk].
      rewrite <- app_assoc in Htarget, Hk. simpl in Htarget, Hk.
      assert (Hqk : fs' !! mkPath a (pre ++ [s]) = Some Dir).
      { destruct (Hk (mkPath a (pre ++ [s]))) as [Heq|(Hn & _)]; congruence. }
      split.
      - destruct rest as [|s' rest']; [|by apply Htarget].
        exact Hqk.
      - intros k. destruct (decide (k = mkPath a (pre ++ [s]))) as [->|Hne].
        + destruct Hold as [Hold|Hold]; [left; congruence|].
          right. split; [done|]. split; [done|].
          split; [done|]. simpl. apply prefix_app, prefix_cons, prefix_nil.
        + destruct (Hk k) as [Heq|(Hn & Hd & Hu)].
          * left. rewrite Heq. by apply Hother.
          * right. rewrite <- Hother by done. done. }
    destruct (fs !! mkPath a (pre ++ [s])) as [[c ro|]|] eqn:Hq; [done| |].
    + destruct (Hstep fs Hq ltac:(done) ltac:(by left) H) as [Ht Hk].
      split; [done|]. exact Hk.
    + destruct (Hstep (<[mkPath a (pre ++ [s]) := Dir]> fs)) as [Ht Hk];
        [by rewrite lookup_insert_eq
        |by intros k Hk; rewrite lookup_insert_ne
        |by right|done|].
      split; [done|]. exact Hk.
Qed.

Lemma mkdirs_from_error (a : string) (rest pre : list string) (fs : FS)
    (e : Exn) :
  FSys.mkdirs_from a pre rest fs = inl e → e_class e = FileExistsError.
Proof.
  revert pre fs. induction rest as [|s rest IH]; intros pre fs; simpl; [done|].
  destruct (fs !! _) as [[c ro|]|]; [by intros [= <-]|apply IH..].
Qed.

(** X17. A real run whose work directory does not exist yet: the start
    of [build_fidb] prints nothing, changes and removes no node of the
    file system, and adds only directories, at or above the work
    directory or its [ghidraproj] entry.  It either goes on, and then
    both directories exist, or raises [FileExistsError] because a file
    is in the way; it never ends the build early. *)
Theorem prepare_makes_work_dir (E : Env) (fidb_name : string)
    (sdk_root : Path) (w w' : World) (r : Outcome bool) :
  let project_root := mkPath "" ["fid_work_" +:+ fidb_name] in
  DEBUG E = false →
  w_fs w !! abs E project_root = None →
  prepare E sdk_root project_root w = (r, w') →
  w_trace w' = w_trace w
  ∧ (∀ k, w_fs w' !! k = w_fs w !! k
          ∨ (w_fs w !! k = None ∧ w_fs w' !! k = Some Dir
             ∧ PyPath.under k (abs E (project_root // "ghidraproj"))))
  ∧ match r with
    | Ret go =>
        go = true
        ∧ w_fs w' !! abs E project_root = Some Dir
        ∧ w_fs w' !! abs E (project_root // "ghidraproj") = Some Dir
    | Raise e => e_class e = FileExistsError
    | Exit _ => False
    end.
Proof.
  intros project_root Hd Hnew.
  set (P := abs E project_root). set (G := abs E (project_root // "ghidraproj")).
  assert (HPG : PyPath.under P G).
  { unfold G. rewrite abs_join1. apply under_join1. }
  assert (HG : PyPath.parent G = P).
  { unfold G. by rewrite abs_join1, parent_join1. }
  assert (Hsegs : segs P ≠ []).
  { unfold P, abs, project_root, PyPath.join. simpl.
    by destruct (segs (cwd E)). }
  unfold prepare. rewrite Hd.
  unfold bind at 1. unfold resolve_tools at 1.
  unfold bind at 1. unfold path_exists, fs_read, ok. unfold set_tools.
  cbn [w_fs]. unfold FSys.exists_. rewrite Hnew.
  unfold bind at 1. unfold path_mkdir_parents, fs_update. cbn [w_fs]. fold P.
  destruct (FSys.mkdirs (w_fs w) P) as [e|fs1] eqn:Hm.
  { intros [= <- <-]. simpl. split; [done|]. split; [by left|].
    by eapply mkdirs_from_error. }
  destruct (mkdirs_from_adds _ _ _ _ _ Hm) as [Ht Hk].
  assert (Heta : ∀ p : Path, mkPath (anchor p) ([] ++ segs p) = p)
    by (by intros []).
  rewrite Heta in Ht, Hk. clear Heta.
  pose proof (Ht Hsegs) as HP1.
  unfold bind. unfold path_mkdir, fs_update, set_fs. cbn [w_fs]. fold G.
  unfold FSys.mkdir. rewrite HG. unfold FSys.is_dir. rewrite HP1.
  assert (Hk' : ∀ k, fs1 !! k = w_fs w !! k
                ∨ (w_fs w !! k = None ∧ fs1 !! k = Some Dir ∧ PyPath.under k G)).
  { intros k. destruct (Hk k) as [Heq|(Hn & Hdk & Hu)]; [by left|].
    right. split; [done|]. split; [done|].
    by eapply under_trans. }
  destruct (fs1 !! G) as [[c ro|]|] eqn:HGl.
  - intros [= <- <-]. simpl. by repeat split.
  - intros [= <- <-]. simpl. by repeat split.
  - intros [= <- <-]. simpl. split; [done|]. split.
    + intros k. destruct (decide (k = G)) as [->|Hne].
      * right. rewrite lookup_insert_eq. split; [|split; [done|apply under_refl]].
        destruct (Hk' G) as [Heq|(Hn & _)]; congruence.
      * rewrite lookup_insert_ne by done. apply Hk'.
    + split; [done|]. split; [|by rewrite lookup_insert_eq].
      rewrite lookup_insert_ne; [done|].
      intros Heq. rewrite <- Heq in HP1. congruence.
Qed.

(** ** Moving the unpacked files *)










Section MoveFiles.
Import PyPath.
Context (E : Env) (T dst_dir : Path) (fs0 : FS).
Hypothesis T_anchored : anchor T ≠ "".
Hypothesis D_not_T : ¬ under (abs E dst_dir) T.
Hypothesis T_not_D : ¬ under T (abs E dst_dir).

Let target (g : Path) : Path := abs E dst_dir // name g.




End MoveFiles.


(** ** Where a plain object file lands *)



Lemma substring_full (s : string) : String.substring 0 (String.length s) s = s.
Proof. induction s as [|c s IH]; [done|]. simpl. by rewrite IH. Qed.











(** ** The exit status of the unpacking tools *)

Lemma same_refl {A} (m : M A) : same m m.
Proof. by intros w. Qed.

Lemma same_bind {A B} (m m' : M A) (f f' : A → M B) :
  same m m' → (∀ a, same (f a) (f' a)) → same (bind m f) (bind m' f').
Proof.
  intros Hm Hf w. unfold bind. rewrite Hm.
  destruct (m' w) as [[a|e|c] w1]; [apply Hf|done..].
Qed.

Lemma same_try_except {A} (m m' : M A) catches (h h' : Exn → M A) :
  same m m' → (∀ e, same (h e) (h' e)) →
  same (try_except m catches h) (try_except m' catches h').
Proof.
  intros Hm Hh w. unfold try_except. rewrite Hm.
  destruct (m' w) as [[a|e|c] w1]; [done| |done].
  destruct (catches _); [apply Hh|done].
Qed.

Lemma same_for_each {A} (l : list A) (body body' : A → M unit) :
  (∀ x, same (body x) (body' x)) → same (for_each l body) (for_each l body').
Proof.
  intros Hb. induction l as [|x l IH]; simpl; [apply same_refl|].
  apply same_bind; [apply Hb|intros _; apply IH].
Qed.

Lemma same_for_fold {A S} (l : list A) (acc : S) (body body' : S → A → M S) :
  (∀ s x, same (body s x) (body' s x)) →
  same (for_fold l acc body) (for_fold l acc body').
Proof.
  intros Hb. revert acc. induction l as [|x l IH]; intros acc; simpl;
    [apply same_refl|].
  apply same_bind; [apply Hb|intros s; apply IH].
Qed.

Lemma same_when (b : bool) (m m' : M unit) :
  same m m' → same (when b m) (when b m').
Proof. intros H. destruct b; [done|apply same_refl]. Qed.

Section Status.
Context (f : list string → Z → Z) (E : Env).

Lemma same_with_tmpdir {A} (body body' : Path → M A) :
  (∀ d, same (body d) (body' d)) →
  same (with_tmpdir (with_status f E) body) (with_tmpdir E body').
Proof.
  intros Hb w. unfold with_tmpdir. simpl. by rewrite Hb.
Qed.

Lemma same_subprocess_run (argv : list string) (dir : Path) :
  same (subprocess_run (with_status f E) argv dir)
       (subprocess_run E argv dir).
Proof.
  intros w. unfold subprocess_run. simpl.
  change (abs (with_status f E) dir) with (abs E dir).
  by destruct (spawn E argv (abs E dir) (w_fs w)) as [[c fs']|].
Qed.

Ltac same_leaf :=
  first [ apply same_subprocess_run | intros ?; reflexivity ].

Ltac same_step :=
  lazymatch goal with
  | |- same (bind _ _) (bind _ _) => apply same_bind; [| intros ?]
  | |- same (try_except _ _ _) (try_except _ _ _) =>
      apply same_try_except; [| intros ?]
  | |- same (for_each _ _) (for_each _ _) => apply same_for_each; intros ?
  | |- same (for_fold _ _ _) (for_fold _ _ _) =>
      apply same_for_fold; intros ? ?
  | |- same (when _ _) (when ?b _) => apply (same_when b)
  | |- same (with_tmpdir _ _) (with_tmpdir _ _) =>
      apply same_with_tmpdir; intros ?
  | |- same (if ?b then _ else _) (if ?b' then _ else _) =>
      change b' with b; destruct b
  | |- same (match ?x with Some _ => _ | None => _ end)
            (match ?x' with Some _ => _ | None => _ end) =>
      change x' with x; destruct x
  end.

Lemma same_convert_obj (tmpdir g : Path) :
  same (convert_obj (with_status f E) tmpdir g) (convert_obj E tmpdir g).
Proof. unfold convert_obj. repeat same_step; same_leaf. Qed.

Lemma same_extract_or_copy (tool : string) (src dst_dir : Path) :
  same (extract_or_copy (with_status f E) tool src dst_dir)
       (extract_or_copy E tool src dst_dir).
Proof.
  unfold extract_or_copy.
  repeat same_step; first [apply same_convert_obj | same_leaf].
Qed.

Lemma same_walk_step (sdk_root project_root : Path)
    (st : nat * gset string) (file : Path) :
  same (walk_step (with_status f E) sdk_root project_root st file)
       (walk_step E sdk_root project_root st file).
Proof.
  unfold walk_step.
  repeat same_step; first [apply same_extract_or_copy | same_leaf].
Qed.

End Status.

(** X20. The exit status of the unpacking tools is never looked at: on a
    platform where the programs end with other statuses but leave the
    same files, the handling of one file and the whole walk over the SDK
    tree do the same, print the same and return the same. *)
Theorem walk_ignores_status (f : list string → Z → Z) (E : Env)
    (sdk_root project_root : Path) (w : World) :
  (∀ tool src dst_dir,
     extract_or_copy (with_status f E) tool src dst_dir w
     = extract_or_copy E tool src dst_dir w)
  ∧ walk (with_status f E) sdk_root project_root w
    = walk E sdk_root project_root w.
Proof.
  split.
  - intros tool src dst_dir. apply same_extract_or_copy.
  - unfold walk. revert w.
    change (same (files <- path_rglob (with_status f E) sdk_root ;;
                  for_fold files (0, ∅)
                    (walk_step (with_status f E) sdk_root project_root))
                 (files <- path_rglob E sdk_root ;;
                  for_fold files (0, ∅) (walk_step E sdk_root project_root))).
    apply same_bind; [intros w; reflexivity|intros files].
    apply same_for_fold. intros st file. apply same_walk_step.
Qed.

(** ** An archiver that cannot be started *)







(** ** The loops over the unpacked files *)




Lemma take_drop (n : string) (i : nat) :
  PyStr.take i n +:+ PyStr.drop i n = n.
Proof.
  revert i. induction n as [|c n IH]; intros i.
  - by destruct i.
  - destruct i as [|i].
    + unfold PyStr.take, PyStr.drop. simpl. by rewrite substring_full.
    + specialize (IH i). unfold PyStr.take, PyStr.drop in *. simpl.
      rewrite append_cons. by rewrite IH.
Qed.

Lemma length_drop (n : string) (i : nat) :
  i ≤ String.length n → String.length (PyStr.drop i n) = String.length n - i.
Proof.
  revert i. induction n as [|c n IH]; intros i Hi.
  - by destruct i.
  - destruct i as [|i].
    + unfold PyStr.drop. simpl. by rewrite substring_full.
    + unfold PyStr.drop in *. simpl in *. apply IH. lia.
Qed.

(** Putting the suffix a path has in the place of its suffix gives the
    path back. *)
Lemma with_suffix_same (f : Path) :
  PyPath.suffix f ≠ "" → PyPath.with_suffix f (PyPath.suffix f) = Some f.
Proof.
  intros Hs. unfold PyPath.with_suffix.
  assert (Hn : PyPath.name f ≠ "").
  { intros Hn. apply Hs. unfold PyPath.suffix. by rewrite Hn. }
  rewrite decide_False by done. f_equal.
  assert (Hstem : PyStr.take (String.length (PyPath.name f)
                              - String.length (PyPath.suffix f))
                    (PyPath.name f) +:+ PyPath.suffix f = PyPath.name f).
  { unfold PyPath.suffix, PyPath.suffix_of_name in *.
    destruct (PyStr.rfind_dot (PyPath.name f)) as [i|]; [|done].
    destruct (_ && _) eqn:Hb; [|done].
    apply andb_true_iff in Hb as [_ Hb]. apply Nat.ltb_lt in Hb.
    rewrite length_drop by lia.
    replace (String.length (PyPath.name f)
             - (String.length (PyPath.name f) - i)) with i by lia.
    apply take_drop. }
  rewrite Hstem. unfold PyPath.name in *.
  destruct (segs f) as [|s l _] eqn:Hsegs using rev_ind; [done|].
  rewrite last_last, removelast_last. destruct f; simpl in *. by rewrite Hsegs.
Qed.

(** X23. [convert_obj] on a file with the suffix [.obj]: once the
    converter has been started and has left the object file in place,
    writable, the object file is removed, whatever status the converter
    ends with and whether or not it has written the [.elf]; nothing is
    printed.  When the converter cannot be started the error is
    printed, the file system is left as it is, and the call returns. *)
Theorem convert_obj_removes_obj (E : Env) (tmpdir f e : Path) (t : Tool)
    (w : World) :
  let argv := [pstr E (t_path t); PyPath.name f; PyPath.name e] in
  PyPath.suffix f = ".obj" →
  PyPath.with_suffix f ".elf" = Some e →
  tools_get (w_tools w) "elfcnv" = Some t →
  (∀ code fs' c,
     spawn E argv (abs E tmpdir) (w_fs w) = Some (code, fs') →
     fs' !! abs E f = Some (File c false) →
     convert_obj E tmpdir f w =
       (Ret tt,
        mkWorld (delete (abs E f) fs') (w_tools w)
          (w_trace w ++ [EvRun argv tmpdir])))
  ∧ (spawn E argv (abs E tmpdir) (w_fs w) = None →
     ∃ text,
       convert_obj E tmpdir f w =
         (Ret tt,
          mkWorld (w_fs w) (w_tools w)
            (w_trace w ++
             [EvRun argv tmpdir;
              EvPrint ("[ERROR] elfcnv failed for " +:+ PyPath.name f
                       +:+ ": " +:+ text)]))).
Proof.
  intros argv Hs He Ht.
  assert (Hsame : PyPath.with_suffix f ".obj" = Some f).
  { rewrite <- Hs at 1. apply with_suffix_same. by rewrite Hs. }
  assert (Hstart : ∀ k : M unit,
    (p <- tool_path "elfcnv" ;;
     e' <- path_with_suffix f ".elf" ;;
     subprocess_run E [pstr E p; PyPath.name f; PyPath.name e'] tmpdir >>
     k) w =
    (subprocess_run E argv tmpdir >> k) w).
  { intros k. unfold tool_path. rewrite bind_assoc.
    unfold bind at 1. unfold get_tools at 1. rewrite Ht.
    rewrite bind_ret. unfold bind at 1. unfold path_with_suffix at 1.
    rewrite He. done. }
  unfold convert_obj. rewrite bool_decide_eq_true_2 by done.
  unfold try_except. rewrite Hstart.
  unfold bind at 1 3. unfold subprocess_run. cbn [w_fs log].
  split.
  - intros code fs' c Hsp Hf. fold argv. rewrite Hsp.
    unfold bind, path_with_suffix. rewrite Hsame. unfold ret.
    unfold os_remove, fs_update. cbn [w_fs set_fs].
    unfold FSys.remove. rewrite Hf. done.
  - intros Hsp. exists "cannot start the program".
    fold argv. rewrite Hsp. cbn [e_class is_Exception e_text].
    unfold print, log. cbn [w_fs w_tools w_trace].
    by rewrite <- app_assoc.
Qed.

(** ** More sample runs *)

Section MoreSampleRuns.
Import Sample Cases.

Lemma build_fidb_dry_run_witness :
  DEBUG (env true) = true
  ∧ w_fs (build_fidb (env true) "dc" sdk_root (world fs_plain)).2
    = w_fs (world fs_plain)
  ∧ ∃ evs,
      w_trace (build_fidb (env true) "dc" sdk_root (world fs_plain)).2
      = w_trace (world fs_plain) ++ evs
      ∧ Forall dry_event evs.
Proof.
  split; [reflexivity|].
  exact (build_fidb_dry_run (env true) "dc" sdk_root (world fs_plain) _ _
           eq_refl (surjective_pairing _)).
Defined.

Lemma script_exit_status_witness :
  FSys.exists_ (w_fs (world fs_no_ghidra))
    (abs (env false) (at_ ["ghidra"; "support"; "analyzeHeadless.bat"]))
  = false
  ∧ ∃ w', script (env false) "dc" sdk_root (world fs_no_ghidra) = (Exit 1, w')
      ∧ w_fs w' = fs_no_ghidra
      ∧ w_trace w' =
          [EvPrint ("Ghidra not installed or GHIDRA_HOME not set correctly."
                    +:+ String (ascii_of_nat 10) ""
                    +:+ "Not found: C:\ghidra\support\analyzeHeadless.bat")].
Proof.
  assert (H : FSys.exists_ (w_fs (world fs_no_ghidra))
                (abs (env false)
                   (at_ ["ghidra"; "support"; "analyzeHeadless.bat"]))
              = false)
    by (vm_compute; reflexivity).
  split; [exact H|].
  exact (proj2 (proj2 (script_exit_status (env false) "dc" sdk_root
                         (world fs_no_ghidra))) H).
Defined.

Lemma detect_compiler_second_folder_witness :
  has_marker ["codewarrior"; "mwerks"; "mw"] mw_obj
  ∧ ¬ has_marker ["gnu"; "sh-elf"] mw_obj
  ∧ detect_compiler (env false) mw_obj (world fs_plain)
    = (Ret (Some "shc"), world fs_plain).
Proof.
  assert (H1 : has_marker ["codewarrior"; "mwerks"; "mw"] mw_obj)
    by (apply existsb_marker; vm_compute; reflexivity).
  assert (H2 : ¬ has_marker ["gnu"; "sh-elf"] mw_obj)
    by (intros H%existsb_marker; vm_compute in H; discriminate).
  split; [exact H1|]. split; [exact H2|].
  exact (detect_compiler_second_folder (env false) mw_obj (world fs_plain)
           H1 H2).
Defined.

Lemma detect_compiler_valid_ext_witness :
  PyStr.lower (PyPath.suffix h_lib) ∈ VALID_EXTS
  ∧ (detect_compiler (env false) h_lib (world fs_hitachi)).1
    = Ret (Some "shc")
  ∧ (Some "shc" = Some "gcc" ∨ Some "shc" = Some "shc").
Proof.
  assert (H1 : PyStr.lower (PyPath.suffix h_lib) ∈ VALID_EXTS)
    by (apply (bool_decide_unpack _); vm_compute; exact I).
  assert (H2 : (detect_compiler (env false) h_lib (world fs_hitachi)).1
               = Ret (Some "shc")) by (vm_compute; reflexivity).
  split; [exact H1|]. split; [exact H2|].
  exact (proj2 (detect_compiler_valid_ext (env false) h_lib
                  (world fs_hitachi)
                  (detect_compiler (env false) h_lib (world fs_hitachi)).2
                  (Some "shc")) H1
           (pair_eta (detect_compiler (env false) h_lib (world fs_hitachi))
              _ H2)).
Defined.


Lemma extract_or_copy_no_tool_witness :
  tools_get tools_missing "ar" = Some (mkTool true ar_exe (Some false))
  ∧ extract_or_copy (env false) "ar" libx_a out
      (mkWorld fs_archive tools_missing []) =
      (Ret 0,
       log (EvPrint ("[WARN] ar not found: " +:+ pstr (env false) ar_exe
                     +:+ " - cannot process libx.a"))
           (mkWorld fs_archive tools_missing []))
  ∧ extract_or_copy (env false) "zip" libx_a out
      (mkWorld fs_archive tools_missing []) =
      (Ret 0,
       log (EvPrint "[WARN] unknown tool: zip")
           (mkWorld fs_archive tools_missing [])).
Proof.
  split; [reflexivity|]. split.
  - exact (proj1 (extract_or_copy_no_tool (env false) "ar" libx_a out
                    (mkWorld fs_archive tools_missing []))
             (mkTool true ar_exe (Some false)) eq_refl eq_refl).
  - apply (proj2 (extract_or_copy_no_tool (env false) "zip" libx_a out
                    (mkWorld fs_archive tools_missing []))).
    + by left.
    + apply (bool_decide_unpack _). vm_compute. exact I.
Defined.

Lemma cmd1_imports_witness :
  "shc" ∈ set_order (env false) {["gcc"; "shc"]}
  ∧ ∃ pre post,
      cmd1 (env false) "dc" {["gcc"; "shc"]} =
        ["C:\ghidra\support\analyzeHeadless.bat"; "ghidraproj"; "dc"]
        ++ pre ++ ["-import"; "shc"] ++ post ++
        [ "-recursive";
          "-processor";  "SuperH4:LE:32:default";
          "-preScript";  "FunctionIDHeadlessPrescript.java";
          "-postScript"; "FunctionIDHeadlessPostscript.java";
          "-scriptlog";  "script.log";
          "-log";        "analyze.log" ].
Proof.
  assert (H : "shc" ∈ set_order (env false) {["gcc"; "shc"]})
    by (apply (bool_decide_unpack _); vm_compute; exact I).
  split; [exact H|].
  exact (cmd1_imports (env false) "dc" "shc" {["gcc"; "shc"]} H).
Defined.

Lemma run_analysis_first_run_fails_witness :
  DEBUG env_failing = false
  ∧ spawn env_failing (cmd1 env_failing "dc" {["gcc"]})
      (abs env_failing work) (w_fs (world fs_plain))
    = Some (1%Z, fs_plain)
  ∧ (∃ e, e_class e = CalledProcessError
       ∧ run_analysis env_failing "dc" work 1 {["gcc"]} (world fs_plain) =
           (Raise e,
            mkWorld fs_plain (w_tools (world fs_plain))
              (w_trace (world fs_plain) ++
               [ EvPrint ("[+] Copied " +:+ pretty 1 +:+ " files");
                 EvPrint "[RUN ] analyzeHeadless (1/2)";
                 EvCheckCall (cmd1 env_failing "dc" {["gcc"]}) work ] ++
               [EvPrint ("[ERROR] analyzeHeadless first run failed: "
                         +:+ e_text e)])))
  ∧ spawn env_unstartable (cmd1 env_unstartable "dc" {["gcc"]})
      (abs env_unstartable work) (w_fs (world fs_plain)) = None
  ∧ ∃ e, is_IOError (e_class e) = true
       ∧ run_analysis env_unstartable "dc" work 1 {["gcc"]} (world fs_plain) =
           (Raise e,
            mkWorld fs_plain (w_tools (world fs_plain))
              (w_trace (world fs_plain) ++
               [ EvPrint ("[+] Copied " +:+ pretty 1 +:+ " files");
                 EvPrint "[RUN ] analyzeHeadless (1/2)";
                 EvCheckCall (cmd1 env_unstartable "dc" {["gcc"]}) work ])).
Proof.
  split; [reflexivity|]. split; [reflexivity|]. split.
  { apply (proj1 (run_analysis_first_run_fails env_failing "dc" work 1
                    {["gcc"]} (world fs_plain) eq_refl ltac:(lia))
             1%Z fs_plain eq_refl).
    lia. }
  split; [reflexivity|].
  exact (proj2 (run_analysis_first_run_fails env_unstartable "dc" work 1
                  {["gcc"]} (world fs_plain) eq_refl ltac:(lia)) eq_refl).
Defined.

Lemma resolve_tool_first_wins_witness :
  anchor sdk_root ≠ ""
  ∧ t_path (resolve_tool (env false) fs_plain (at_ ["other"])
              (resolve_tool (env false) fs_both sdk_root
                 (mkTool true (mkPath "" ["Utl"; "Dev"; "Gnu"; "Bin"; "ar.exe"])
                    None)))
    = ar_exe
  ∧ t_exists (resolve_tool (env false) fs_plain (at_ ["other"])
                (resolve_tool (env false) fs_both sdk_root
                   (mkTool true
                      (mkPath "" ["Utl"; "Dev"; "Gnu"; "Bin"; "ar.exe"])
                      None)))
    = Some true.
Proof.
  assert (H : anchor sdk_root ≠ "") by done.
  split; [exact H|].
  destruct (resolve_tool_first_wins (env false) fs_both fs_plain sdk_root
              (at_ ["other"])
              (mkTool true (mkPath "" ["Utl"; "Dev"; "Gnu"; "Bin"; "ar.exe"])
                 None) H) as (Hp & Hj & Hf & _).
  split.
  - rewrite Hp. by rewrite Hj.
  - apply Hf. vm_compute. reflexivity.
Defined.

Lemma walk_compilers_witness :
  (∀ (s : gset string) x, x ∈ set_order (env false) s ↔ x ∈ s)
  ∧ walk (env false) sdk_root work (prepared fs_both)
    = (Ret (1, {["gcc"; "shc"]}), walked fs_both)
  ∧ ({["gcc"; "shc"]} : gset string) ⊆ {["gcc"; "shc"]}
  ∧ ∃ c, head (set_order (env false) {["gcc"; "shc"]}) = Some c
         ∧ first_compiler (env false) {["gcc"; "shc"]} = ret c
         ∧ c ∈ ({["gcc"; "shc"]} : gset string)
         ∧ (c = "gcc" ∨ c = "shc").
Proof.
  assert (H1 : ∀ (s : gset string) x, x ∈ set_order (env false) s ↔ x ∈ s)
    by (intros s x; apply elem_of_elements).
  assert (H2 : walk (env false) sdk_root work (prepared fs_both)
               = (Ret (1, {["gcc"; "shc"]}), walked fs_both)).
  { apply (pair_eta (walk (env false) sdk_root work (prepared fs_both))).
    vm_compute. reflexivity. }
  split; [exact H1|]. split; [exact H2|].
  destruct (walk_compilers (env false) sdk_root work (prepared fs_both)
              (walked fs_both) 1 {["gcc"; "shc"]} H1 H2) as [Hs Hc].
  split; [exact Hs|]. apply Hc. lia.
Defined.

Lemma should_ignore_spec_witness :
  (∀ d, d ∈ set_order (env false) {[ "demo"; "sample"; "vmutool" ]}
        ↔ d ∈ ({[ "demo"; "sample"; "vmutool" ]} : gset string))
  ∧ ∃ b w', should_ignore (env false) demo_obj (world fs_plain) = (Ret b, w')
      ∧ w_fs w' = w_fs (world fs_plain)
      ∧ w_tools w' = w_tools (world fs_plain)
      ∧ (DEBUG (env false) = false → w' = world fs_plain)
      ∧ (b = true ↔
         PyStr.lower (PyPath.name demo_obj) = "copying.lib"
         ∨ ∃ d, d ∈ ({[ "demo"; "sample"; "vmutool" ]} : gset string)
                ∧ (PyStr.contains ("/" +:+ d +:+ "/")
                     (PyStr.lower (pstr (env false) demo_obj)) = true
                   ∨ PyStr.contains ("\" +:+ d +:+ "\")
                       (PyStr.lower (pstr (env false) demo_obj)) = true)).
Proof.
  assert (H : ∀ d, d ∈ set_order (env false) {[ "demo"; "sample"; "vmutool" ]}
                   ↔ d ∈ ({[ "demo"; "sample"; "vmutool" ]} : gset string))
    by (intros d; apply elem_of_elements).
  split; [exact H|].
  exact (should_ignore_spec (env false) demo_obj (world fs_plain) H).
Defined.

Lemma should_ignore_inside_dir_witness :
  (∀ x, x ∈ set_order (env false) {[ "demo"; "sample"; "vmutool" ]}
        ↔ x ∈ ({[ "demo"; "sample"; "vmutool" ]} : gset string))
  ∧ segs demo_obj = ["sdk"; "r11"] ++ ("Demo" :: ["x.o"])
  ∧ PyStr.lower "Demo" ∈ ["demo"; "sample"; "vmutool"]
  ∧ ∃ w', should_ignore (env false) demo_obj (world fs_plain)
          = (Ret true, w').
Proof.
  assert (H1 : ∀ x, x ∈ set_order (env false) {[ "demo"; "sample"; "vmutool" ]}
                    ↔ x ∈ ({[ "demo"; "sample"; "vmutool" ]} : gset string))
    by (intros d; apply elem_of_elements).
  assert (H2 : PyStr.lower "Demo" ∈ ["demo"; "sample"; "vmutool"])
    by (apply (bool_decide_unpack _); vm_compute; exact I).
  split; [exact H1|]. split; [reflexivity|]. split; [exact H2|].
  apply (should_ignore_inside_dir (env false) demo_obj ["sdk"; "r11"]
           ["x.o"] "Demo" (world fs_plain) H1).
  - by right.
  - reflexivity.
  - done.
  - by left.
  - exact H2.
Defined.

Lemma walk_step_skips_witness :
  DEBUG (env false) = false
  ∧ (PyStr.lower (PyPath.suffix readme)
     ∉ [".o"; ".a"; ".elf"; ".obj"; ".lib"])
  ∧ walk_step (env false) sdk_root work (0, ∅) readme (prepared fs_bare)
    = (Ret (0, ∅), prepared fs_bare).
Proof.
  assert (H : PyStr.lower (PyPath.suffix readme)
              ∉ [".o"; ".a"; ".elf"; ".obj"; ".lib"])
    by (apply (bool_decide_unpack _); vm_compute; exact I).
  split; [reflexivity|]. split; [exact H|].
  apply (walk_step_skips (env false) sdk_root work (0, ∅) readme
           (prepared fs_bare) eq_refl).
  - intros d. apply elem_of_elements.
  - right. by left.
Defined.

Lemma create_extra_files_effect_witness :
  FSys.is_dir fs_again (abs (env false) work) = true
  ∧ fs_again !! abs (env false) (work // "CreateMultipleLibraries.properties")
    = None
  ∧ ∃ w', create_extra_files (env false) work "dc" "gcc"
            (world fs_again) = (Ret tt, w')
      ∧ w_fs w' !! abs (env false)
                     (work // "CreateMultipleLibraries.properties")
        = Some (File
                  ("Duplicate Results File OK = duplicates.txt" +:+ nl +:+
                   "Do Duplication Detection Do you want to detect duplicates = true"
                   +:+ nl +:+
                   "Choose destination FidDB Please choose the destination FidDB for population = dc.fidb"
                   +:+ nl +:+
                   "Select root folder containing all libraries (at a depth of 3): = /gcc"
                   +:+ nl +:+
                   "Common symbols file (optional): OK = common_symbols.txt"
                   +:+ nl +:+
                   "Enter LanguageID To Process Language ID: = SuperH4:LE:32:default"
                   +:+ nl) false)
      ∧ w_fs w' !! abs (env false) (work // "duplicates.txt")
        = Some (File "" false).
Proof.
  assert (H1 : FSys.is_dir fs_again (abs (env false) work) = true)
    by (vm_compute; reflexivity).
  assert (H2 : fs_again
                 !! abs (env false)
                      (work // "CreateMultipleLibraries.properties") = None)
    by (vm_compute; reflexivity).
  assert (H3 : fs_again !! abs (env false) (work // "duplicates.txt") = None)
    by (vm_compute; reflexivity).
  split; [exact H1|]. split; [exact H2|].
  destruct (proj1 (create_extra_files_effect (env false) work "dc" "gcc"
                     (world fs_again)) H1)
    as (w' & Hrun & Hp & Hd & _).
  - intros t. change (w_fs (world fs_again)) with fs_again. by rewrite H2.
  - change (w_fs (world fs_again)) with fs_again. by rewrite H2.
  - exists w'. split; [exact Hrun|]. split; [exact Hp|].
    rewrite Hd. change (w_fs (world fs_again)) with fs_again. by rewrite H3.
Defined.

Lemma prepare_makes_work_dir_witness :
  DEBUG (env false) = false
  ∧ w_fs (world fs_plain) !! abs (env false) (mkPath "" ["fid_work_dc"]) = None
  ∧ (prepare (env false) sdk_root (mkPath "" ["fid_work_dc"]) (world fs_plain)).1
    = Ret true
  ∧ w_fs (prepared fs_plain) !! abs (env false) (mkPath "" ["fid_work_dc"])
    = Some Dir
  ∧ w_fs (prepared fs_plain)
      !! abs (env false) (mkPath "" ["fid_work_dc"] // "ghidraproj")
    = Some Dir.
Proof.
  assert (H1 : w_fs (world fs_plain)
                 !! abs (env false) (mkPath "" ["fid_work_dc"]) = None)
    by (vm_compute; reflexivity).
  assert (H2 : (prepare (env false) sdk_root (mkPath "" ["fid_work_dc"])
                  (world fs_plain)).1 = Ret true)
    by (vm_compute; reflexivity).
  split; [reflexivity|]. split; [exact H1|]. split; [exact H2|].
  destruct (prepare_makes_work_dir (env false) "dc" sdk_root
              (world fs_plain) (prepared fs_plain) (Ret true) eq_refl H1
              (pair_eta _ _ H2)) as (_ & _ & _ & Hd & Hg).
  by split.
Defined.



Lemma convert_obj_removes_obj_witness :
  PyPath.suffix m_obj = ".obj"
  ∧ PyPath.with_suffix m_obj ".elf" = Some (at_ ["tmp"; "t"; "m.elf"])
  ∧ tools_get tools_found "elfcnv" = Some (mkTool true elfcnv_exe (Some true))
  ∧ convert_obj (env false) tmp_t m_obj (mkWorld fs_members tools_found []) =
      (Ret tt,
       mkWorld (delete m_obj fs_members) tools_found
         [EvRun ["C:\sdk\r11\Utl\Dev\Hitachi\elfcnv.exe"; "m.obj"; "m.elf"]
                tmp_t])
  ∧ ∃ text,
      convert_obj env_unstartable tmp_t m_obj
        (mkWorld fs_members tools_found []) =
      (Ret tt,
       mkWorld fs_members tools_found
         [EvRun ["C:\sdk\r11\Utl\Dev\Hitachi\elfcnv.exe"; "m.obj"; "m.elf"]
                tmp_t;
          EvPrint ("[ERROR] elfcnv failed for m.obj: " +:+ text)]).
Proof.
  assert (H1 : PyPath.suffix m_obj = ".obj") by (vm_compute; reflexivity).
  assert (H2 : PyPath.with_suffix m_obj ".elf"
               = Some (at_ ["tmp"; "t"; "m.elf"]))
    by (vm_compute; reflexivity).
  split; [exact H1|]. split; [exact H2|]. split; [reflexivity|]. split.
  - exact (proj1 (convert_obj_removes_obj (env false) tmp_t m_obj
                    (at_ ["tmp"; "t"; "m.elf"])
                    (mkTool true elfcnv_exe (Some true))
                    (mkWorld fs_members tools_found []) H1 H2 eq_refl)
             0%Z fs_members "hitachi" eq_refl eq_refl).
  - exact (proj2 (convert_obj_removes_obj env_unstartable tmp_t m_obj
                    (at_ ["tmp"; "t"; "m.elf"])
                    (mkTool true elfcnv_exe (Some true))
                    (mkWorld fs_members tools_found []) H1 H2 eq_refl)
             eq_refl).
Defined.



End MoreSampleRuns.
